(** * Always With You: the real-time coordination layer

    A shallow embedding of the websocket server of the repository
    (apps/server/src/websocket): the connection registry
    ([ConnectionManager], index.ts), the presence handlers (presence.ts),
    the chat relay (chat.ts) and the call-signaling engine (signaling.ts),
    followed by the properties the specification states about them.

    Conventions of the embedding.
    - A JavaScript [Map] is an insertion-ordered association list
      ([JsMap]), a [Set] of strings an insertion-ordered list ([JsSet]):
      [forEach] and [Array.from] visit entries in insertion order, and the
      order of the resulting socket writes is observable.
    - Dates are milliseconds since the epoch, in [Z].
    - A handler is a computation in the monad [M]: it threads the
      process state ([World]), appends to a trace of calls made to the
      outside ([Event]) and may throw.  A handler takes the typed
      payload of an envelope that has passed its schema.  One handler
      invocation is one step: the embedding does not interleave two
      handlers at their [await] points.
    - What the outside decides is read from an [Env]: the clock, whether
      [socket.send] throws on a given socket, whether a database call
      reports an error.
    - Envelopes carry [type], [namespace] and [data]; the generated [id]
      and [timestamp] fields, which no handler reads, are left out.
      Logger calls are left out as well. *)

From Stdlib Require Import String List ZArith Bool Arith Lia.
Import ListNotations.
Open Scope string_scope.
Open Scope list_scope.

Set Implicit Arguments.

(** ** JavaScript containers *)

Module JsMap.
Section WithValue.
Context {V : Type}.

Definition t := list (string * V).

Definition empty : t := [].

Fixpoint get (k : string) (m : t) : option V :=
  match m with
  | [] => None
  | (k', v) :: m' => if String.eqb k k' then Some v else get k m'
  end.

Definition has (k : string) (m : t) : bool :=
  match get k m with Some _ => true | None => false end.

(** [set] keeps the position of a key that is already present and
    appends a new key at the end. *)
Fixpoint set (k : string) (v : V) (m : t) : t :=
  match m with
  | [] => [(k, v)]
  | (k', v') :: m' =>
      if String.eqb k k' then (k, v) :: m' else (k', v') :: set k v m'
  end.

Definition delete (k : string) (m : t) : t :=
  filter (fun kv => negb (String.eqb k (fst kv))) m.

Definition keys (m : t) : list string := map fst m.
Definition values (m : t) : list V := map snd m.
Definition size (m : t) : nat := length m.

(** Representation invariant: a key occurs once. *)
Definition wf (m : t) : Prop := NoDup (keys m).
End WithValue.
Arguments t V : clear implicits.
End JsMap.

Module JsSet.
Definition t := list string.
Definition empty : t := [].
Definition has (x : string) (s : t) : bool := existsb (String.eqb x) s.
Definition add (x : string) (s : t) : t := if has x s then s else s ++ [x].
Definition delete (x : string) (s : t) : t :=
  filter (fun y => negb (String.eqb x y)) s.
Definition size (s : t) : nat := length s.
End JsSet.

(** ** Data model *)

Inductive UserType := student | parent | admin.
Inductive PresenceStatus := online | away | busy | offline.
Inductive CallStatus := initiated | ringing | connected | ended.
Inductive CallType := video | voice.
Inductive MessageType := text | quick_text | photo_nudge | system.
Inductive PairingStatus := pending | active | paused | revoked.

Scheme Equality for UserType.
Scheme Equality for CallStatus.
Scheme Equality for PairingStatus.
Scheme Equality for PresenceStatus.

(** The handle of the underlying duplex stream. *)
Definition SocketStream := nat.

(** A JSON value the server only passes along (metadata, SDP blobs, ICE
    candidates), kept as its text. *)
Definition Json := string.

(** [interface WebSocketConnection] (index.ts). *)
Module Connection.
Record t := mk {
  id : string;
  userId : string;
  orgId : string;
  userType : UserType;
  socket : SocketStream;
  lastHeartbeat : Z;
  namespace : string
}.
End Connection.

(** [interface ActiveCall] (signaling.ts). *)
Module Call.
Record t := mk {
  id : string;
  pairingId : string;
  callerId : string;
  calleeId : string;
  callType : CallType;
  status : CallStatus;
  startedAt : Z;
  connectedAt : option Z;
  endedAt : option Z
}.

Definition with_status (s : CallStatus) (c : t) : t :=
  mk (id c) (pairingId c) (callerId c) (calleeId c) (callType c) s
     (startedAt c) (connectedAt c) (endedAt c).
Definition with_connectedAt (d : Z) (c : t) : t :=
  mk (id c) (pairingId c) (callerId c) (calleeId c) (callType c) (status c)
     (startedAt c) (Some d) (endedAt c).
Definition with_endedAt (d : Z) (c : t) : t :=
  mk (id c) (pairingId c) (callerId c) (calleeId c) (callType c) (status c)
     (startedAt c) (connectedAt c) (Some d).
End Call.

(** The tables of the store the handlers read and write (the columns the
    handlers touch). *)
Module Db.
Record Pairing := mkPairing {
  pairing_id : string;
  student_id : string;
  parent_id : string;
  pairing_status : PairingStatus
}.

Record Profile := mkProfile {
  profile_id : string;
  user_type : UserType;
  visible_to_partner : bool;
  dnd_enabled : bool;
  push_subscription : option Json
}.

Record PresenceRow := mkPresence {
  user_id : string;
  presence_status : PresenceStatus;
  last_heartbeat : Z;
  metadata : Json
}.

Record MessageRow := mkMessage {
  message_id : string;
  message_pairing_id : string;
  sender_id : string;
  content : string;
  message_type : MessageType;
  created_at : Z;
  read_at : option Z
}.

Record CallRow := mkCall {
  call_id : string;
  call_pairing_id : string;
  caller_id : string;
  callee_id : string;
  call_type : CallType;
  call_status : CallStatus;
  started_at : Z;
  connected_at : option Z;
  ended_at : option Z;
  duration_seconds : Z;
  end_reason : option string
}.

Record t := mk {
  pairings : list Pairing;
  profiles : list Profile;
  presence : list PresenceRow;
  messages : list MessageRow;
  calls : list CallRow
}.
End Db.

(** The snapshot [getUserPresenceState] returns. *)
Record PresenceState := mkPresenceState {
  own : option Db.PresenceRow;
  partners : list (string * Db.PresenceRow)
}.

(** The [data] field of the envelopes the server sends. *)
Inductive Payload :=
| ErrorData (error message : string)
| CallErrorData (callId error message : string)
| MessageReceivedData (message : Db.MessageRow) (pairingId : string)
| MessageSentData (message : Db.MessageRow) (tempId : string)
| TypingIndicatorData (userId pairingId : string) (isTyping : bool)
| PartnerPresenceData (userId : string) (status : PresenceStatus)
    (metadata : option Json)
| PresenceStateData (state : PresenceState)
| HeartbeatAckData (timestamp : Z)
| PresenceUpdatedData (status : PresenceStatus) (timestamp : Z)
| CallOfferReceivedData (callId pairingId callerId : string)
    (callType : CallType) (offer : Json)
| CallOfferSentData (callId : string) (status : CallStatus)
| CallAnswerReceivedData (callId : string) (answer : Json)
| CallAnsweredData (callId : string) (status : CallStatus)
| CallCandidateReceivedData (callId : string) (candidate : Json)
| CallEndedData (callId reason : string) (duration : Z).

Module Envelope.
Record t := mk {
  type : string;
  namespace : string;
  data : Payload
}.
End Envelope.

(** ** The outside: clock, sockets, store *)

(** The database calls of the handlers, one name per call site. *)
Inductive DbCall :=
| Q_getUserProfile
| Q_hasPermission_pairing
| Q_insert_message
| Q_message_pairing
| Q_clearTyping_pairing
| Q_push_presence
| Q_push_profile
| Q_upsert_presence
| Q_notify_pairings
| Q_notify_profile
| Q_state_own
| Q_state_pairings
| Q_state_partner (partnerId : string)
| Q_offer_pairing
| Q_insert_call
| Q_update_ringing
| Q_update_connected
| Q_update_ended (callId : string).

Record Env := mkEnv {
  now : Z;                                (* new Date() *)
  uuidv4 : string;                        (* uuidv4() *)
  sendThrows : SocketStream -> bool;      (* socket.send throws *)
  dbError : DbCall -> bool                (* the call reports an error *)
}.

(** The writes a handler asks of the store. *)
Inductive DbWriteOp :=
| InsertMessage (row : Db.MessageRow)
| UpsertPresence (row : Db.PresenceRow)
| InsertCall (row : Db.CallRow)
| UpdateCallRinging (callId : string)
| UpdateCallConnected (callId : string) (connected_at : Z)
| UpdateCallEnded (callId : string) (ended_at duration_seconds : Z)
    (end_reason : string).

(** The calls a handler makes to the outside, in program order. *)
Inductive Event :=
| SocketSend (s : SocketStream) (msg : Envelope.t)
| DbWrite (op : DbWriteOp) (ok : bool)
| SetTimeout (callId : string) (delay : Z)
| Terminate (s : SocketStream).

(** ** Process state *)

(** [class ConnectionManager]: the two private maps. *)
Record ConnectionManager := mkCM {
  connections : JsMap.t Connection.t;
  userConnections : JsMap.t JsSet.t
}.

Record World := mkWorld {
  connectionManager : ConnectionManager;
  activeCalls : JsMap.t Call.t;
  supabase : Db.t
}.

Definition with_connectionManager (cm : ConnectionManager) (w : World) :=
  mkWorld cm (activeCalls w) (supabase w).
Definition with_activeCalls (calls : JsMap.t Call.t) (w : World) :=
  mkWorld (connectionManager w) calls (supabase w).
Definition with_supabase (db : Db.t) (w : World) :=
  mkWorld (connectionManager w) (activeCalls w) db.

(** ** The handler monad: state, trace, exceptions *)

Inductive Outcome (A : Type) :=
| Returned (a : A)
| Thrown.
Arguments Thrown {A}.

Record Result (A : Type) := mkResult {
  outcome : Outcome A;
  world : World;
  trace : list Event
}.

Definition M (A : Type) := World -> Result A.

Definition ret {A} (a : A) : M A := fun w => mkResult (Returned a) w [].

Definition bind {A B} (m : M A) (f : A -> M B) : M B := fun w =>
  match m w with
  | mkResult (Returned a) w1 t1 =>
      match f a w1 with
      | mkResult o w2 t2 => mkResult o w2 (t1 ++ t2)
      end
  | mkResult Thrown w1 t1 => mkResult Thrown w1 t1
  end.

Definition throw {A} : M A := fun w => mkResult Thrown w [].

(** [try { m } catch (error) { h }]: the state reached at the throw is
    kept. *)
Definition tryCatch (m h : M unit) : M unit := fun w =>
  match m w with
  | mkResult (Returned a) w1 t1 => mkResult (Returned a) w1 t1
  | mkResult Thrown w1 t1 =>
      match h w1 with
      | mkResult o w2 t2 => mkResult o w2 (t1 ++ t2)
      end
  end.

Definition emit (e : Event) : M unit := fun w => mkResult (Returned tt) w [e].
Definition gets {A} (f : World -> A) : M A :=
  fun w => mkResult (Returned (f w)) w [].
Definition modify (f : World -> World) : M unit :=
  fun w => mkResult (Returned tt) (f w) [].

Declare Scope handler_scope.
Delimit Scope handler_scope with handler.
Notation "x <- c1 ;; c2" := (bind c1 (fun x => c2))
  (at level 100, c1 at next level, right associativity) : handler_scope.
Notation "c1 ;; c2" := (bind c1 (fun _ => c2))
  (at level 100, right associativity) : handler_scope.
Open Scope handler_scope.

(** [socket.send(JSON.stringify(message))]. *)
Definition socketSend (env : Env) (s : SocketStream) (msg : Envelope.t)
  : M unit :=
  emit (SocketSend s msg) ;;
  if sendThrows env s then throw else ret tt.

(** ** ConnectionManager (index.ts) *)

Definition addConnection (connection : Connection.t) (cm : ConnectionManager)
  : ConnectionManager :=
  let conns := JsMap.set (Connection.id connection) connection (connections cm) in
  let uc :=
    if negb (JsMap.has (Connection.userId connection) (userConnections cm))
    then JsMap.set (Connection.userId connection) JsSet.empty (userConnections cm)
    else userConnections cm in
  match JsMap.get (Connection.userId connection) uc with
  | Some ids =>
      mkCM conns
        (JsMap.set (Connection.userId connection)
           (JsSet.add (Connection.id connection) ids) uc)
  | None => mkCM conns uc
  end.

Definition removeConnection (connectionId : string) (cm : ConnectionManager)
  : ConnectionManager :=
  match JsMap.get connectionId (connections cm) with
  | Some connection =>
      let conns := JsMap.delete connectionId (connections cm) in
      match JsMap.get (Connection.userId connection) (userConnections cm) with
      | Some ids =>
          let ids' := JsSet.delete connectionId ids in
          if Nat.eqb (JsSet.size ids') 0
          then mkCM conns
                 (JsMap.delete (Connection.userId connection) (userConnections cm))
          else mkCM conns
                 (JsMap.set (Connection.userId connection) ids' (userConnections cm))
      | None => mkCM conns (userConnections cm)
      end
  | None => cm
  end.

Definition getConnection (connectionId : string) (cm : ConnectionManager)
  : option Connection.t :=
  JsMap.get connectionId (connections cm).

Fixpoint filterSome {A} (l : list (option A)) : list A :=
  match l with
  | [] => []
  | Some a :: l' => a :: filterSome l'
  | None :: l' => filterSome l'
  end.

Definition getUserConnections (userId : string) (cm : ConnectionManager)
  : list Connection.t :=
  let connectionIds :=
    match JsMap.get userId (userConnections cm) with
    | Some ids => ids
    | None => JsSet.empty
    end in
  filterSome (map (fun id => JsMap.get id (connections cm)) connectionIds).

Definition excluded (excludeConnectionId : option string) (conn : Connection.t)
  : bool :=
  match excludeConnectionId with
  | Some x => String.eqb (Connection.id conn) x
  | None => false
  end.

(** The body of [connections.forEach] in [broadcastToUser]: the list is
    the snapshot taken before the loop. *)
Fixpoint broadcastLoop (env : Env) (message : Envelope.t)
  (excludeConnectionId : option string) (conns : list Connection.t) : M unit :=
  match conns with
  | [] => ret tt
  | conn :: rest =>
      (if negb (excluded excludeConnectionId conn)
       then tryCatch
              (socketSend env (Connection.socket conn) message)
              (modify (fun w =>
                 with_connectionManager
                   (removeConnection (Connection.id conn) (connectionManager w)) w))
       else ret tt) ;;
      broadcastLoop env message excludeConnectionId rest
  end.

Definition broadcastToUser (env : Env) (userId : string) (message : Envelope.t)
  (excludeConnectionId : option string) : M unit :=
  connections <- gets (fun w => getUserConnections userId (connectionManager w)) ;;
  broadcastLoop env message excludeConnectionId connections.

(** ** The store *)

(** [.single()]: exactly one row, otherwise an error. *)
Definition single {A} (rows : list A) : option A :=
  match rows with
  | [r] => Some r
  | _ => None
  end.

Definition selectSingle {A} (env : Env) (q : DbCall) (rows : list A)
  : option A :=
  if dbError env q then None else single rows.

Definition selectRows {A} (env : Env) (q : DbCall) (rows : list A)
  : option (list A) :=
  if dbError env q then None else Some rows.

Definition upsertPresence (row : Db.PresenceRow) (rows : list Db.PresenceRow)
  : list Db.PresenceRow :=
  if existsb (fun r => String.eqb (Db.user_id r) (Db.user_id row)) rows
  then map (fun r => if String.eqb (Db.user_id r) (Db.user_id row)
                     then row else r) rows
  else rows ++ [row].

Definition updateCallRow (callId : string) (f : Db.CallRow -> Db.CallRow)
  (rows : list Db.CallRow) : list Db.CallRow :=
  map (fun r => if String.eqb (Db.call_id r) callId then f r else r) rows.

Definition applyWrite (op : DbWriteOp) (db : Db.t) : Db.t :=
  match op with
  | InsertMessage row =>
      Db.mk (Db.pairings db) (Db.profiles db) (Db.presence db)
        (Db.messages db ++ [row]) (Db.calls db)
  | UpsertPresence row =>
      Db.mk (Db.pairings db) (Db.profiles db)
        (upsertPresence row (Db.presence db)) (Db.messages db) (Db.calls db)
  | InsertCall row =>
      Db.mk (Db.pairings db) (Db.profiles db) (Db.presence db)
        (Db.messages db) (Db.calls db ++ [row])
  | UpdateCallRinging callId =>
      Db.mk (Db.pairings db) (Db.profiles db) (Db.presence db) (Db.messages db)
        (updateCallRow callId
           (fun r => Db.mkCall (Db.call_id r) (Db.call_pairing_id r)
              (Db.caller_id r) (Db.callee_id r) (Db.call_type r) ringing
              (Db.started_at r) (Db.connected_at r) (Db.ended_at r)
              (Db.duration_seconds r) (Db.end_reason r))
           (Db.calls db))
  | UpdateCallConnected callId at_ =>
      Db.mk (Db.pairings db) (Db.profiles db) (Db.presence db) (Db.messages db)
        (updateCallRow callId
           (fun r => Db.mkCall (Db.call_id r) (Db.call_pairing_id r)
              (Db.caller_id r) (Db.callee_id r) (Db.call_type r) connected
              (Db.started_at r) (Some at_) (Db.ended_at r)
              (Db.duration_seconds r) (Db.end_reason r))
           (Db.calls db))
  | UpdateCallEnded callId at_ duration reason =>
      Db.mk (Db.pairings db) (Db.profiles db) (Db.presence db) (Db.messages db)
        (updateCallRow callId
           (fun r => Db.mkCall (Db.call_id r) (Db.call_pairing_id r)
              (Db.caller_id r) (Db.callee_id r) (Db.call_type r) ended
              (Db.started_at r) (Db.connected_at r) (Some at_)
              duration (Some reason))
           (Db.calls db))
  end.

(** A write: the store applies it unless the call reports an error. *)
Definition dbWrite (env : Env) (q : DbCall) (op : DbWriteOp) : M bool :=
  fun w =>
    let ok := negb (dbError env q) in
    mkResult (Returned ok)
      (with_supabase (if ok then applyWrite op (supabase w) else supabase w) w)
      [DbWrite op ok].

(** ** Call signaling (signaling.ts) *)

Module CallOffer.
Record t := mk {
  callId : string; pairingId : string; senderId : string; targetId : string;
  callType : CallType; offer : Json
}.
End CallOffer.

Module CallAnswer.
Record t := mk {
  callId : string; pairingId : string; senderId : string; targetId : string;
  answer : Json
}.
End CallAnswer.

Module CallCandidate.
Record t := mk {
  callId : string; pairingId : string; senderId : string; targetId : string;
  candidate : Json
}.
End CallCandidate.

Module CallHangup.
Record t := mk {
  callId : string; pairingId : string; senderId : string; targetId : string;
  reason : option string
}.
End CallHangup.

Definition ringingTimeoutMs : Z := 30000.

Definition callError (callId error message : string) : Envelope.t :=
  Envelope.mk "call_error" "signaling" (CallErrorData callId error message).

(** [pairing.student_id === userId ? pairing.parent_id : pairing.student_id] *)
Definition otherMember (pairing : Db.Pairing) (userId : string) : string :=
  if String.eqb (Db.student_id pairing) userId
  then Db.parent_id pairing
  else Db.student_id pairing.

(** [(call.callerId === userId || call.calleeId === userId) &&
     call.status !== 'ended'] *)
Definition inCall (userId : string) (call : Call.t) : bool :=
  (String.eqb (Call.callerId call) userId
   || String.eqb (Call.calleeId call) userId)
  && negb (CallStatus_beq (Call.status call) ended).

(** An assignment to fields of the call object held under [callId]. *)
Definition mutateCall (callId : string) (f : Call.t -> Call.t) : M unit :=
  modify (fun w =>
    match JsMap.get callId (activeCalls w) with
    | Some call => with_activeCalls (JsMap.set callId (f call) (activeCalls w)) w
    | None => w
    end).

Definition activePairing (pairingId : string) (p : Db.Pairing) : bool :=
  String.eqb (Db.pairing_id p) pairingId
  && PairingStatus_beq (Db.pairing_status p) active.

Definition handleCallOffer (env : Env) (connection : Connection.t)
  (offerMessage : CallOffer.t) : M unit :=
  let userId := Connection.userId connection in
  let sock := Connection.socket connection in
  tryCatch
    (db <- gets supabase ;;
     match selectSingle env Q_offer_pairing
             (filter (activePairing (CallOffer.pairingId offerMessage))
                (Db.pairings db)) with
     | None =>
         socketSend env sock
           (callError (CallOffer.callId offerMessage) "Invalid pairing"
              "Pairing not found or not active")
     | Some pairing =>
         if negb (String.eqb (Db.student_id pairing) userId)
            && negb (String.eqb (Db.parent_id pairing) userId)
         then
           socketSend env sock
             (callError (CallOffer.callId offerMessage) "Forbidden"
                "You are not part of this pairing")
         else
           let calleeId := otherMember pairing userId in
           calls <- gets activeCalls ;;
           match find (inCall calleeId) (JsMap.values calls) with
           | Some _ =>
               socketSend env sock
                 (callError (CallOffer.callId offerMessage) "User busy"
                    "The user is currently in another call")
           | None =>
               let call :=
                 Call.mk (CallOffer.callId offerMessage)
                   (CallOffer.pairingId offerMessage) userId calleeId
                   (CallOffer.callType offerMessage) initiated (now env)
                   None None in
               modify (fun w =>
                 with_activeCalls
                   (JsMap.set (Call.id call) call (activeCalls w)) w) ;;
               dbWrite env Q_insert_call
                 (InsertCall
                    (Db.mkCall (Call.id call) (Call.pairingId call)
                       (Call.callerId call) (Call.calleeId call)
                       (Call.callType call) initiated (Call.startedAt call)
                       None None 0%Z None)) ;;
               broadcastToUser env calleeId
                 (Envelope.mk "call_offer_received" "signaling"
                    (CallOfferReceivedData (Call.id call) (Call.pairingId call)
                       (Call.callerId call) (Call.callType call)
                       (CallOffer.offer offerMessage)))
                 None ;;
               mutateCall (Call.id call) (Call.with_status ringing) ;;
               dbWrite env Q_update_ringing (UpdateCallRinging (Call.id call)) ;;
               socketSend env sock
                 (Envelope.mk "call_offer_sent" "signaling"
                    (CallOfferSentData (Call.id call) ringing)) ;;
               emit (SetTimeout (Call.id call) ringingTimeoutMs)
           end
     end)
    (ret tt).

Definition handleCallAnswer (env : Env) (connection : Connection.t)
  (answerMessage : CallAnswer.t) : M unit :=
  let sock := Connection.socket connection in
  tryCatch
    (calls <- gets activeCalls ;;
     match JsMap.get (CallAnswer.callId answerMessage) calls with
     | None =>
         socketSend env sock
           (callError (CallAnswer.callId answerMessage) "Call not found"
              "Call does not exist or has ended")
     | Some call =>
         if negb (String.eqb (Call.calleeId call) (Connection.userId connection))
         then
           socketSend env sock
             (callError (Call.id call) "Forbidden"
                "You are not the callee for this call")
         else
           mutateCall (CallAnswer.callId answerMessage)
             (fun c => Call.with_connectedAt (now env)
                         (Call.with_status connected c)) ;;
           dbWrite env Q_update_connected
             (UpdateCallConnected (Call.id call) (now env)) ;;
           broadcastToUser env (Call.callerId call)
             (Envelope.mk "call_answer_received" "signaling"
                (CallAnswerReceivedData (Call.id call)
                   (CallAnswer.answer answerMessage)))
             None ;;
           socketSend env sock
             (Envelope.mk "call_answered" "signaling"
                (CallAnsweredData (Call.id call) connected))
     end)
    (ret tt).

Definition handleCallCandidate (env : Env) (connection : Connection.t)
  (candidateMessage : CallCandidate.t) : M unit :=
  let userId := Connection.userId connection in
  tryCatch
    (calls <- gets activeCalls ;;
     match JsMap.get (CallCandidate.callId candidateMessage) calls with
     | None => ret tt
     | Some call =>
         if negb (String.eqb (Call.callerId call) userId)
            && negb (String.eqb (Call.calleeId call) userId)
         then ret tt
         else
           let targetId :=
             if String.eqb (Call.callerId call) userId
             then Call.calleeId call else Call.callerId call in
           broadcastToUser env targetId
             (Envelope.mk "call_candidate_received" "signaling"
                (CallCandidateReceivedData (Call.id call)
                   (CallCandidate.candidate candidateMessage)))
             None
     end)
    (ret tt).

Definition callEnded (callId reason : string) (duration : Z) : Envelope.t :=
  Envelope.mk "call_ended" "signaling" (CallEndedData callId reason duration).

(** [call.connectedAt ? Math.floor((endedAt - connectedAt) / 1000) : 0] *)
Definition callDuration (connectedAt : option Z) (endedAt : Z) : Z :=
  match connectedAt with
  | Some c => ((endedAt - c) / 1000)%Z
  | None => 0%Z
  end.

Definition endCall (env : Env) (callId reason : string) : M unit :=
  calls <- gets activeCalls ;;
  match JsMap.get callId calls with
  | None => ret tt
  | Some call0 =>
      mutateCall callId
        (fun c => Call.with_endedAt (now env) (Call.with_status ended c)) ;;
      let call := Call.with_endedAt (now env) (Call.with_status ended call0) in
      let duration := callDuration (Call.connectedAt call) (now env) in
      dbWrite env (Q_update_ended (Call.id call))
        (UpdateCallEnded (Call.id call) (now env) duration reason) ;;
      let hangupMessage := callEnded (Call.id call) reason duration in
      broadcastToUser env (Call.callerId call) hangupMessage None ;;
      broadcastToUser env (Call.calleeId call) hangupMessage None ;;
      modify (fun w => with_activeCalls (JsMap.delete callId (activeCalls w)) w)
  end.

(** [hangupMessage.data.reason || 'hangup'] *)
Definition hangupReason (reason : option string) : string :=
  match reason with
  | Some r => if String.eqb r EmptyString then "hangup" else r
  | None => "hangup"
  end.

Definition handleCallHangup (env : Env) (connection : Connection.t)
  (hangupMessage : CallHangup.t) : M unit :=
  tryCatch
    (endCall env (CallHangup.callId hangupMessage)
       (hangupReason (CallHangup.reason hangupMessage)))
    (ret tt).

Fixpoint endCalls (env : Env) (reason : string) (userCalls : list Call.t)
  : M unit :=
  match userCalls with
  | [] => ret tt
  | call :: rest =>
      endCall env (Call.id call) reason ;;
      endCalls env reason rest
  end.

Definition endUserCalls (env : Env) (userId reason : string) : M unit :=
  userCalls <- gets (fun w =>
    filter (inCall userId) (JsMap.values (activeCalls w))) ;;
  endCalls env reason userCalls.

(** The callback [handleCallOffer] hands to [setTimeout]. *)
Definition ringingTimeout (env : Env) (callId : string) : M unit :=
  currentCall <- gets (fun w => JsMap.get callId (activeCalls w)) ;;
  match currentCall with
  | Some c =>
      if CallStatus_beq (Call.status c) ringing
      then endCall env callId "timeout"
      else ret tt
  | None => ret tt
  end.

(** [socket.on('close', ...)] of [signalingHandler]. *)
Definition signalingOnClose (env : Env) (connection : Connection.t) : M unit :=
  tryCatch
    (modify (fun w =>
       with_connectionManager
         (removeConnection (Connection.id connection) (connectionManager w)) w) ;;
     endUserCalls env (Connection.userId connection) "connection_lost")
    (ret tt).

(** ** Presence (presence.ts) *)

Definition involves (userId : string) (p : Db.Pairing) : bool :=
  String.eqb (Db.student_id p) userId || String.eqb (Db.parent_id p) userId.

(** [.or(student_id.eq.U,parent_id.eq.U).eq('status', 'active')] *)
Definition activePairingsOf (userId : string) (db : Db.t) : list Db.Pairing :=
  filter (fun p => involves userId p
                   && PairingStatus_beq (Db.pairing_status p) active)
    (Db.pairings db).

Definition profileOf (userId : string) (db : Db.t) : list Db.Profile :=
  filter (fun pr => String.eqb (Db.profile_id pr) userId) (Db.profiles db).

Definition presenceOf (userId : string) (db : Db.t) : list Db.PresenceRow :=
  filter (fun r => String.eqb (Db.user_id r) userId) (Db.presence db).

Definition pairingById (pairingId : string) (db : Db.t) : list Db.Pairing :=
  filter (fun p => String.eqb (Db.pairing_id p) pairingId) (Db.pairings db).

(** [metadata || {}] *)
Definition metadataOrEmpty (metadata : option Json) : Json :=
  match metadata with
  | Some m => m
  | None => "{}"
  end.

Definition updateUserPresence (env : Env) (userId : string)
  (status : PresenceStatus) (metadata : option Json) : M unit :=
  dbWrite env Q_upsert_presence
    (UpsertPresence
       (Db.mkPresence userId status (now env) (metadataOrEmpty metadata))) ;;
  ret tt.

(** The visibility rules of [notifyPairedPartners]. *)
Definition shouldNotify (userProfile : Db.Profile) : bool :=
  let shouldNotify := true in
  let shouldNotify :=
    if UserType_beq (Db.user_type userProfile) student
       && negb (Db.visible_to_partner userProfile)
    then false else shouldNotify in
  let shouldNotify :=
    if Db.dnd_enabled userProfile then false else shouldNotify in
  shouldNotify.

Definition partnerPresenceUpdate (userId : string) (status : PresenceStatus)
  (metadata : option Json) : Envelope.t :=
  Envelope.mk "partner_presence_update" "presence"
    (PartnerPresenceData userId status metadata).

Fixpoint notifyEach (env : Env) (message : Envelope.t)
  (partnerIds : list string) : M unit :=
  match partnerIds with
  | [] => ret tt
  | partnerId :: rest =>
      broadcastToUser env partnerId message None ;;
      notifyEach env message rest
  end.

Definition notifyPairedPartners (env : Env) (userId : string)
  (status : PresenceStatus) (metadata : option Json) : M unit :=
  tryCatch
    (db <- gets supabase ;;
     match selectRows env Q_notify_pairings (activePairingsOf userId db) with
     | None => ret tt
     | Some pairings =>
         let partnerIds := map (fun p => otherMember p userId) pairings in
         match selectSingle env Q_notify_profile (profileOf userId db) with
         | None => ret tt
         | Some userProfile =>
             if shouldNotify userProfile
             then notifyEach env (partnerPresenceUpdate userId status metadata)
                    partnerIds
             else ret tt
         end
     end)
    (ret tt).

(** The partners' rows of [getUserPresenceState]; [None] when reading a
    field of a missing joined profile throws. *)
Fixpoint partnersPresence (env : Env) (userId : string) (db : Db.t)
  (pairings : list Db.Pairing) : option (list (string * Db.PresenceRow)) :=
  match pairings with
  | [] => Some []
  | pairing :: rest =>
      let partnerId := otherMember pairing userId in
      match single (profileOf partnerId db) with
      | None => None
      | Some partnerProfile =>
          let shouldShowPresence :=
            negb (UserType_beq (Db.user_type partnerProfile) student
                  && negb (Db.visible_to_partner partnerProfile)) in
          let here :=
            if shouldShowPresence
            then match selectSingle env (Q_state_partner partnerId)
                         (presenceOf partnerId db) with
                 | Some partnerPresence => [(partnerId, partnerPresence)]
                 | None => []
                 end
            else [] in
          match partnersPresence env userId db rest with
          | Some more => Some (here ++ more)
          | None => None
          end
      end
  end.

Definition getUserPresenceState (env : Env) (userId : string) (db : Db.t)
  : PresenceState :=
  let ownPresence := selectSingle env Q_state_own (presenceOf userId db) in
  match selectRows env Q_state_pairings (activePairingsOf userId db) with
  | Some pairings =>
      match partnersPresence env userId db pairings with
      | Some ps => mkPresenceState ownPresence ps
      | None => mkPresenceState None []
      end
  | None => mkPresenceState ownPresence []
  end.

(** [presenceHandler], up to the registration of the socket callbacks. *)
Definition presenceHandler (env : Env) (connection : Connection.t) : M unit :=
  let userId := Connection.userId connection in
  updateUserPresence env userId online None ;;
  notifyPairedPartners env userId online None ;;
  initialPresence <- gets (fun w => getUserPresenceState env userId (supabase w)) ;;
  socketSend env (Connection.socket connection)
    (Envelope.mk "presence_state" "presence" (PresenceStateData initialPresence)).

(** The [/ws/presence] route of [registerWebSocketHandlers], once the
    token has been resolved to a user. *)
Definition presenceRoute (env : Env) (wsConnection : Connection.t) : M unit :=
  tryCatch
    (modify (fun w =>
       with_connectionManager (addConnection wsConnection (connectionManager w)) w) ;;
     presenceHandler env wsConnection)
    (emit (Terminate (Connection.socket wsConnection))).

(** [socket.on('close', ...)] of [presenceHandler]. *)
Definition presenceOnClose (env : Env) (connection : Connection.t) : M unit :=
  let userId := Connection.userId connection in
  tryCatch
    (modify (fun w =>
       with_connectionManager
         (removeConnection (Connection.id connection) (connectionManager w)) w) ;;
     userConnections <- gets (fun w => getUserConnections userId (connectionManager w)) ;;
     let hasOtherConnections := Nat.ltb 0 (length userConnections) in
     if negb hasOtherConnections
     then updateUserPresence env userId offline None ;;
          notifyPairedPartners env userId offline None
     else ret tt)
    (ret tt).

(** [heartbeat]: the optional status is one of online, away, busy. *)
Definition handleHeartbeat (env : Env) (connection : Connection.t)
  (status : option PresenceStatus) : M unit :=
  tryCatch
    ((match status with
      | Some s =>
          updateUserPresence env (Connection.userId connection) s None ;;
          notifyPairedPartners env (Connection.userId connection) s None
      | None => ret tt
      end) ;;
     socketSend env (Connection.socket connection)
       (Envelope.mk "heartbeat_ack" "presence" (HeartbeatAckData (now env))))
    (ret tt).

Module PresenceUpdate.
Record t := mk {
  userId : string;
  status : PresenceStatus;
  metadata : option Json
}.
End PresenceUpdate.

Definition handlePresenceUpdate (env : Env) (connection : Connection.t)
  (presenceMessage : PresenceUpdate.t) : M unit :=
  let sock := Connection.socket connection in
  tryCatch
    (if negb (String.eqb (PresenceUpdate.userId presenceMessage)
                (Connection.userId connection))
     then
       socketSend env sock
         (Envelope.mk "error" "presence"
            (ErrorData "Forbidden" "Cannot update presence for other users"))
     else
       updateUserPresence env (PresenceUpdate.userId presenceMessage)
         (PresenceUpdate.status presenceMessage)
         (PresenceUpdate.metadata presenceMessage) ;;
       notifyPairedPartners env (PresenceUpdate.userId presenceMessage)
         (PresenceUpdate.status presenceMessage)
         (PresenceUpdate.metadata presenceMessage) ;;
       socketSend env sock
         (Envelope.mk "presence_updated" "presence"
            (PresenceUpdatedData (PresenceUpdate.status presenceMessage)
               (now env))))
    (ret tt).

(** ** Chat (chat.ts, and [AuthService.hasPermission] of utils/auth.ts) *)

Module ChatMessage.
Record t := mk {
  id : string;                (* the envelope's own id *)
  pairingId : string;
  content : string;
  messageType : MessageType;
  senderId : string
}.
End ChatMessage.

(** [hasPermission(userId, 'send_message', resourceId)] *)
Definition hasPermission_send_message (env : Env) (userId resourceId : string)
  (db : Db.t) : bool :=
  match selectSingle env Q_getUserProfile (profileOf userId db) with
  | None => false
  | Some profile =>
      if UserType_beq (Db.user_type profile) admin then true
      else if String.eqb resourceId EmptyString then false
      else
        match selectSingle env Q_hasPermission_pairing
                (pairingById resourceId db) with
        | Some pairing =>
            PairingStatus_beq (Db.pairing_status pairing) active
            && involves userId pairing
        | None => false
        end
  end.

Definition clearTypingIndicator (env : Env) (userId pairingId : string)
  : M unit :=
  db <- gets supabase ;;
  match selectSingle env Q_clearTyping_pairing (pairingById pairingId db) with
  | Some pairing =>
      broadcastToUser env (otherMember pairing userId)
        (Envelope.mk "typing_indicator" "chat"
           (TypingIndicatorData userId pairingId false))
        None
  | None => ret tt
  end.

Definition heartbeatTimeoutMs : Z := 60000.

(** [sendPushNotificationIfOffline] only reads the store and logs (the
    delivery itself is a TODO in the source): the value says whether the
    branch that would send is reached. *)
Definition sendPushNotificationIfOffline (env : Env) (userId : string)
  (db : Db.t) : bool :=
  let isOnline :=
    match selectSingle env Q_push_presence (presenceOf userId db) with
    | Some presence =>
        PresenceStatus_beq (Db.presence_status presence) online
        && (now env - Db.last_heartbeat presence <? heartbeatTimeoutMs)%Z
    | None => false
    end in
  if negb isOnline
  then match selectSingle env Q_push_profile (profileOf userId db) with
       | Some profile =>
           match Db.push_subscription profile with
           | Some _ => true
           | None => false
           end
       | None => false
       end
  else false.

Definition chatError (error message : string) : Envelope.t :=
  Envelope.mk "error" "chat" (ErrorData error message).

Definition messageReceived (savedMessage : Db.MessageRow) (pairingId : string)
  : Envelope.t :=
  Envelope.mk "message_received" "chat"
    (MessageReceivedData savedMessage pairingId).

Definition messageSent (savedMessage : Db.MessageRow) (tempId : string)
  : Envelope.t :=
  Envelope.mk "message_sent" "chat" (MessageSentData savedMessage tempId).

(** The row [handleChatMessage] inserts. *)
Definition messageRow (env : Env) (chatMessage : ChatMessage.t)
  : Db.MessageRow :=
  Db.mkMessage (uuidv4 env) (ChatMessage.pairingId chatMessage)
    (ChatMessage.senderId chatMessage) (ChatMessage.content chatMessage)
    (ChatMessage.messageType chatMessage) (now env) None.

Definition handleChatMessage (env : Env) (connection : Connection.t)
  (chatMessage : ChatMessage.t) : M unit :=
  let sock := Connection.socket connection in
  let userId := Connection.userId connection in
  let pairingId := ChatMessage.pairingId chatMessage in
  tryCatch
    (canSendMessage <- gets (fun w =>
       hasPermission_send_message env userId pairingId (supabase w)) ;;
     if negb canSendMessage
     then socketSend env sock
            (chatError "Forbidden" "You cannot send messages to this pairing")
     else
       let savedMessage := messageRow env chatMessage in
       ok <- dbWrite env Q_insert_message (InsertMessage savedMessage) ;;
       if negb ok
       then socketSend env sock
              (chatError "Failed to send message"
                 "Could not save message to database")
       else
         db <- gets supabase ;;
         match selectSingle env Q_message_pairing (pairingById pairingId db) with
         | Some pairing =>
             let recipientId := otherMember pairing userId in
             broadcastToUser env recipientId
               (messageReceived savedMessage pairingId) None ;;
             socketSend env sock
               (messageSent savedMessage (ChatMessage.id chatMessage)) ;;
             clearTypingIndicator env userId pairingId ;;
             _ <- gets (fun w =>
                    sendPushNotificationIfOffline env recipientId (supabase w)) ;;
             ret tt
         | None => ret tt
         end)
    (ret tt).

(** ** The stale-connection sweep (index.ts) *)

Definition sweepIntervalMs : Z := 30000.
Definition staleTimeoutMs : Z := 60000.

Definition isStale (now : Z) (conn : Connection.t) : bool :=
  (now - Connection.lastHeartbeat conn >? staleTimeoutMs)%Z.

Definition staleConnections (now : Z) (cm : ConnectionManager) : list string :=
  map fst (filter (fun kv => isStale now (snd kv)) (connections cm)).

Definition removeAll (ids : list string) (cm : ConnectionManager)
  : ConnectionManager :=
  fold_left (fun cm id => removeConnection id cm) ids cm.

(** The callback handed to [setInterval(..., 30000)]. *)
Definition sweep (env : Env) : M unit :=
  modify (fun w =>
    with_connectionManager
      (removeAll (staleConnections (now env) (connectionManager w))
         (connectionManager w)) w).

(** * Vocabulary of the properties *)

(** ** Connection registry *)

(** The ids the by-user index lists for a user
    ([this.userConnections.get(userId) || new Set()]). *)
Definition idsOf (cm : ConnectionManager) (userId : string) : JsSet.t :=
  match JsMap.get userId (userConnections cm) with
  | Some ids => ids
  | None => JsSet.empty
  end.

(** The two indexes agree: the by-user index lists, for each user,
    exactly the ids of the registered connections of that user, and holds
    no empty set. *)
Record consistent (cm : ConnectionManager) : Prop := mkConsistent {
  index_exact : forall u c,
    In c (idsOf cm u)
    <-> exists conn, JsMap.get c (connections cm) = Some conn
                     /\ Connection.userId conn = u;
  index_nonempty : forall u, JsMap.get u (userConnections cm) <> Some []
}.

Definition emptyRegistry : ConnectionManager := mkCM JsMap.empty JsMap.empty.

Inductive RegistryOp :=
| OpAdd (connection : Connection.t)
| OpRemove (connectionId : string)
| OpBroadcast (env : Env) (userId : string) (message : Envelope.t)
    (excludeConnectionId : option string).

Definition registryOp (op : RegistryOp) : M unit :=
  match op with
  | OpAdd connection =>
      modify (fun w =>
        with_connectionManager (addConnection connection (connectionManager w)) w)
  | OpRemove connectionId =>
      modify (fun w =>
        with_connectionManager
          (removeConnection connectionId (connectionManager w)) w)
  | OpBroadcast env userId message excludeConnectionId =>
      broadcastToUser env userId message excludeConnectionId
  end.

Definition runOps (ops : list RegistryOp) (w : World) : World :=
  fold_left (fun w op => world (registryOp op w)) ops w.

(** An [addConnection] respects the ids when the id it registers is not
    at that moment registered for another user. *)
Definition idRespected (op : RegistryOp) (cm : ConnectionManager) : bool :=
  match op with
  | OpAdd connection =>
      match JsMap.get (Connection.id connection) (connections cm) with
      | Some held =>
          String.eqb (Connection.userId held) (Connection.userId connection)
      | None => true
      end
  | _ => true
  end.

Fixpoint idsRespected (ops : list RegistryOp) (w : World) : bool :=
  match ops with
  | [] => true
  | op :: rest =>
      idRespected op (connectionManager w)
      && idsRespected rest (world (registryOp op w))
  end.

(** What a broadcast over the snapshot [conns] writes, and the ids of the
    connections it drops because the write threw. *)
Definition sendsTo (message : Envelope.t) (excludeConnectionId : option string)
  (conns : list Connection.t) : list Event :=
  map (fun c => SocketSend (Connection.socket c) message)
    (filter (fun c => negb (excluded excludeConnectionId c)) conns).

Definition failedIds (env : Env) (excludeConnectionId : option string)
  (conns : list Connection.t) : list string :=
  map Connection.id
    (filter (fun c => negb (excluded excludeConnectionId c)
                      && sendThrows env (Connection.socket c)) conns).

Definition emptyDb : Db.t := Db.mk [] [] [] [] [].

(** ** Call signaling *)

(** The non-ended sessions of the active-call map in which a user appears
    as caller or callee. *)
Definition activeSessionsOf (userId : string) (w : World) : list Call.t :=
  filter (inCall userId) (JsMap.values (activeCalls w)).

Definition isCallee (userId : string) (call : Call.t) : bool :=
  String.eqb (Call.calleeId call) userId
  && negb (CallStatus_beq (Call.status call) ended).

(** The non-ended sessions in which a user is the callee. *)
Definition sessionsAsCallee (userId : string) (w : World) : list Call.t :=
  filter (isCallee userId) (JsMap.values (activeCalls w)).

(** What reaches the signaling engine: the four envelopes, the close of a
    signaling connection, the firing of a ringing timeout. *)
Inductive SignalingAction :=
| call_offer (connection : Connection.t) (m : CallOffer.t)
| call_answer (connection : Connection.t) (m : CallAnswer.t)
| call_candidate (connection : Connection.t) (m : CallCandidate.t)
| call_hangup (connection : Connection.t) (m : CallHangup.t)
| signaling_close (connection : Connection.t)
| timeout_fires (callId : string).

Definition signalingStep (env : Env) (a : SignalingAction) : M unit :=
  match a with
  | call_offer connection m => handleCallOffer env connection m
  | call_answer connection m => handleCallAnswer env connection m
  | call_candidate connection m => handleCallCandidate env connection m
  | call_hangup connection m => handleCallHangup env connection m
  | signaling_close connection => signalingOnClose env connection
  | timeout_fires callId => ringingTimeout env callId
  end.

(** The states of the engine: it starts with no call; each action is one
    step; between two steps the rest of the server and the store may
    change the registry and the tables in any way, but not the
    active-call map, which is private to signaling.ts. *)
Inductive reachable : World -> Prop :=
| reachable_start cm db : reachable (mkWorld cm JsMap.empty db)
| reachable_step env a w :
    reachable w -> reachable (world (signalingStep env a w))
| reachable_outside cm db w :
    reachable w -> reachable (mkWorld cm (activeCalls w) db).

(** What holds of every entry of the active-call map between two steps. *)
Definition entryOk (kv : string * Call.t) : Prop :=
  Call.id (snd kv) = fst kv
  /\ (Call.status (snd kv) = ringing \/ Call.status (snd kv) = connected)
  /\ (Call.status (snd kv) = ringing -> Call.connectedAt (snd kv) = None).

Definition callsOk (calls : JsMap.t Call.t) : Prop :=
  Forall entryOk calls
  /\ forall u, (length (filter (isCallee u) (JsMap.values calls)) <= 1)%nat.

(** The session [handleCallOffer] leaves in the map when it accepts. *)
Definition offeredCall (env : Env) (connection : Connection.t)
  (m : CallOffer.t) (calleeId : string) : Call.t :=
  Call.mk (CallOffer.callId m) (CallOffer.pairingId m)
    (Connection.userId connection) calleeId (CallOffer.callType m) ringing
    (now env) None None.

(** The pairing [handleCallOffer] reads. *)
Definition offerPairing (env : Env) (m : CallOffer.t) (w : World)
  : option Db.Pairing :=
  selectSingle env Q_offer_pairing
    (filter (activePairing (CallOffer.pairingId m)) (Db.pairings (supabase w))).

Definition isMember (userId : string) (p : Db.Pairing) : bool :=
  String.eqb (Db.student_id p) userId || String.eqb (Db.parent_id p) userId.

(** The map once [endCalls] has gone through the ids. *)
Definition deleteAll (ids : list string) (calls : JsMap.t Call.t)
  : JsMap.t Call.t :=
  fold_left (fun m k => JsMap.delete k m) ids calls.

(** The envelopes of the offer path. *)
Definition busyError (callId : string) : Envelope.t :=
  callError callId "User busy" "The user is currently in another call".

Definition invalidPairingError (callId : string) : Envelope.t :=
  callError callId "Invalid pairing" "Pairing not found or not active".

Definition callNotFoundError (callId : string) : Envelope.t :=
  callError callId "Call not found" "Call does not exist or has ended".

Definition callOfferReceived (connection : Connection.t) (m : CallOffer.t)
  : Envelope.t :=
  Envelope.mk "call_offer_received" "signaling"
    (CallOfferReceivedData (CallOffer.callId m) (CallOffer.pairingId m)
       (Connection.userId connection) (CallOffer.callType m)
       (CallOffer.offer m)).

Definition callOfferSent (m : CallOffer.t) : Envelope.t :=
  Envelope.mk "call_offer_sent" "signaling"
    (CallOfferSentData (CallOffer.callId m) ringing).

Definition insertedCall (env : Env) (connection : Connection.t)
  (m : CallOffer.t) (calleeId : string) : Db.CallRow :=
  Db.mkCall (CallOffer.callId m) (CallOffer.pairingId m)
    (Connection.userId connection) calleeId (CallOffer.callType m) initiated
    (now env) None None 0%Z None.

(** ** A small deployment used for the concrete runs

    One student paired with two parents (the schema allows it: pairings
    are unique per (student, parent) pair), each user with one connection
    per channel. *)
Module Example.
Definition pairingAB := Db.mkPairing "pair-ab" "alice" "bob" active.
Definition pairingAC := Db.mkPairing "pair-ac" "alice" "carol" active.

Definition db : Db.t :=
Db.mk [pairingAB; pairingAC]
  [Db.mkProfile "alice" student true false None;
   Db.mkProfile "bob" parent true false None;
   Db.mkProfile "carol" parent true false None]
  [] [] [].

Definition aliceSignaling :=
Connection.mk "signaling_alice_1" "alice" "org" student 1 0%Z "signaling".
Definition bobSignaling :=
Connection.mk "signaling_bob_1" "bob" "org" parent 2 0%Z "signaling".
Definition carolSignaling :=
Connection.mk "signaling_carol_1" "carol" "org" parent 3 0%Z "signaling".
Definition alicePresence :=
Connection.mk "presence_alice_1" "alice" "org" student 4 0%Z "presence".
Definition alicePresence2 :=
Connection.mk "presence_alice_2" "alice" "org" student 5 0%Z "presence".
Definition bobPresence :=
Connection.mk "presence_bob_1" "bob" "org" parent 6 0%Z "presence".
Definition aliceChat :=
Connection.mk "chat_alice_1" "alice" "org" student 7 0%Z "chat".
Definition bobChat :=
Connection.mk "chat_bob_1" "bob" "org" parent 8 0%Z "chat".

Definition registry : ConnectionManager :=
addConnection carolSignaling
  (addConnection bobSignaling (addConnection aliceSignaling emptyRegistry)).

Definition start : World := mkWorld registry JsMap.empty db.

(** Every send and every database call succeeds. *)
Definition fair (now_ : Z) : Env :=
mkEnv now_ "msg-1" (fun _ => false) (fun _ => false).

Definition offerAB :=
CallOffer.mk "call-1" "pair-ab" "alice" "bob" video "sdp".
Definition offerAC :=
CallOffer.mk "call-2" "pair-ac" "alice" "carol" video "sdp".
Definition offerCA :=
CallOffer.mk "call-3" "pair-ac" "carol" "alice" voice "sdp".

(** alice rings bob. *)
Definition ringing1 : World :=
world (signalingStep (fair 1000) (call_offer aliceSignaling offerAB) start).

(** ... and, while that call rings, offers a call to carol. *)
Definition ringing2 : World :=
world (signalingStep (fair 2000) (call_offer aliceSignaling offerAC) ringing1).

(** bob watches the presence channel; alice then opens a presence
  connection, and later a second one. *)
Definition presenceStart : World :=
mkWorld (addConnection bobPresence emptyRegistry) JsMap.empty db.

Definition online1 : World :=
world (presenceRoute (fair 1000) alicePresence presenceStart).

(** The same deployment with alice's profile set to invisible. *)
Definition dbHidden : Db.t :=
Db.mk [pairingAB; pairingAC]
  [Db.mkProfile "alice" student false false None;
   Db.mkProfile "bob" parent true false None;
   Db.mkProfile "carol" parent true false None]
  [] [] [].

Definition presenceStartHidden : World :=
mkWorld (addConnection bobPresence emptyRegistry) JsMap.empty dbHidden.

(** alice and bob on the chat channel; an envelope sent on alice's
  connection that names bob as its sender. *)
Definition chatStart : World :=
mkWorld (addConnection bobChat (addConnection aliceChat emptyRegistry))
  JsMap.empty db.

Definition asBob := ChatMessage.mk "tmp-1" "pair-ab" "hello" text "bob".

(** bob with two tabs on the chat channel. *)
Definition bobChat2 :=
  Connection.mk "chat_bob_2" "bob" "org" parent 9 0%Z "chat".

Definition chatTwoTabs : World :=
  mkWorld
    (addConnection bobChat2
       (addConnection bobChat (addConnection aliceChat emptyRegistry)))
    JsMap.empty db.

(** bob has answered the first call. *)
Definition answered1 : World :=
world (signalingStep (fair 5000)
         (call_answer bobSignaling
            (CallAnswer.mk "call-1" "pair-ab" "bob" "alice" "sdp"))
         ringing1).

(** alice has hung up on the first call. *)
Definition hungUp1 : World :=
world (signalingStep (fair 6000)
         (call_hangup aliceSignaling
            (CallHangup.mk "call-1" "pair-ab" "alice" "bob" None))
         ringing1).
End Example.

(** ** Presence *)

(** The visibility rule: the subject is a student who is not visible to
    the partner, or has do-not-disturb on. *)
Definition hidden (pr : Db.Profile) : bool :=
  (UserType_beq (Db.user_type pr) student && negb (Db.visible_to_partner pr))
  || Db.dnd_enabled pr.

(** Every profile row of the user is hidden. *)
Definition hiddenIn (userId : string) (db : Db.t) : Prop :=
  forall pr, In pr (Db.profiles db) -> Db.profile_id pr = userId ->
             hidden pr = true.

Definition isPartnerPresenceUpdate (e : Event) : bool :=
  match e with
  | SocketSend _ msg => String.eqb (Envelope.type msg) "partner_presence_update"
  | _ => false
  end.


(** What the loop over the partners sends, and the registry it leaves. *)
Fixpoint notifySends (env : Env) (message : Envelope.t)
  (partnerIds : list string) (cm : ConnectionManager) : list Event :=
  match partnerIds with
  | [] => []
  | partnerId :: rest =>
      let conns := getUserConnections partnerId cm in
      sendsTo message None conns
      ++ notifySends env message rest (removeAll (failedIds env None conns) cm)
  end.

Fixpoint notifyRegistry (env : Env) (partnerIds : list string)
  (cm : ConnectionManager) : ConnectionManager :=
  match partnerIds with
  | [] => cm
  | partnerId :: rest =>
      notifyRegistry env rest
        (removeAll (failedIds env None (getUserConnections partnerId cm)) cm)
  end.

(** The places where presence.ts changes a user's status. *)
Inductive PresenceChange :=
| connects (connection : Connection.t)
| heartbeats (connection : Connection.t) (status : PresenceStatus)
| updates (connection : Connection.t) (m : PresenceUpdate.t)
| closes (connection : Connection.t).

Definition presenceChange (env : Env) (c : PresenceChange) : M unit :=
  match c with
  | connects connection => presenceRoute env connection
  | heartbeats connection status => handleHeartbeat env connection (Some status)
  | updates connection m => handlePresenceUpdate env connection m
  | closes connection => presenceOnClose env connection
  end.

Definition subject (c : PresenceChange) : string :=
  match c with
  | connects connection | heartbeats connection _
  | updates connection _ | closes connection => Connection.userId connection
  end.

(** The row the change asks the store to keep. *)
Definition changedRow (env : Env) (c : PresenceChange) : Db.PresenceRow :=
  match c with
  | connects connection =>
      Db.mkPresence (Connection.userId connection) online (now env) "{}"
  | heartbeats connection status =>
      Db.mkPresence (Connection.userId connection) status (now env) "{}"
  | updates connection m =>
      Db.mkPresence (PresenceUpdate.userId m) (PresenceUpdate.status m)
        (now env) (metadataOrEmpty (PresenceUpdate.metadata m))
  | closes connection =>
      Db.mkPresence (Connection.userId connection) offline (now env) "{}"
  end.

(** Whether the handler gets as far as changing the status: an update
    must name the connection's own user, a close must leave the user
    without connections. *)
Definition changesStatus (c : PresenceChange) (w : World) : Prop :=
  match c with
  | connects _ | heartbeats _ _ => True
  | updates connection m =>
      PresenceUpdate.userId m = Connection.userId connection
  | closes connection =>
      getUserConnections (Connection.userId connection)
        (removeConnection (Connection.id connection) (connectionManager w))
      = []
  end.

(** ** Chat *)

Definition isDelivery (e : Event) : bool :=
  match e with
  | SocketSend _ msg => String.eqb (Envelope.type msg) "message_received"
  | _ => false
  end.

Definition isConfirmation (e : Event) : bool :=
  match e with
  | SocketSend _ msg => String.eqb (Envelope.type msg) "message_sent"
  | _ => false
  end.

Definition typingCleared (userId pairingId : string) : Envelope.t :=
  Envelope.mk "typing_indicator" "chat"
    (TypingIndicatorData userId pairingId false).

(** What [clearTypingIndicator] sends and the registry it leaves. *)
Definition clearSends (env : Env) (userId pairingId : string) (db : Db.t)
  (cm : ConnectionManager) : list Event :=
  match selectSingle env Q_clearTyping_pairing (pairingById pairingId db) with
  | Some pairing =>
      sendsTo (typingCleared userId pairingId) None
        (getUserConnections (otherMember pairing userId) cm)
  | None => []
  end.

Definition clearRegistry (env : Env) (userId pairingId : string) (db : Db.t)
  (cm : ConnectionManager) : ConnectionManager :=
  match selectSingle env Q_clearTyping_pairing (pairingById pairingId db) with
  | Some pairing =>
      removeAll
        (failedIds env None
           (getUserConnections (otherMember pairing userId) cm)) cm
  | None => cm
  end.

Definition forbiddenError : Envelope.t :=
  chatError "Forbidden" "You cannot send messages to this pairing".

Definition saveFailedError : Envelope.t :=
  chatError "Failed to send message" "Could not save message to database".

(** * The rest of the websocket server

    The functions of index.ts, chat.ts and utils/auth.ts that the handlers
    above do not go through, with the vocabulary of their properties. *)

(** ** ConnectionManager, continued (index.ts) *)

Definition getConnectionsByNamespace (namespace : string)
  (cm : ConnectionManager) : list Connection.t :=
  filter (fun conn => String.eqb (Connection.namespace conn) namespace)
    (JsMap.values (connections cm)).

Definition broadcastToNamespace (env : Env) (namespace : string)
  (message : Envelope.t) (excludeConnectionId : option string) : M unit :=
  connections <- gets (fun w =>
    getConnectionsByNamespace namespace (connectionManager w)) ;;
  broadcastLoop env message excludeConnectionId connections.

(** [map.get(key) || 0] *)
Definition countOf (key : string) (m : JsMap.t nat) : nat :=
  match JsMap.get key m with
  | Some n => n
  | None => 0
  end.

(** The body of [this.connections.forEach] in [getStats]. *)
Definition countNamespace (namespaceStats : JsMap.t nat) (conn : Connection.t)
  : JsMap.t nat :=
  let count := countOf (Connection.namespace conn) namespaceStats in
  JsMap.set (Connection.namespace conn) (count + 1) namespaceStats.

(** The object [getStats] returns; [namespaces] holds the entries handed
    to [Object.fromEntries]. *)
Record Stats := mkStats {
  totalConnections : nat;
  uniqueUsers : nat;
  namespaces : JsMap.t nat
}.

Definition getStats (cm : ConnectionManager) : Stats :=
  mkStats (JsMap.size (connections cm)) (JsMap.size (userConnections cm))
    (fold_left countNamespace (JsMap.values (connections cm)) JsMap.empty).

Definition sumOf (l : list nat) : nat := fold_right Nat.add 0 l.

(** ** AuthService (utils/auth.ts) *)

(** The database calls of the functions of this part, one name per call
    site (per pairing where the call sits in a loop). *)
Inductive DbCallMore :=
| Q_hasPermission_pairing_access
| Q_typing_pairing
| Q_clearAll_pairings
| Q_clearAll_pairing (pairingId : string).

Definition selectSingleIf {A} (error : bool) (rows : list A) : option A :=
  if error then None else single rows.

(** [hasPermission(userId, action, resourceId?)] *)
Definition hasPermission (env : Env) (more : DbCallMore -> bool)
  (userId action : string) (resourceId : option string) (db : Db.t) : bool :=
  match selectSingle env Q_getUserProfile (profileOf userId db) with
  | None => false
  | Some profile =>
      if UserType_beq (Db.user_type profile) admin then true
      else if String.eqb action "read_pairing"
              || String.eqb action "update_pairing"
      then
        match resourceId with
        | None => false
        | Some r =>
            if String.eqb r EmptyString then false
            else
              match selectSingleIf (more Q_hasPermission_pairing_access)
                      (pairingById r db) with
              | Some pairing => involves userId pairing
              | None => false
              end
        end
      else if String.eqb action "send_message"
      then
        match resourceId with
        | None => false
        | Some r =>
            if String.eqb r EmptyString then false
            else
              match selectSingle env Q_hasPermission_pairing
                      (pairingById r db) with
              | Some pairing =>
                  PairingStatus_beq (Db.pairing_status pairing) active
                  && involves userId pairing
              | None => false
              end
        end
      else false
  end.

(** [extractBearerToken(authHeader)] *)
Definition extractBearerToken (authHeader : option string) : option string :=
  match authHeader with
  | None => None
  | Some h =>
      if String.eqb h EmptyString || negb (String.prefix "Bearer " h)
      then None
      else Some (String.substring 7 (String.length h - 7) h)
  end.

(** ** Chat, continued (chat.ts) *)

Module TypingIndicator.
Record t := mk {
  pairingId : string;
  userId : string;
  isTyping : bool
}.
End TypingIndicator.

Definition typingIndicator (userId pairingId : string) (isTyping : bool)
  : Envelope.t :=
  Envelope.mk "typing_indicator" "chat"
    (TypingIndicatorData userId pairingId isTyping).

Definition handleTypingIndicator (env : Env) (more : DbCallMore -> bool)
  (connection : Connection.t) (typingMessage : TypingIndicator.t) : M unit :=
  tryCatch
    (db <- gets supabase ;;
     match selectSingleIf (more Q_typing_pairing)
             (pairingById (TypingIndicator.pairingId typingMessage) db) with
     | Some pairing =>
         let recipientId := otherMember pairing (Connection.userId connection) in
         broadcastToUser env recipientId
           (typingIndicator (TypingIndicator.userId typingMessage)
              (TypingIndicator.pairingId typingMessage)
              (TypingIndicator.isTyping typingMessage))
           None
     | None => ret tt
     end)
    (ret tt).

(** [clearTypingIndicator], with the answer of its pairing query given. *)
Definition clearTypingIndicatorIf (error : bool) (env : Env)
  (userId pairingId : string) : M unit :=
  db <- gets supabase ;;
  match selectSingleIf error (pairingById pairingId db) with
  | Some pairing =>
      broadcastToUser env (otherMember pairing userId)
        (typingIndicator userId pairingId false) None
  | None => ret tt
  end.

Fixpoint clearEach (env : Env) (more : DbCallMore -> bool) (userId : string)
  (pairings : list Db.Pairing) : M unit :=
  match pairings with
  | [] => ret tt
  | pairing :: rest =>
      clearTypingIndicatorIf (more (Q_clearAll_pairing (Db.pairing_id pairing)))
        env userId (Db.pairing_id pairing) ;;
      clearEach env more userId rest
  end.

Definition clearTypingIndicators (env : Env) (more : DbCallMore -> bool)
  (userId : string) : M unit :=
  db <- gets supabase ;;
  match (if more Q_clearAll_pairings then None
         else Some (activePairingsOf userId db)) with
  | Some pairings => clearEach env more userId pairings
  | None => ret tt
  end.

(** [socket.on('close', ...)] of [chatHandler]. *)
Definition chatOnClose (env : Env) (more : DbCallMore -> bool)
  (connection : Connection.t) : M unit :=
  tryCatch
    (modify (fun w =>
       with_connectionManager
         (removeConnection (Connection.id connection) (connectionManager w)) w) ;;
     clearTypingIndicators env more (Connection.userId connection))
    (ret tt).

(** ** Vocabulary *)

Definition isSend (message : Envelope.t) (e : Event) : Prop :=
  exists s, e = SocketSend s message.

Definition isDbWrite (e : Event) : bool :=
  match e with
  | DbWrite _ _ => true
  | _ => false
  end.

(** A session as it sits in the active-call map between two steps. *)
Definition liveEntry (kv : string * Call.t) : Prop :=
  Call.id (snd kv) = fst kv
  /\ Call.endedAt (snd kv) = None
  /\ ((Call.status (snd kv) = ringing /\ Call.connectedAt (snd kv) = None)
      \/ (Call.status (snd kv) = connected
          /\ exists t, Call.connectedAt (snd kv) = Some t)).

(** A call made while ending sessions at [now_] for [reason]: the update
    of a call row, or a call_ended envelope. *)
Definition endsWith (now_ : Z) (reason : string) (e : Event) : Prop :=
  (exists callId duration ok,
      e = DbWrite (UpdateCallEnded callId now_ duration reason) ok)
  \/ (exists s callId duration,
        e = SocketSend s (callEnded callId reason duration)).

Definition answerReceived (callId : string) (answer : Json) : Envelope.t :=
  Envelope.mk "call_answer_received" "signaling"
    (CallAnswerReceivedData callId answer).

Definition callAnswered (callId : string) : Envelope.t :=
  Envelope.mk "call_answered" "signaling" (CallAnsweredData callId connected).

Definition candidateReceived (callId : string) (candidate : Json) : Envelope.t :=
  Envelope.mk "call_candidate_received" "signaling"
    (CallCandidateReceivedData callId candidate).

Definition notCalleeError (callId : string) : Envelope.t :=
  callError callId "Forbidden" "You are not the callee for this call".

Definition notMemberError (callId : string) : Envelope.t :=
  callError callId "Forbidden" "You are not part of this pairing".

Definition presenceForbiddenError : Envelope.t :=
  Envelope.mk "error" "presence"
    (ErrorData "Forbidden" "Cannot update presence for other users").

Definition heartbeatAck (env : Env) : Envelope.t :=
  Envelope.mk "heartbeat_ack" "presence" (HeartbeatAckData (now env)).

Definition noErrors : DbCallMore -> bool := fun _ => false.

(** * Properties *)

(** ** Facts about the containers *)

Module JsMapFacts.
Section WithValue.
Context {V : Type}.
Implicit Types (m : JsMap.t V) (k : string) (v : V).

Lemma get_set m k k' v :
  JsMap.get k' (JsMap.set k v m)
  = if String.eqb k' k then Some v else JsMap.get k' m.
Proof.
  induction m as [|[k0 v0] m IH]; simpl.
  - destruct (String.eqb_spec k' k); reflexivity.
  - destruct (String.eqb_spec k k0) as [->|Hk]; simpl.
    + destruct (String.eqb_spec k' k0); reflexivity.
    + rewrite IH.
      destruct (String.eqb_spec k' k0) as [->|]; [|reflexivity].
      destruct (String.eqb_spec k0 k); [congruence | reflexivity].
Qed.

Lemma get_set_same m k v : JsMap.get k (JsMap.set k v m) = Some v.
Proof. rewrite get_set, String.eqb_refl. reflexivity. Qed.

Lemma get_delete m k k' :
  JsMap.get k' (JsMap.delete k m)
  = if String.eqb k' k then None else JsMap.get k' m.
Proof.
  induction m as [|[k0 v0] m IH]; simpl.
  - destruct (String.eqb k' k); reflexivity.
  - destruct (String.eqb_spec k k0) as [->|Hk]; simpl.
    + rewrite IH. destruct (String.eqb_spec k' k0); reflexivity.
    + rewrite IH.
      destruct (String.eqb_spec k' k0) as [->|]; [|reflexivity].
      destruct (String.eqb_spec k0 k); [congruence | reflexivity].
Qed.

Lemma delete_absent m k : JsMap.get k m = None -> JsMap.delete k m = m.
Proof.
  induction m as [|[k0 v0] m IH]; simpl; [reflexivity|].
  destruct (String.eqb_spec k k0); [discriminate|].
  intros H. simpl. rewrite IH by assumption. reflexivity.
Qed.

Lemma get_In m k v : JsMap.get k m = Some v -> In (k, v) m.
Proof.
  induction m as [|[k0 v0] m IH]; simpl; [discriminate|].
  destruct (String.eqb_spec k k0) as [->|].
  - intros [= ->]. left. reflexivity.
  - intros H. right. apply IH, H.
Qed.

Lemma get_None_keys m k : JsMap.get k m = None <-> ~ In k (JsMap.keys m).
Proof.
  induction m as [|[k0 v0] m IH]; simpl.
  - tauto.
  - destruct (String.eqb_spec k k0) as [->|Hk].
    + split; [discriminate | tauto].
    + rewrite IH. split; [intros H [E|E]; congruence | tauto].
Qed.

Lemma In_get m k v : JsMap.wf m -> In (k, v) m -> JsMap.get k m = Some v.
Proof.
  unfold JsMap.wf.
  induction m as [|[k0 v0] m IH]; simpl; [tauto|].
  intros Hwf [E|Hin]; inversion Hwf; subst.
  - injection E as -> ->. rewrite String.eqb_refl. reflexivity.
  - destruct (String.eqb_spec k k0) as [->|].
    + exfalso. apply H1. change k0 with (fst (k0, v)).
      apply in_map, Hin.
    + apply IH; assumption.
Qed.

Lemma keys_set m k v :
  forall k', In k' (JsMap.keys (JsMap.set k v m))
             <-> k' = k \/ In k' (JsMap.keys m).
Proof.
  induction m as [|[k0 v0] m IH]; simpl; intros k'.
  - intuition congruence.
  - destruct (String.eqb_spec k k0) as [->|]; simpl.
    + intuition congruence.
    + rewrite IH. intuition congruence.
Qed.

Lemma wf_set m k v : JsMap.wf m -> JsMap.wf (JsMap.set k v m).
Proof.
  unfold JsMap.wf.
  induction m as [|[k0 v0] m IH]; simpl; intros Hwf.
  - constructor; [simpl; tauto | constructor].
  - inversion Hwf; subst.
    destruct (String.eqb_spec k k0) as [->|Hk]; simpl.
    + constructor; assumption.
    + constructor; [|apply IH; assumption].
      intros Hin. apply (keys_set m k v) in Hin.
      destruct Hin; [congruence | contradiction].
Qed.

Lemma wf_delete m k : JsMap.wf m -> JsMap.wf (JsMap.delete k m).
Proof.
  unfold JsMap.wf, JsMap.delete.
  induction m as [|[k0 v0] m IH]; simpl; intros Hwf; [constructor|].
  inversion Hwf; subst.
  destruct (String.eqb k k0); simpl; [apply IH; assumption|].
  constructor; [|apply IH; assumption].
  intros Hin. apply H1. unfold JsMap.keys in *.
  apply in_map_iff in Hin. destruct Hin as [[k1 v1] [E Hin]].
  apply filter_In in Hin. simpl in E. subst k1.
  apply in_map_iff. exists (k0, v1). tauto.
Qed.
End WithValue.
End JsMapFacts.

Module JsSetFacts.
Lemma has_In x s : JsSet.has x s = true <-> In x s.
Proof.
  unfold JsSet.has. rewrite existsb_exists. split.
  - intros [y [Hy E]]. apply String.eqb_eq in E. subst. assumption.
  - intros H. exists x. split; [assumption | apply String.eqb_refl].
Qed.

Lemma In_add x y s : In y (JsSet.add x s) <-> y = x \/ In y s.
Proof.
  unfold JsSet.add. destruct (JsSet.has x s) eqn:E.
  - apply has_In in E. intuition congruence.
  - rewrite in_app_iff. simpl. intuition congruence.
Qed.

Lemma In_delete x y s : In y (JsSet.delete x s) <-> In y s /\ y <> x.
Proof.
  unfold JsSet.delete. rewrite filter_In.
  destruct (String.eqb_spec x y); simpl; intuition congruence.
Qed.

Lemma add_nonempty x s : JsSet.add x s <> [].
Proof.
  unfold JsSet.add. destruct (JsSet.has x s) eqn:E.
  - apply has_In in E. destruct s; [contradiction | discriminate].
  - destruct s; discriminate.
Qed.
End JsSetFacts.

(** ** The handler monad and the broadcast *)

Lemma with_connectionManager_same w :
  with_connectionManager (connectionManager w) w = w.
Proof. destruct w; reflexivity. Qed.

Lemma broadcastLoop_eq env message ex conns w :
  broadcastLoop env message ex conns w
  = mkResult (Returned tt)
      (with_connectionManager
         (removeAll (failedIds env ex conns) (connectionManager w)) w)
      (sendsTo message ex conns).
Proof.
  revert w. induction conns as [|conn rest IH]; intros w.
  - cbn. rewrite with_connectionManager_same. reflexivity.
  - cbn [broadcastLoop]. unfold bind at 1.
    unfold sendsTo, failedIds. cbn [filter].
    destruct (excluded ex conn); cbn [negb andb].
    + cbn. rewrite IH. reflexivity.
    + unfold tryCatch, socketSend, bind, emit, throw, ret, modify.
      destruct (sendThrows env (Connection.socket conn)); cbn; rewrite IH; cbn.
      * reflexivity.
      * reflexivity.
Qed.

Lemma broadcastToUser_eq env userId message ex w :
  broadcastToUser env userId message ex w
  = mkResult (Returned tt)
      (with_connectionManager
         (removeAll
            (failedIds env ex (getUserConnections userId (connectionManager w)))
            (connectionManager w)) w)
      (sendsTo message ex (getUserConnections userId (connectionManager w))).
Proof.
  unfold broadcastToUser, bind, gets.
  rewrite broadcastLoop_eq. reflexivity.
Qed.

Lemma In_sendsTo message ex conns e :
  In e (sendsTo message ex conns) -> exists s, e = SocketSend s message.
Proof.
  unfold sendsTo. rewrite in_map_iff. intros [c [E _]]. eauto.
Qed.

(** ** The connection registry *)

Section RegistryInvariant.

Lemma idsOf_nonempty cm u c : In c (idsOf cm u) ->
  exists ids, JsMap.get u (userConnections cm) = Some ids /\ In c ids.
Proof.
  unfold idsOf. destruct (JsMap.get u (userConnections cm)) as [ids|].
  - eauto.
  - simpl. tauto.
Qed.

Lemma consistent_empty : consistent emptyRegistry.
Proof.
  split.
  - intros u c. cbn. split; [tauto | intros [conn [H _]]; discriminate].
  - intros u. cbn. discriminate.
Qed.

Lemma consistent_add connection cm :
  consistent cm ->
  idRespected (OpAdd connection) cm = true ->
  consistent (addConnection connection cm).
Proof.
  intros [Hex Hne] Hid. cbn in Hid.
  set (cid := Connection.id connection) in *.
  set (uid := Connection.userId connection) in *.
  assert (Hids : forall u c,
    In c (idsOf (addConnection connection cm) u)
    <-> (u = uid /\ c = cid) \/ In c (idsOf cm u)).
  { intros u c. unfold addConnection, idsOf. fold cid uid.
    unfold JsMap.has.
    destruct (JsMap.get uid (userConnections cm)) as [ids|] eqn:Eu; cbn [negb].
    - rewrite Eu. cbn [userConnections].
      rewrite JsMapFacts.get_set.
      destruct (String.eqb_spec u uid) as [->|Hu].
      + rewrite Eu, JsSetFacts.In_add. intuition congruence.
      + intuition congruence.
    - rewrite JsMapFacts.get_set_same. cbn [userConnections].
      rewrite !JsMapFacts.get_set.
      destruct (String.eqb_spec u uid) as [->|Hu].
      + rewrite Eu, JsSetFacts.In_add. cbn. intuition congruence.
      + intuition congruence. }
  split.
  - intros u c. rewrite Hids, Hex.
    assert (Hc : connections (addConnection connection cm)
                 = JsMap.set cid connection (connections cm)).
    { unfold addConnection. fold cid uid.
      destruct (JsMap.get uid _); reflexivity. }
    rewrite Hc, JsMapFacts.get_set.
    destruct (String.eqb_spec c cid) as [->|Hc'].
    + split.
      * intros [[-> _]|[held [Hheld Hu]]].
        -- eauto.
        -- rewrite Hheld in Hid. apply String.eqb_eq in Hid.
           exists connection. split; [reflexivity|]. fold uid. congruence.
      * intros [conn [[= <-] Hu]]. left. fold uid in Hu. split; congruence.
    + split.
      * intros [[_ E]|H]; [congruence | exact H].
      * tauto.
  - intros u. unfold addConnection. fold cid uid. unfold JsMap.has.
    destruct (JsMap.get uid (userConnections cm)) as [ids|] eqn:Eu; cbn [negb].
    + rewrite Eu. cbn [userConnections]. rewrite JsMapFacts.get_set.
      destruct (String.eqb_spec u uid) as [->|Hu]; [|apply Hne].
      intros [= E]. exact (JsSetFacts.add_nonempty _ _ E).
    + rewrite JsMapFacts.get_set_same. cbn [userConnections].
      rewrite !JsMapFacts.get_set.
      destruct (String.eqb_spec u uid) as [->|Hu]; [|apply Hne].
      intros E. apply (JsSetFacts.add_nonempty cid JsSet.empty). congruence.
Qed.

Lemma removeConnection_absent connectionId cm :
  JsMap.get connectionId (connections cm) = None ->
  removeConnection connectionId cm = cm.
Proof. unfold removeConnection. intros ->. reflexivity. Qed.

Lemma connections_remove connectionId cm :
  connections (removeConnection connectionId cm)
  = JsMap.delete connectionId (connections cm).
Proof.
  unfold removeConnection.
  destruct (JsMap.get connectionId (connections cm)) as [conn|] eqn:E.
  - destruct (JsMap.get (Connection.userId conn) (userConnections cm)).
    + destruct (Nat.eqb _ 0); reflexivity.
    + reflexivity.
  - symmetry. apply JsMapFacts.delete_absent, E.
Qed.

Lemma consistent_remove connectionId cm :
  consistent cm -> consistent (removeConnection connectionId cm).
Proof.
  intros [Hex Hne].
  destruct (JsMap.get connectionId (connections cm)) as [conn|] eqn:E;
    [|rewrite removeConnection_absent by assumption; split; assumption].
  set (uid := Connection.userId conn).
  assert (Hin : In connectionId (idsOf cm uid)) by (apply Hex; eauto).
  destruct (idsOf_nonempty _ _ _ Hin) as [ids [Eids Hin']].
  assert (Hids : forall u,
    idsOf (removeConnection connectionId cm) u
    = if String.eqb u uid then JsSet.delete connectionId ids
      else idsOf cm u).
  { intros u. unfold removeConnection, idsOf. rewrite E. fold uid.
    rewrite Eids.
    destruct (Nat.eqb_spec (JsSet.size (JsSet.delete connectionId ids)) 0)
      as [Hz|Hz]; cbn [userConnections].
    - rewrite JsMapFacts.get_delete.
      destruct (String.eqb u uid); [|reflexivity].
      apply length_zero_iff_nil in Hz. rewrite Hz. reflexivity.
    - rewrite JsMapFacts.get_set.
      destruct (String.eqb u uid); reflexivity. }
  split.
  - intros u c. rewrite Hids, connections_remove, JsMapFacts.get_delete.
    destruct (String.eqb_spec u uid) as [->|Hu].
    + rewrite JsSetFacts.In_delete.
      assert (Hidsof : idsOf cm uid = ids) by (unfold idsOf; rewrite Eids; reflexivity).
      rewrite <- Hidsof, Hex.
      destruct (String.eqb_spec c connectionId) as [->|Hc].
      * split; [tauto | intros [x [H _]]; discriminate].
      * tauto.
    + rewrite Hex.
      destruct (String.eqb_spec c connectionId) as [->|Hc]; [|tauto].
      split.
      * intros [x [Hx Hxu]]. rewrite E in Hx. injection Hx as <-.
        fold uid in Hxu. congruence.
      * intros [x [H _]]; discriminate.
  - intros u. unfold removeConnection. rewrite E. fold uid. rewrite Eids.
    destruct (Nat.eqb_spec (JsSet.size (JsSet.delete connectionId ids)) 0)
      as [Hz|Hz]; cbn [userConnections].
    + rewrite JsMapFacts.get_delete.
      destruct (String.eqb u uid); [discriminate | apply Hne].
    + rewrite JsMapFacts.get_set.
      destruct (String.eqb u uid); [|apply Hne].
      intros [= Hnil]. apply Hz. unfold JsSet.size. rewrite Hnil. reflexivity.
Qed.

Lemma consistent_removeAll ids cm :
  consistent cm -> consistent (removeAll ids cm).
Proof.
  revert cm. induction ids as [|i ids IH]; intros cm H; cbn.
  - exact H.
  - apply IH, consistent_remove, H.
Qed.

Lemma consistent_registryOp op w :
  consistent (connectionManager w) ->
  idRespected op (connectionManager w) = true ->
  consistent (connectionManager (world (registryOp op w))).
Proof.
  intros Hc Hid. destruct op as [connection|connectionId|env u msg ex].
  - cbn. apply consistent_add; assumption.
  - cbn. apply consistent_remove; assumption.
  - cbn [registryOp]. rewrite broadcastToUser_eq. cbn.
    apply consistent_removeAll, Hc.
Qed.

End RegistryInvariant.

(** C9, the statement as the specification has it fails: the class does
    not check ids, and registering an id already held by a connection of
    another user leaves that id in the other user's set. *)
Lemma registry_consistency_fails_on_reused_id :
  ~ (forall ops w, connectionManager w = emptyRegistry ->
       consistent (connectionManager (runOps ops w))).
Proof.
  intros H.
  pose (c1 := Connection.mk "c1" "u1" "org" student 1 0%Z "chat").
  pose (c2 := Connection.mk "c1" "u2" "org" parent 2 0%Z "chat").
  specialize (H [OpAdd c1; OpAdd c2]
                (mkWorld emptyRegistry JsMap.empty emptyDb) eq_refl).
  destruct H as [Hex _].
  destruct (proj1 (Hex "u1" "c1")) as [conn [Hget Hu]].
  - cbn. left. reflexivity.
  - cbn in Hget. injection Hget as <-. discriminate.
Qed.

(** C9 (amended): starting from the empty registry, after any sequence
    of addConnection, removeConnection and broadcastToUser calls in which
    no addConnection registers an id that is at that moment held by a
    connection of another user, the by-user index maps each user to
    exactly the ids of the registered connections of that user and holds
    no empty set; and removeConnection of an id that is not registered
    leaves both maps as they are. *)
Theorem registry_consistent ops w :
  connectionManager w = emptyRegistry ->
  idsRespected ops w = true ->
  consistent (connectionManager (runOps ops w))
  /\ (forall connectionId,
        JsMap.get connectionId (connections (connectionManager (runOps ops w)))
        = None ->
        removeConnection connectionId (connectionManager (runOps ops w))
        = connectionManager (runOps ops w)).
Proof.
  intros Hempty Hids. split; [|intros; apply removeConnection_absent; assumption].
  assert (Hc : consistent (connectionManager w))
    by (rewrite Hempty; apply consistent_empty).
  clear Hempty. revert w Hids Hc.
  induction ops as [|op ops IH]; intros w Hids Hc; cbn in *.
  - exact Hc.
  - apply andb_prop in Hids. destruct Hids as [Hid Hrest].
    apply IH; [assumption|]. apply consistent_registryOp; assumption.
Qed.

(** ** The call-signaling engine *)

Ltac run :=
  repeat (progress
            (unfold bind, tryCatch, gets, modify, emit, ret, throw, socketSend,
               dbWrite, mutateCall;
             cbn [outcome world trace activeCalls connectionManager supabase
                  with_activeCalls with_connectionManager with_supabase app])
          || rewrite broadcastToUser_eq).

Module JsMapMore.
Section WithValue.
Context {V : Type}.
Implicit Types (m : JsMap.t V) (k : string) (v : V).

Lemma set_set m k v v' :
  JsMap.set k v' (JsMap.set k v m) = JsMap.set k v' m.
Proof.
  induction m as [|[k0 v0] m IH]; simpl.
  - rewrite String.eqb_refl. reflexivity.
  - destruct (String.eqb_spec k k0) as [->|Hk]; simpl.
    + rewrite String.eqb_refl. reflexivity.
    + destruct (String.eqb_spec k k0); [contradiction|]. rewrite IH.
      reflexivity.
Qed.

Lemma delete_set m k v :
  JsMap.delete k (JsMap.set k v m) = JsMap.delete k m.
Proof.
  unfold JsMap.delete.
  induction m as [|[k0 v0] m IH]; simpl.
  - rewrite String.eqb_refl. reflexivity.
  - destruct (String.eqb_spec k k0) as [->|Hk]; simpl.
    + rewrite String.eqb_refl. reflexivity.
    + destruct (String.eqb_spec k k0); [contradiction|]. simpl.
      rewrite IH. reflexivity.
Qed.

Lemma Forall_set (P : string * V -> Prop) m k v :
  Forall P m -> P (k, v) -> Forall P (JsMap.set k v m).
Proof.
  intros Hm Hv. induction m as [|[k0 v0] m IH]; simpl.
  - constructor; [assumption | constructor].
  - inversion Hm; subst.
    destruct (String.eqb k k0); constructor; auto.
Qed.

Lemma Forall_delete (P : string * V -> Prop) m k :
  Forall P m -> Forall P (JsMap.delete k m).
Proof.
  intros Hm. apply Forall_forall. intros x Hx.
  apply filter_In in Hx. rewrite Forall_forall in Hm. apply Hm, Hx.
Qed.

Lemma count_delete (p : V -> bool) m k :
  (length (filter p (JsMap.values (JsMap.delete k m)))
   <= length (filter p (JsMap.values m)))%nat.
Proof.
  unfold JsMap.delete, JsMap.values.
  induction m as [|[k0 v0] m IH]; simpl; [lia|].
  destruct (String.eqb k k0); simpl; destruct (p v0); simpl; lia.
Qed.

Lemma count_set (p : V -> bool) m k v :
  (length (filter p (JsMap.values (JsMap.set k v m)))
   <= length (filter p (JsMap.values m)) + (if p v then 1 else 0))%nat.
Proof.
  unfold JsMap.values.
  induction m as [|[k0 v0] m IH]; simpl.
  - destruct (p v); simpl; lia.
  - destruct (String.eqb k k0); simpl.
    + destruct (p v), (p v0); simpl; lia.
    + destruct (p v0); simpl; lia.
Qed.

Lemma count_replace (p : V -> bool) m k v v0 :
  JsMap.get k m = Some v0 ->
  (p v = true -> p v0 = true) ->
  (length (filter p (JsMap.values (JsMap.set k v m)))
   <= length (filter p (JsMap.values m)))%nat.
Proof.
  unfold JsMap.values. intros Hget Himp.
  induction m as [|[k1 v1] m IH]; simpl in *; [discriminate|].
  destruct (String.eqb k k1); simpl.
  - injection Hget as ->.
    destruct (p v) eqn:E; simpl.
    + rewrite Himp by reflexivity. simpl. lia.
    + destruct (p v0); simpl; lia.
  - specialize (IH Hget). destruct (p v1); simpl; lia.
Qed.
End WithValue.
End JsMapMore.

Lemma endCall_absent env callId reason w :
  JsMap.get callId (activeCalls w) = None ->
  endCall env callId reason w = mkResult (Returned tt) w [].
Proof.
  intros H. unfold endCall. run. rewrite H. reflexivity.
Qed.

Lemma endCall_present env callId reason w call0 :
  JsMap.get callId (activeCalls w) = Some call0 ->
  endCall env callId reason w
  = let duration := callDuration (Call.connectedAt call0) (now env) in
    let op := UpdateCallEnded (Call.id call0) (now env) duration reason in
    let ok := negb (dbError env (Q_update_ended (Call.id call0))) in
    let msg := callEnded (Call.id call0) reason duration in
    let cm0 := connectionManager w in
    let conns1 := getUserConnections (Call.callerId call0) cm0 in
    let cm1 := removeAll (failedIds env None conns1) cm0 in
    let conns2 := getUserConnections (Call.calleeId call0) cm1 in
    let cm2 := removeAll (failedIds env None conns2) cm1 in
    mkResult (Returned tt)
      (mkWorld cm2 (JsMap.delete callId (activeCalls w))
         (if ok then applyWrite op (supabase w) else supabase w))
      (DbWrite op ok :: sendsTo msg None conns1 ++ sendsTo msg None conns2).
Proof.
  intros H. unfold endCall. run. rewrite H. run. rewrite H.
  cbn [Call.id Call.with_endedAt Call.with_status Call.connectedAt
       Call.callerId Call.calleeId].
  destruct w as [cm calls db]. run.
  rewrite JsMapMore.delete_set, ?app_nil_r. reflexivity.
Qed.

Lemma endCall_shape env callId reason w :
  exists cm db tr,
    endCall env callId reason w
    = mkResult (Returned tt)
        (mkWorld cm (JsMap.delete callId (activeCalls w)) db) tr.
Proof.
  destruct (JsMap.get callId (activeCalls w)) as [call0|] eqn:E.
  - rewrite (endCall_present _ _ _ _ E). cbv zeta. do 3 eexists. reflexivity.
  - rewrite (endCall_absent _ _ _ _ E).
    rewrite (JsMapFacts.delete_absent _ _ E).
    destruct w as [cm calls db]. cbn. do 3 eexists. reflexivity.
Qed.

Lemma endCalls_shape env reason userCalls w :
  exists cm db tr,
    endCalls env reason userCalls w
    = mkResult (Returned tt)
        (mkWorld cm (deleteAll (map Call.id userCalls) (activeCalls w)) db) tr.
Proof.
  revert w. induction userCalls as [|call rest IH]; intros w.
  - destruct w as [cm calls db]. cbn. do 3 eexists. reflexivity.
  - cbn [endCalls]. unfold bind.
    destruct (endCall_shape env (Call.id call) reason w) as [cm [db [tr E]]].
    rewrite E. cbn [outcome world trace].
    destruct (IH (mkWorld cm (JsMap.delete (Call.id call) (activeCalls w)) db))
      as [cm' [db' [tr' E']]].
    rewrite E'. cbn. do 3 eexists. reflexivity.
Qed.

Lemma handleCallOffer_busy env connection m w pairing existing :
  offerPairing env m w = Some pairing ->
  isMember (Connection.userId connection) pairing = true ->
  find (inCall (otherMember pairing (Connection.userId connection)))
    (JsMap.values (activeCalls w)) = Some existing ->
  handleCallOffer env connection m w
  = mkResult (Returned tt) w
      [SocketSend (Connection.socket connection)
         (callError (CallOffer.callId m) "User busy"
            "The user is currently in another call")].
Proof.
  unfold offerPairing, isMember. intros Hp Hm Hbusy.
  unfold handleCallOffer. run. rewrite Hp.
  apply orb_true_iff in Hm.
  assert (Hguard : negb (Db.student_id pairing =? Connection.userId connection)
                   && negb (Db.parent_id pairing =? Connection.userId connection)
                   = false).
  { destruct Hm as [-> | ->]; cbn; [reflexivity | apply andb_false_r]. }
  rewrite Hguard. run. rewrite Hbusy. run.
  destruct (sendThrows env (Connection.socket connection)); reflexivity.
Qed.

(** What [handleCallOffer] does to the active-call map: nothing, or it
    stores the offered session, and then its callee had no non-ended
    session. *)
Lemma handleCallOffer_calls env connection m w :
  activeCalls (world (handleCallOffer env connection m w)) = activeCalls w
  \/ exists pairing,
       offerPairing env m w = Some pairing
       /\ isMember (Connection.userId connection) pairing = true
       /\ find (inCall (otherMember pairing (Connection.userId connection)))
            (JsMap.values (activeCalls w)) = None
       /\ activeCalls (world (handleCallOffer env connection m w))
          = JsMap.set (CallOffer.callId m)
              (offeredCall env connection m
                 (otherMember pairing (Connection.userId connection)))
              (activeCalls w).
Proof.
  unfold offerPairing, isMember, handleCallOffer. run.
  destruct (selectSingle env Q_offer_pairing _) as [pairing|] eqn:Hp.
  2:{ left. run. destruct (sendThrows env _); reflexivity. }
  destruct (negb (Db.student_id pairing =? Connection.userId connection)
            && negb (Db.parent_id pairing =? Connection.userId connection))
    eqn:Hguard.
  { left. run. destruct (sendThrows env _); reflexivity. }
  run.
  destruct (find _ (JsMap.values (activeCalls w))) as [existing|] eqn:Hbusy.
  { left. run. destruct (sendThrows env _); reflexivity. }
  right. exists pairing. split; [reflexivity|]. split.
  { apply andb_false_iff in Hguard.
    destruct Hguard as [H|H]; apply negb_false_iff in H; rewrite H;
      [reflexivity | apply orb_true_r]. }
  split; [assumption|].
  run. cbn [Call.id]. run.
  rewrite JsMapFacts.get_set_same. run.
  rewrite JsMapMore.set_set.
  destruct (sendThrows env _); reflexivity.
Qed.

Lemma handleCallAnswer_calls env connection m w :
  activeCalls (world (handleCallAnswer env connection m w)) = activeCalls w
  \/ exists call,
       JsMap.get (CallAnswer.callId m) (activeCalls w) = Some call
       /\ Call.calleeId call = Connection.userId connection
       /\ activeCalls (world (handleCallAnswer env connection m w))
          = JsMap.set (CallAnswer.callId m)
              (Call.with_connectedAt (now env) (Call.with_status connected call))
              (activeCalls w).
Proof.
  unfold handleCallAnswer. run.
  destruct (JsMap.get (CallAnswer.callId m) (activeCalls w)) as [call|] eqn:E.
  2:{ left. run. destruct (sendThrows env _); reflexivity. }
  destruct (String.eqb_spec (Call.calleeId call) (Connection.userId connection))
    as [Hc|Hc]; cbn [negb].
  2:{ left. run. destruct (sendThrows env _); reflexivity. }
  right. exists call. split; [reflexivity|]. split; [assumption|].
  run. rewrite E. run.
  destruct (sendThrows env _); reflexivity.
Qed.

Lemma handleCallCandidate_world env connection m w :
  activeCalls (world (handleCallCandidate env connection m w)) = activeCalls w
  /\ supabase (world (handleCallCandidate env connection m w)) = supabase w.
Proof.
  unfold handleCallCandidate. run.
  destruct (JsMap.get (CallCandidate.callId m) (activeCalls w)) as [call|];
    [|split; reflexivity].
  destruct (negb (Call.callerId call =? Connection.userId connection)
            && negb (Call.calleeId call =? Connection.userId connection));
    [split; reflexivity|].
  run. split; reflexivity.
Qed.


Lemma handleCallHangup_run env connection m w :
  handleCallHangup env connection m w
  = endCall env (CallHangup.callId m) (hangupReason (CallHangup.reason m)) w.
Proof.
  unfold handleCallHangup, tryCatch.
  destruct (endCall_shape env (CallHangup.callId m)
              (hangupReason (CallHangup.reason m)) w) as [cm [db [tr E]]].
  rewrite E. reflexivity.
Qed.

Lemma ringingTimeout_run env callId w :
  ringingTimeout env callId w
  = match JsMap.get callId (activeCalls w) with
    | Some c =>
        if CallStatus_beq (Call.status c) ringing
        then endCall env callId "timeout" w
        else mkResult (Returned tt) w []
    | None => mkResult (Returned tt) w []
    end.
Proof.
  unfold ringingTimeout. run.
  destruct (JsMap.get callId (activeCalls w)) as [c|]; [|reflexivity].
  destruct (CallStatus_beq (Call.status c) ringing); [|reflexivity].
  destruct (endCall_shape env callId "timeout" w) as [cm [db [tr E]]].
  rewrite E. reflexivity.
Qed.

Lemma signalingOnClose_calls env connection w :
  exists ids,
    activeCalls (world (signalingOnClose env connection w))
    = deleteAll ids (activeCalls w).
Proof.
  unfold signalingOnClose, endUserCalls. run.
  match goal with
  | |- context [endCalls env ?r ?l ?w0] =>
      destruct (endCalls_shape env r l w0) as [cm [db [tr E]]]; rewrite E
  end.
  run. eexists. reflexivity.
Qed.

(** *** The invariant of the active-call map *)

Lemma callsOk_empty : callsOk JsMap.empty.
Proof. split; [constructor | intros u; cbn; lia]. Qed.

Lemma callsOk_delete k calls : callsOk calls -> callsOk (JsMap.delete k calls).
Proof.
  intros [Hall Hcount]. split.
  - apply JsMapMore.Forall_delete, Hall.
  - intros u. specialize (Hcount u).
    pose proof (JsMapMore.count_delete (isCallee u) calls k). lia.
Qed.

Lemma callsOk_deleteAll ids calls :
  callsOk calls -> callsOk (deleteAll ids calls).
Proof.
  revert calls. induction ids as [|k ids IH]; intros calls H; cbn.
  - exact H.
  - apply IH, callsOk_delete, H.
Qed.

Lemma find_none_count u (l : list Call.t) :
  find (inCall u) l = None -> filter (isCallee u) l = [].
Proof.
  induction l as [|c l IH]; cbn; [reflexivity|].
  destruct (inCall u c) eqn:E; [discriminate|].
  intros H. unfold inCall in E. unfold isCallee.
  destruct (Call.calleeId c =? u).
  - rewrite orb_true_r in E. cbn in E. cbn. rewrite E. apply IH, H.
  - cbn. apply IH, H.
Qed.

Lemma callsOk_offer env connection m callee calls :
  callsOk calls ->
  find (inCall callee) (JsMap.values calls) = None ->
  callsOk (JsMap.set (CallOffer.callId m)
             (offeredCall env connection m callee) calls).
Proof.
  intros [Hall Hcount] Hfree. split.
  - apply JsMapMore.Forall_set; [assumption|].
    unfold entryOk. cbn. auto.
  - intros u.
    pose proof (JsMapMore.count_set (isCallee u) calls (CallOffer.callId m)
                  (offeredCall env connection m callee)) as Hset.
    unfold isCallee at 3 in Hset. cbn in Hset.
    destruct (String.eqb_spec callee u) as [Heq|Hne].
    + subst u. rewrite (find_none_count _ _ Hfree) in Hset. cbn in Hset. lia.
    + specialize (Hcount u). cbn in Hset. lia.
Qed.

Lemma callsOk_answer now_ k call calls :
  callsOk calls ->
  JsMap.get k calls = Some call ->
  callsOk (JsMap.set k
             (Call.with_connectedAt now_ (Call.with_status connected call))
             calls).
Proof.
  intros [Hall Hcount] Hget.
  assert (Hentry : entryOk (k, call)).
  { rewrite Forall_forall in Hall. apply Hall, JsMapFacts.get_In, Hget. }
  destruct Hentry as [Hid [Hst _]]. cbn in Hid, Hst.
  split.
  - apply JsMapMore.Forall_set; [assumption|].
    unfold entryOk. cbn. repeat split; [assumption | auto | discriminate].
  - intros u. specialize (Hcount u).
    pose proof (JsMapMore.count_replace (isCallee u) calls k
                  (Call.with_connectedAt now_ (Call.with_status connected call))
                  Hget) as Hrep.
    assert (Himp : isCallee u
                     (Call.with_connectedAt now_
                        (Call.with_status connected call)) = true
                   -> isCallee u call = true).
    { unfold isCallee. cbn. rewrite andb_true_r. intros ->.
      destruct Hst as [-> | ->]; reflexivity. }
    specialize (Hrep Himp). lia.
Qed.

Lemma callsOk_step env a w :
  callsOk (activeCalls w) ->
  callsOk (activeCalls (world (signalingStep env a w))).
Proof.
  intros Hok. destruct a as [c m|c m|c m|c m|c|callId]; cbn [signalingStep].
  - destruct (handleCallOffer_calls env c m w)
      as [E | [pairing [_ [_ [Hfree E]]]]]; rewrite E.
    + exact Hok.
    + apply callsOk_offer; assumption.
  - destruct (handleCallAnswer_calls env c m w)
      as [E | [call [Hget [_ E]]]]; rewrite E.
    + exact Hok.
    + apply callsOk_answer; assumption.
  - rewrite (proj1 (handleCallCandidate_world env c m w)). exact Hok.
  - rewrite handleCallHangup_run.
    destruct (endCall_shape env (CallHangup.callId m)
                (hangupReason (CallHangup.reason m)) w) as [cm [db [tr E]]].
    rewrite E. cbn. apply callsOk_delete, Hok.
  - destruct (signalingOnClose_calls env c w) as [ids E]. rewrite E.
    apply callsOk_deleteAll, Hok.
  - rewrite ringingTimeout_run.
    destruct (JsMap.get callId (activeCalls w)) as [call|]; [|exact Hok].
    destruct (CallStatus_beq (Call.status call) ringing); [|exact Hok].
    destruct (endCall_shape env callId "timeout" w) as [cm [db [tr E]]].
    rewrite E. cbn. apply callsOk_delete, Hok.
Qed.

Lemma reachable_callsOk w : reachable w -> callsOk (activeCalls w).
Proof.
  induction 1 as [cm db | env a w _ IH | cm db w _ IH].
  - apply callsOk_empty.
  - apply callsOk_step, IH.
  - exact IH.
Qed.

(** *** The offer, accepted *)

Lemma handleCallOffer_accept env connection m w pairing :
  offerPairing env m w = Some pairing ->
  isMember (Connection.userId connection) pairing = true ->
  find (inCall (otherMember pairing (Connection.userId connection)))
    (JsMap.values (activeCalls w)) = None ->
  let callee := otherMember pairing (Connection.userId connection) in
  let conns := getUserConnections callee (connectionManager w) in
  let ok1 := negb (dbError env Q_insert_call) in
  let ok2 := negb (dbError env Q_update_ringing) in
  let insert := InsertCall (insertedCall env connection m callee) in
  let update := UpdateCallRinging (CallOffer.callId m) in
  let db1 := if ok1 then applyWrite insert (supabase w) else supabase w in
  handleCallOffer env connection m w
  = mkResult (Returned tt)
      (mkWorld
         (removeAll (failedIds env None conns) (connectionManager w))
         (JsMap.set (CallOffer.callId m)
            (offeredCall env connection m callee) (activeCalls w))
         (if ok2 then applyWrite update db1 else db1))
      (DbWrite insert ok1
       :: sendsTo (callOfferReceived connection m) None conns
       ++ [DbWrite update ok2;
           SocketSend (Connection.socket connection) (callOfferSent m)]
       ++ (if sendThrows env (Connection.socket connection) then []
           else [SetTimeout (CallOffer.callId m) ringingTimeoutMs])).
Proof.
  unfold offerPairing, isMember. intros Hp Hm Hfree. cbv zeta.
  unfold handleCallOffer. run. rewrite Hp.
  apply orb_true_iff in Hm.
  assert (Hguard : negb (Db.student_id pairing =? Connection.userId connection)
                   && negb (Db.parent_id pairing =? Connection.userId connection)
                   = false).
  { destruct Hm as [-> | ->]; cbn; [reflexivity | apply andb_false_r]. }
  rewrite Hguard. run. rewrite Hfree. run. cbn [Call.id]. run.
  rewrite JsMapFacts.get_set_same. run. rewrite JsMapMore.set_set.
  destruct w as [cm calls db]. cbn [connectionManager activeCalls supabase].
  destruct (sendThrows env (Connection.socket connection)); run;
    rewrite <- ?app_assoc; reflexivity.
Qed.

Lemma filter_nonempty_find {A} (p : A -> bool) (l : list A) :
  filter p l <> [] -> exists x, find p l = Some x.
Proof.
  induction l as [|a l IH]; cbn; [congruence|].
  destruct (p a); eauto.
Qed.

Lemma find_none_filter {A} (p : A -> bool) (l : list A) :
  find p l = None -> filter p l = [].
Proof.
  induction l as [|a l IH]; cbn; [reflexivity|].
  destruct (p a); [discriminate | exact IH].
Qed.

(** *** One call per user *)

(** C1, the statement as the specification has it fails: only the callee
    is checked for a call in progress.  In the example deployment alice
    rings bob and then, that call still ringing, offers a call to carol
    through her second pairing: carol is free, the offer is accepted, and
    alice is the caller of two non-ended sessions. *)
Lemma caller_holds_two_sessions :
  reachable Example.ringing2
  /\ length (activeSessionsOf "alice" Example.ringing1) = 1%nat
  /\ length (activeSessionsOf "alice" Example.ringing2) = 2%nat.
Proof.
  split; [|split; vm_compute; reflexivity].
  unfold Example.ringing2, Example.ringing1.
  do 2 apply reachable_step. apply reachable_start.
Qed.

(** C1 (amended): in every reachable state of the call-signaling engine
    (each handler invocation taken as one step) and for every user U, at
    most one non-ended session of the active-call map has U as its
    callee; and [handleCallOffer] either leaves the map
    as it is or stores the offered session, which it does only when the
    computed callee appears in no non-ended session.  The sessions of the
    caller are not looked at. *)
Theorem one_session_per_callee w :
  reachable w ->
  (forall u, (length (sessionsAsCallee u w) <= 1)%nat)
  /\ (forall env connection m,
        let w' := world (handleCallOffer env connection m w) in
        activeCalls w' = activeCalls w
        \/ exists pairing,
             offerPairing env m w = Some pairing
             /\ activeSessionsOf
                  (otherMember pairing (Connection.userId connection)) w = []
             /\ activeCalls w'
                = JsMap.set (CallOffer.callId m)
                    (offeredCall env connection m
                       (otherMember pairing (Connection.userId connection)))
                    (activeCalls w)).
Proof.
  intros Hr. split.
  - intros u. apply (proj2 (reachable_callsOk Hr)).
  - intros env connection m w'. subst w'.
    destruct (handleCallOffer_calls env connection m w)
      as [E | [pairing [Hp [_ [Hfree E]]]]]; [left; exact E|].
    right. exists pairing. split; [exact Hp|]. split; [|exact E].
    apply find_none_filter, Hfree.
Qed.

Lemma one_session_per_callee_witness :
  reachable Example.ringing2
  /\ (forall u, (length (sessionsAsCallee u Example.ringing2) <= 1)%nat).
Proof.
  assert (Hr : reachable Example.ringing2).
  { unfold Example.ringing2, Example.ringing1.
    do 2 apply reachable_step. apply reachable_start. }
  split; [exact Hr|].
  exact (proj1 (one_session_per_callee Hr)).
Defined.

(** *** Busy *)

(** C4: when the pairing of a call_offer is found, the caller is one of
    its members and the computed callee already appears (as caller or
    callee) in a non-ended session of the active-call map, the handler
    does exactly one thing: it sends the caller a call_error envelope
    whose error is "User busy", which is neither the envelope of an
    unknown pairing nor that of an unknown call.  The whole state (the
    active-call map and the store included) is left as it was and no
    write is asked of the store. *)
Theorem busy_callee_is_rejected env connection m w pairing :
  offerPairing env m w = Some pairing ->
  isMember (Connection.userId connection) pairing = true ->
  activeSessionsOf (otherMember pairing (Connection.userId connection)) w <> [] ->
  handleCallOffer env connection m w
  = mkResult (Returned tt) w
      [SocketSend (Connection.socket connection)
         (busyError (CallOffer.callId m))]
  /\ busyError (CallOffer.callId m) <> invalidPairingError (CallOffer.callId m)
  /\ busyError (CallOffer.callId m) <> callNotFoundError (CallOffer.callId m).
Proof.
  intros Hp Hm Hbusy.
  destruct (filter_nonempty_find _ _ Hbusy) as [existing Hfind].
  split; [|split; discriminate].
  exact (handleCallOffer_busy env connection m w Hp Hm Hfind).
Qed.

Lemma busy_callee_is_rejected_witness :
  handleCallOffer (Example.fair 2000) Example.carolSignaling Example.offerCA
    Example.ringing1
  = mkResult (Returned tt) Example.ringing1
      [SocketSend 3 (busyError "call-3")].
Proof.
  refine (proj1 (busy_callee_is_rejected (Example.fair 2000)
                   Example.carolSignaling Example.offerCA Example.ringing1
                   (pairing := Example.pairingAC) _ _ _)).
  - vm_compute. reflexivity.
  - vm_compute. reflexivity.
  - vm_compute. discriminate.
Defined.

(** *** The ringing timeout *)



(** *** Ending an absent call *)

Lemma endCall_removes env callId reason w :
  JsMap.get callId (activeCalls (world (endCall env callId reason w))) = None.
Proof.
  destruct (endCall_shape env callId reason w) as [cm [db [tr E]]].
  rewrite E. cbn. rewrite JsMapFacts.get_delete, String.eqb_refl. reflexivity.
Qed.

(** C7: when the call id is not in the active-call map, be it that it
    never was or that the state is the one [endCall] has just left for
    that id, then [endCall], a call_hangup for that id and the ringing
    timeout of that id all return having changed nothing and called
    nothing: no write to the store, no call_ended envelope. *)
Theorem ending_absent_call_is_noop env connection callId reason w :
  (JsMap.get callId (activeCalls w) = None
   \/ exists env0 reason0 w0, w = world (endCall env0 callId reason0 w0)) ->
  endCall env callId reason w = mkResult (Returned tt) w []
  /\ (forall m, CallHangup.callId m = callId ->
        handleCallHangup env connection m w = mkResult (Returned tt) w [])
  /\ ringingTimeout env callId w = mkResult (Returned tt) w [].
Proof.
  intros H.
  assert (Habsent : JsMap.get callId (activeCalls w) = None).
  { destruct H as [H | [env0 [reason0 [w0 ->]]]];
      [exact H | apply endCall_removes]. }
  split; [|split].
  - apply endCall_absent, Habsent.
  - intros m <-. rewrite handleCallHangup_run. apply endCall_absent, Habsent.
  - rewrite ringingTimeout_run, Habsent. reflexivity.
Qed.


Lemma ending_absent_call_is_noop_witness :
  endCall (Example.fair 7000) "call-1" "hangup" Example.hungUp1
  = mkResult (Returned tt) Example.hungUp1 [].
Proof.
  refine (proj1 (ending_absent_call_is_noop (Example.fair 7000)
                   Example.aliceSignaling "call-1" "hangup"
                   (w := Example.hungUp1) _)).
  left. vm_compute. reflexivity.
Defined.

(** ** Presence *)

Lemma notifyEach_eq env message partnerIds w :
  notifyEach env message partnerIds w
  = mkResult (Returned tt)
      (with_connectionManager
         (notifyRegistry env partnerIds (connectionManager w)) w)
      (notifySends env message partnerIds (connectionManager w)).
Proof.
  revert w. induction partnerIds as [|p rest IH]; intros w.
  - cbn. rewrite with_connectionManager_same. reflexivity.
  - cbn [notifyEach notifySends notifyRegistry]. run. rewrite IH. run.
    reflexivity.
Qed.

Lemma single_In {A} (l : list A) (x : A) : single l = Some x -> In x l.
Proof.
  destruct l as [|a [|b l]]; cbn; try discriminate.
  intros [= ->]. left. reflexivity.
Qed.

Lemma selectSingle_In {A} env q (l : list A) (x : A) :
  selectSingle env q l = Some x -> In x l.
Proof.
  unfold selectSingle. destruct (dbError env q); [discriminate|].
  apply single_In.
Qed.

Lemma shouldNotify_hidden pr : shouldNotify pr = negb (hidden pr).
Proof.
  unfold shouldNotify, hidden.
  destruct (UserType_beq (Db.user_type pr) student && negb (Db.visible_to_partner pr)),
    (Db.dnd_enabled pr); reflexivity.
Qed.

(** The run of [notifyPairedPartners], by cases on the two reads. *)
Lemma notifyPairedPartners_run env userId status metadata w :
  notifyPairedPartners env userId status metadata w
  = match selectRows env Q_notify_pairings (activePairingsOf userId (supabase w)),
          selectSingle env Q_notify_profile (profileOf userId (supabase w)) with
    | Some pairings, Some userProfile =>
        if shouldNotify userProfile
        then
          let partnerIds := map (fun p => otherMember p userId) pairings in
          mkResult (Returned tt)
            (with_connectionManager
               (notifyRegistry env partnerIds (connectionManager w)) w)
            (notifySends env (partnerPresenceUpdate userId status metadata)
               partnerIds (connectionManager w))
        else mkResult (Returned tt) w []
    | _, _ => mkResult (Returned tt) w []
    end.
Proof.
  unfold notifyPairedPartners. run.
  destruct (selectRows env Q_notify_pairings _) as [pairings|]; [|reflexivity].
  destruct (selectSingle env Q_notify_profile _) as [pr|]; [|reflexivity].
  destruct (shouldNotify pr); [|reflexivity].
  rewrite notifyEach_eq. reflexivity.
Qed.

Lemma notifyPairedPartners_hidden env userId status metadata w :
  hiddenIn userId (supabase w) ->
  notifyPairedPartners env userId status metadata w
  = mkResult (Returned tt) w [].
Proof.
  intros Hh. rewrite notifyPairedPartners_run.
  destruct (selectRows env Q_notify_pairings _) as [pairings|]; [|reflexivity].
  destruct (selectSingle env Q_notify_profile _) as [pr|] eqn:E; [|reflexivity].
  apply selectSingle_In in E. unfold profileOf in E.
  apply filter_In in E. destruct E as [Hin Hid]. apply String.eqb_eq in Hid.
  rewrite shouldNotify_hidden, (Hh pr Hin Hid). reflexivity.
Qed.

Lemma updateUserPresence_eq env userId status metadata w :
  updateUserPresence env userId status metadata w
  = let row := Db.mkPresence userId status (now env) (metadataOrEmpty metadata) in
    let ok := negb (dbError env Q_upsert_presence) in
    mkResult (Returned tt)
      (with_supabase
         (if ok then applyWrite (UpsertPresence row) (supabase w)
          else supabase w) w)
      [DbWrite (UpsertPresence row) ok].
Proof. unfold updateUserPresence. run. reflexivity. Qed.

Lemma hiddenIn_upsert userId row (ok : bool) db :
  hiddenIn userId db ->
  hiddenIn userId (if ok then applyWrite (UpsertPresence row) db else db).
Proof. destruct ok; intros H; exact H. Qed.

Lemma In_upsertPresence row rows : In row (upsertPresence row rows).
Proof.
  unfold upsertPresence.
  destruct (existsb _ rows) eqn:E.
  - apply existsb_exists in E. destruct E as [r [Hin Hr]].
    apply in_map_iff. exists r. rewrite Hr. tauto.
  - apply in_or_app. right. left. reflexivity.
Qed.

(** C8: let the subject of a presence change (a connect, a heartbeat
    carrying a status, a presence_update, a close) be a user whose
    profile is hidden: a student with visible_to_partner false, or a user
    with do-not-disturb on.  Then the handler sends no
    partner_presence_update envelope to anyone, and whenever it gets as
    far as changing the status it asks the store to upsert the presence
    row with the new status; the row is in the presence table afterwards
    unless the store reports an error. *)
Theorem hidden_user_is_not_announced env c w :
  hiddenIn (subject c) (supabase w) ->
  let r := presenceChange env c w in
  existsb isPartnerPresenceUpdate (trace r) = false
  /\ (changesStatus c w ->
      In (DbWrite (UpsertPresence (changedRow env c))
            (negb (dbError env Q_upsert_presence)))
         (trace r)
      /\ (dbError env Q_upsert_presence = false ->
          In (changedRow env c) (Db.presence (supabase (world r))))).
Proof.
  intros Hh r. subst r.
  assert (Hdone : forall row db,
            dbError env Q_upsert_presence = false ->
            In row (Db.presence
                      (if negb (dbError env Q_upsert_presence)
                       then applyWrite (UpsertPresence row) db else db))).
  { intros row db ->. cbn. apply In_upsertPresence. }
  destruct c as [conn|conn status|conn m|conn];
    cbn [presenceChange subject changedRow changesStatus] in *.
  - unfold presenceRoute, presenceHandler. run.
    rewrite updateUserPresence_eq. cbv zeta. run.
    rewrite notifyPairedPartners_hidden
      by (cbn [supabase with_supabase]; apply hiddenIn_upsert, Hh).
    run. destruct (sendThrows env (Connection.socket conn)); run;
      (split; [reflexivity | intros _; split;
                             [left; reflexivity | apply Hdone]]).
  - unfold handleHeartbeat. run.
    rewrite updateUserPresence_eq. cbv zeta. run.
    rewrite notifyPairedPartners_hidden
      by (cbn [supabase with_supabase]; apply hiddenIn_upsert, Hh).
    run. destruct (sendThrows env (Connection.socket conn)); run;
      (split; [reflexivity | intros _; split;
                             [left; reflexivity | apply Hdone]]).
  - unfold handlePresenceUpdate.
    destruct (String.eqb_spec (PresenceUpdate.userId m) (Connection.userId conn))
      as [Hu|Hu]; cbn [negb].
    + run. rewrite updateUserPresence_eq. cbv zeta. run.
      rewrite notifyPairedPartners_hidden
        by (cbn [supabase with_supabase]; rewrite Hu;
            apply hiddenIn_upsert, Hh).
      run. destruct (sendThrows env (Connection.socket conn)); run;
        (split; [reflexivity | intros _; split;
                               [left; reflexivity | apply Hdone]]).
    + run. destruct (sendThrows env (Connection.socket conn)); run;
        (split; [reflexivity | intros E; contradiction]).
  - unfold presenceOnClose. run.
    destruct (getUserConnections (Connection.userId conn)
                (removeConnection (Connection.id conn) (connectionManager w)))
      as [|c0 rest] eqn:E; cbn [length Nat.ltb Nat.leb negb].
    + run. rewrite updateUserPresence_eq. cbv zeta. run.
      rewrite notifyPairedPartners_hidden
        by (cbn [supabase with_supabase]; apply hiddenIn_upsert, Hh).
      run. split; [reflexivity | intros _; split;
                                 [left; reflexivity | apply Hdone]].
    + run. split; [reflexivity | intros H; discriminate].
Qed.

Lemma hidden_user_is_not_announced_witness :
  existsb isPartnerPresenceUpdate
    (trace (presenceChange (Example.fair 1000)
              (connects Example.alicePresence) Example.presenceStartHidden))
  = false
  /\ In (DbWrite
           (UpsertPresence (Db.mkPresence "alice" online 1000%Z "{}")) true)
        (trace (presenceChange (Example.fair 1000)
                  (connects Example.alicePresence)
                  Example.presenceStartHidden)).
Proof.
  assert (Hh : hiddenIn "alice" (supabase Example.presenceStartHidden)).
  { intros pr Hin Hid. cbn in Hin.
    destruct Hin as [<-|[<-|[<-|[]]]]; [reflexivity | discriminate..]. }
  pose proof (hidden_user_is_not_announced (Example.fair 1000)
                (connects Example.alicePresence)
                Example.presenceStartHidden Hh) as [H1 H2].
  split; [exact H1 | exact (proj1 (H2 I))].
Defined.

(** *** Going online *)






(** ** Chat *)

Lemma clearTypingIndicator_eq env userId pairingId w :
  clearTypingIndicator env userId pairingId w
  = mkResult (Returned tt)
      (with_connectionManager
         (clearRegistry env userId pairingId (supabase w) (connectionManager w))
         w)
      (clearSends env userId pairingId (supabase w) (connectionManager w)).
Proof.
  unfold clearTypingIndicator, clearRegistry, clearSends. run.
  destruct (selectSingle env Q_clearTyping_pairing _) as [pairing|]; run.
  - reflexivity.
  - rewrite with_connectionManager_same. reflexivity.
Qed.

(** The run of [handleChatMessage], by cases. *)
Lemma handleChatMessage_run env connection m w :
  let sock := Connection.socket connection in
  let userId := Connection.userId connection in
  let pairingId := ChatMessage.pairingId m in
  let row := messageRow env m in
  let db1 := applyWrite (InsertMessage row) (supabase w) in
  handleChatMessage env connection m w
  = if negb (hasPermission_send_message env userId pairingId (supabase w))
    then mkResult (Returned tt) w [SocketSend sock forbiddenError]
    else if dbError env Q_insert_message
    then mkResult (Returned tt) w
           [DbWrite (InsertMessage row) false; SocketSend sock saveFailedError]
    else
      match selectSingle env Q_message_pairing (pairingById pairingId db1) with
      | None =>
          mkResult (Returned tt) (with_supabase db1 w)
            [DbWrite (InsertMessage row) true]
      | Some pairing =>
          let conns :=
            getUserConnections (otherMember pairing userId)
              (connectionManager w) in
          let cm1 :=
            removeAll (failedIds env None conns) (connectionManager w) in
          mkResult (Returned tt)
            (mkWorld
               (if sendThrows env sock then cm1
                else clearRegistry env userId pairingId db1 cm1)
               (activeCalls w) db1)
            (DbWrite (InsertMessage row) true
             :: sendsTo (messageReceived row pairingId) None conns
             ++ SocketSend sock (messageSent row (ChatMessage.id m))
             :: (if sendThrows env sock then []
                 else clearSends env userId pairingId db1 cm1))
      end.
Proof.
  cbv zeta. unfold handleChatMessage. run.
  destruct (hasPermission_send_message env _ _ (supabase w)); cbn [negb].
  2:{ run. destruct (sendThrows env _); run;
        rewrite ?with_connectionManager_same; reflexivity. }
  run. destruct (dbError env Q_insert_message); cbn [negb].
  { run. destruct w as [cm calls db].
    destruct (sendThrows env _); run; reflexivity. }
  run.
  destruct (selectSingle env Q_message_pairing _) as [pairing|]; run;
    [|reflexivity].
  destruct w as [cm calls db]. run.
  destruct (sendThrows env (Connection.socket connection)); run.
  - rewrite app_nil_r. reflexivity.
  - rewrite clearTypingIndicator_eq. run.
    rewrite app_nil_r. reflexivity.
Qed.

Lemma existsb_sendsTo p message ex conns :
  (forall s, p (SocketSend s message) = false) ->
  existsb p (sendsTo message ex conns) = false.
Proof.
  intros Hp. unfold sendsTo.
  induction (filter (fun c => negb (excluded ex c)) conns) as [|c l IH]; cbn.
  - reflexivity.
  - rewrite Hp, IH. reflexivity.
Qed.

Lemma existsb_clearSends p env userId pairingId db cm :
  (forall s, p (SocketSend s (typingCleared userId pairingId)) = false) ->
  existsb p (clearSends env userId pairingId db cm) = false.
Proof.
  intros Hp. unfold clearSends.
  destruct (selectSingle env Q_clearTyping_pairing _); [|reflexivity].
  apply existsb_sendsTo, Hp.
Qed.

(** C3: in every run of the chat-message handler that sends a
    message_received or a message_sent envelope, the trace of its calls
    starts with the successful insert of the message, continues with the
    message_received envelopes, all carrying the inserted row, then has
    the message_sent confirmation on the sender's socket, and nothing
    after it is a delivery or a confirmation; the row is in the store at
    the end.  When the sender may write to the pairing and the insert
    fails, the handler's calls are the failed insert and then an error
    envelope on the sender's socket, and nothing else: no delivery, no
    confirmation, the state unchanged. *)
Theorem persist_before_deliver_before_confirm env connection m w :
  let r := handleChatMessage env connection m w in
  let row := messageRow env m in
  let sock := Connection.socket connection in
  (existsb isDelivery (trace r) || existsb isConfirmation (trace r) = true ->
   exists deliveries rest,
     trace r
     = DbWrite (InsertMessage row) true
       :: deliveries
       ++ SocketSend sock (messageSent row (ChatMessage.id m)) :: rest
     /\ Forall (fun e => exists s,
                  e = SocketSend s
                        (messageReceived row (ChatMessage.pairingId m)))
          deliveries
     /\ existsb isDelivery rest = false
     /\ existsb isConfirmation rest = false
     /\ In row (Db.messages (supabase (world r))))
  /\ (hasPermission_send_message env (Connection.userId connection)
        (ChatMessage.pairingId m) (supabase w) = true ->
      dbError env Q_insert_message = true ->
      r = mkResult (Returned tt) w
            [DbWrite (InsertMessage row) false; SocketSend sock saveFailedError]).
Proof.
  intros r row sock. subst r row sock.
  rewrite handleChatMessage_run. cbv zeta.
  destruct (hasPermission_send_message env _ _ (supabase w)); cbn [negb].
  2:{ split; [cbn; discriminate | discriminate]. }
  destruct (dbError env Q_insert_message).
  { split; [cbn; discriminate | reflexivity]. }
  split; [|discriminate].
  destruct (selectSingle env Q_message_pairing _) as [pairing|];
    [|cbn; discriminate].
  intros _. cbn [trace world supabase].
  eexists. eexists. split; [reflexivity|]. split; [|split; [|split]].
  - apply Forall_forall. intros e He. exact (In_sendsTo _ _ _ _ He).
  - destruct (sendThrows env _); [reflexivity|].
    apply existsb_clearSends. reflexivity.
  - destruct (sendThrows env _); [reflexivity|].
    apply existsb_clearSends. reflexivity.
  - cbn. apply in_or_app. right. left. reflexivity.
Qed.

Lemma persist_before_deliver_before_confirm_witness :
  handleChatMessage
    (mkEnv 1000 "msg-1" (fun _ => false)
       (fun q => match q with Q_insert_message => true | _ => false end))
    Example.aliceChat
    (ChatMessage.mk "tmp-1" "pair-ab" "hello" text "alice") Example.chatStart
  = mkResult (Returned tt) Example.chatStart
      [DbWrite
         (InsertMessage
            (Db.mkMessage "msg-1" "pair-ab" "alice" "hello" text 1000%Z None))
         false;
       SocketSend 7 saveFailedError].
Proof.
  refine (proj2 (persist_before_deliver_before_confirm
                   (mkEnv 1000 "msg-1" (fun _ => false)
                      (fun q => match q with
                                | Q_insert_message => true
                                | _ => false
                                end))
                   Example.aliceChat
                   (ChatMessage.mk "tmp-1" "pair-ab" "hello" text "alice")
                   Example.chatStart) _ _).
  - vm_compute. reflexivity.
  - reflexivity.
Defined.

(** C10: the row the handler inserts takes its sender from the
    envelope's data.senderId, whoever the authenticated user of the
    connection is; and there is an input, accepted by the permission
    check, whose data.senderId is not the authenticated user and for
    which a row recording that other sender is stored and delivered. *)
Theorem sender_is_taken_from_the_envelope :
  (forall env connection m w,
      hasPermission_send_message env (Connection.userId connection)
        (ChatMessage.pairingId m) (supabase w) = true ->
      dbError env Q_insert_message = false ->
      exists row tr,
        trace (handleChatMessage env connection m w)
        = DbWrite (InsertMessage row) true :: tr
        /\ Db.sender_id row = ChatMessage.senderId m
        /\ In row (Db.messages
                     (supabase (world (handleChatMessage env connection m w)))))
  /\ (exists env connection m w row s,
        ChatMessage.senderId m <> Connection.userId connection
        /\ hasPermission_send_message env (Connection.userId connection)
             (ChatMessage.pairingId m) (supabase w) = true
        /\ Db.sender_id row = ChatMessage.senderId m
        /\ In row (Db.messages
                     (supabase (world (handleChatMessage env connection m w))))
        /\ In (SocketSend s (messageReceived row (ChatMessage.pairingId m)))
             (trace (handleChatMessage env connection m w))).
Proof.
  split.
  - intros env connection m w Hperm Hins.
    rewrite handleChatMessage_run. cbv zeta. rewrite Hperm, Hins. cbn [negb].
    exists (messageRow env m).
    destruct (selectSingle env Q_message_pairing _) as [pairing|];
      eexists; (split; [reflexivity|]); (split; [reflexivity|]);
      cbn; apply in_or_app; right; left; reflexivity.
  - exists (Example.fair 1000), Example.aliceChat, Example.asBob,
      Example.chatStart,
      (Db.mkMessage "msg-1" "pair-ab" "bob" "hello" text 1000%Z None), 8.
    split; [discriminate|]. split; [vm_compute; reflexivity|].
    split; [reflexivity|]. split; vm_compute; tauto.
Qed.

Lemma sender_is_taken_from_the_envelope_witness :
  exists row tr,
    trace (handleChatMessage (Example.fair 1000) Example.aliceChat
             Example.asBob Example.chatStart)
    = DbWrite (InsertMessage row) true :: tr
    /\ Db.sender_id row = "bob"
    /\ In row (Db.messages
                 (supabase
                    (world (handleChatMessage (Example.fair 1000)
                              Example.aliceChat Example.asBob
                              Example.chatStart)))).
Proof.
  refine (proj1 sender_is_taken_from_the_envelope (Example.fair 1000)
            Example.aliceChat Example.asBob Example.chatStart _ _).
  - vm_compute. reflexivity.
  - reflexivity.
Defined.

(** ** The stale-connection sweep *)

Lemma get_removeAll ids cm id :
  JsMap.get id (connections (removeAll ids cm))
  = if existsb (String.eqb id) ids then None
    else JsMap.get id (connections cm).
Proof.
  revert cm. induction ids as [|i ids IH]; intros cm; cbn.
  - reflexivity.
  - change (fold_left (fun cm0 id0 => removeConnection id0 cm0) ids
              (removeConnection i cm))
      with (removeAll ids (removeConnection i cm)).
    rewrite IH, connections_remove, JsMapFacts.get_delete.
    destruct (id =? i); cbn; [|reflexivity].
    destruct (existsb (String.eqb id) ids); reflexivity.
Qed.

Lemma existsb_eqb_In id ids : existsb (String.eqb id) ids = true <-> In id ids.
Proof. exact (JsSetFacts.has_In id ids). Qed.






Lemma registry_consistent_witness :
  consistent
    (connectionManager
       (runOps [OpAdd Example.aliceChat; OpAdd Example.bobChat;
                OpBroadcast
                  (mkEnv 0 EmptyString (fun s => Nat.eqb s 8) (fun _ => false))
                  "bob" saveFailedError None;
                OpRemove "chat_alice_1"]
          (mkWorld emptyRegistry JsMap.empty emptyDb))).
Proof.
  refine (proj1 (registry_consistent
                   [OpAdd Example.aliceChat; OpAdd Example.bobChat;
                    OpBroadcast
                      (mkEnv 0 EmptyString (fun s => Nat.eqb s 8) (fun _ => false))
                      "bob" saveFailedError None;
                    OpRemove "chat_alice_1"]
                   (mkWorld emptyRegistry JsMap.empty emptyDb) _ _)).
  - reflexivity.
  - vm_compute. reflexivity.
Defined.

(** ** The scenarios of the specification, run on the example deployment *)

(** An accepted offer: insert, forward to the callee, mark ringing,
    confirm to the caller, arm the timeout. *)
Example offer_accepted :
  trace (handleCallOffer (Example.fair 1000) Example.aliceSignaling
           Example.offerAB Example.start)
  = [DbWrite
       (InsertCall
          (Db.mkCall "call-1" "pair-ab" "alice" "bob" video initiated 1000%Z
             None None 0%Z None)) true;
     SocketSend 2 (callOfferReceived Example.aliceSignaling Example.offerAB);
     DbWrite (UpdateCallRinging "call-1") true;
     SocketSend 1 (callOfferSent Example.offerAB);
     SetTimeout "call-1" 30000%Z].
Proof. vm_compute. reflexivity. Qed.

(** Scenario B: offer, answer and hangup within a second leave a call row
    with status ended, reason hangup and duration 0. *)
Example offer_answer_hangup :
  let w1 := world (handleCallOffer (Example.fair 1000) Example.aliceSignaling
                     Example.offerAB Example.start) in
  let w2 := world (handleCallAnswer (Example.fair 1200) Example.bobSignaling
                     (CallAnswer.mk "call-1" "pair-ab" "bob" "alice" "sdp")
                     w1) in
  let w3 := world (handleCallHangup (Example.fair 1900) Example.aliceSignaling
                     (CallHangup.mk "call-1" "pair-ab" "alice" "bob" None)
                     w2) in
  Db.calls (supabase w3)
  = [Db.mkCall "call-1" "pair-ab" "alice" "bob" video ended 1000%Z
       (Some 1200%Z) (Some 1900%Z) 0%Z (Some "hangup")]
  /\ activeCalls w3 = JsMap.empty.
Proof. vm_compute. split; reflexivity. Qed.

(** A user who disconnects in the middle of a connected call: the call
    ends with reason connection_lost and the whole seconds since it was
    answered as its duration. *)
Example disconnect_mid_call :
  trace (signalingOnClose (Example.fair 65999) Example.bobSignaling
           Example.answered1)
  = [DbWrite (UpdateCallEnded "call-1" 65999%Z 60%Z "connection_lost") true;
     SocketSend 1 (callEnded "call-1" "connection_lost" 60%Z)].
Proof. vm_compute. reflexivity. Qed.

(** Scenario D: both connections of the recipient get the delivery,
    before the sender gets the confirmation. *)
Example two_tabs_both_receive :
  let row := Db.mkMessage "msg-1" "pair-ab" "alice" "hello" text 1000%Z None in
  trace (handleChatMessage (Example.fair 1000) Example.aliceChat
           (ChatMessage.mk "tmp-1" "pair-ab" "hello" text "alice")
           Example.chatTwoTabs)
  = [DbWrite (InsertMessage row) true;
     SocketSend 8 (messageReceived row "pair-ab");
     SocketSend 9 (messageReceived row "pair-ab");
     SocketSend 7 (messageSent row "tmp-1");
     SocketSend 8 (typingCleared "alice" "pair-ab");
     SocketSend 9 (typingCleared "alice" "pair-ab")].
Proof. vm_compute. reflexivity. Qed.

(** A write that throws drops that connection only; the broadcast goes
    on to the next one. *)
Example dead_tab_is_dropped :
  let env := mkEnv 1000 "msg-1" (fun s => Nat.eqb s 8) (fun _ => false) in
  let r := broadcastToUser env "bob" saveFailedError None Example.chatTwoTabs in
  trace r = [SocketSend 8 saveFailedError; SocketSend 9 saveFailedError]
  /\ getUserConnections "bob" (connectionManager (world r))
     = [Example.bobChat2]
  /\ outcome r = Returned tt.
Proof. vm_compute. repeat split; reflexivity. Qed.

(** * Further properties *)

(** ** The connection registry, continued *)

Lemma set_unchanged {V} (m : JsMap.t V) k v :
  JsMap.get k m = Some v -> JsMap.set k v m = m.
Proof.
  induction m as [|[k0 v0] m IH]; cbn; [discriminate|].
  destruct (String.eqb_spec k k0) as [->|Hk].
  - intros [= ->]. reflexivity.
  - intros H. rewrite IH by assumption. reflexivity.
Qed.

Lemma JsSet_delete_absent x s : ~ In x s -> JsSet.delete x s = s.
Proof.
  unfold JsSet.delete. induction s as [|y s IH]; cbn; [reflexivity|].
  intros H. destruct (String.eqb_spec x y) as [->|Hxy]; cbn.
  - exfalso. apply H. left. reflexivity.
  - rewrite IH; [reflexivity|]. intros Hin. apply H. right. exact Hin.
Qed.

Lemma JsSet_delete_add x s : ~ In x s -> JsSet.delete x (JsSet.add x s) = s.
Proof.
  intros H. unfold JsSet.add.
  destruct (JsSet.has x s) eqn:E.
  - apply JsSetFacts.has_In in E. contradiction.
  - unfold JsSet.delete. rewrite filter_app. cbn. rewrite String.eqb_refl. cbn.
    rewrite app_nil_r. apply JsSet_delete_absent, H.
Qed.

(** X1: registering a connection under an id the registry does not hold
    and removing that id again gives back the registry as it was, both
    maps entry for entry. *)
Theorem remove_undoes_add connection cm :
  consistent cm ->
  JsMap.get (Connection.id connection) (connections cm) = None ->
  removeConnection (Connection.id connection) (addConnection connection cm)
  = cm.
Proof.
  intros [Hex Hne] Hfresh.
  set (cid := Connection.id connection) in *.
  set (uid := Connection.userId connection) in *.
  destruct cm as [conns uc]. cbn [connections userConnections] in *.
  unfold addConnection, JsMap.has. fold cid uid. cbn [connections userConnections].
  destruct (JsMap.get uid uc) as [ids|] eqn:Eu; cbn [negb].
  - rewrite Eu.
    assert (Hnot : ~ In cid ids).
    { intros Hin. destruct (proj1 (Hex uid cid)) as [x [Hx _]].
      - unfold idsOf. cbn. rewrite Eu. exact Hin.
      - cbn in Hx. congruence. }
    unfold removeConnection. cbn [connections userConnections].
    rewrite JsMapFacts.get_set_same. fold uid.
    rewrite JsMapFacts.get_set_same, JsSet_delete_add by assumption.
    destruct ids as [|i ids]; [exfalso; apply (Hne uid); cbn; exact Eu|].
    cbn [JsSet.size length Nat.eqb].
    rewrite JsMapMore.delete_set, (JsMapFacts.delete_absent _ _ Hfresh).
    rewrite JsMapMore.set_set, (set_unchanged _ _ Eu). reflexivity.
  - rewrite JsMapFacts.get_set_same.
    unfold removeConnection. cbn [connections userConnections].
    rewrite JsMapFacts.get_set_same. fold uid.
    rewrite JsMapMore.set_set, JsMapFacts.get_set_same.
    cbn. rewrite String.eqb_refl. cbn.
    change (filter (fun kv => negb (cid =? fst kv)) (JsMap.set cid connection conns))
      with (JsMap.delete cid (JsMap.set cid connection conns)).
    change (filter (fun kv => negb (uid =? fst kv)) (JsMap.set uid [cid] uc))
      with (JsMap.delete uid (JsMap.set uid [cid] uc)).
    rewrite !JsMapMore.delete_set, (JsMapFacts.delete_absent _ _ Hfresh),
      (JsMapFacts.delete_absent _ _ Eu). reflexivity.
Qed.

Lemma remove_undoes_add_witness :
  removeConnection "chat_bob_2"
    (addConnection Example.bobChat2 (connectionManager Example.chatStart))
  = connectionManager Example.chatStart.
Proof.
  refine (remove_undoes_add Example.bobChat2
            (cm := connectionManager Example.chatStart) _ _).
  - apply consistent_add; [apply consistent_add|];
      [apply consistent_empty | reflexivity | reflexivity].
  - vm_compute. reflexivity.
Defined.

Lemma In_filterSome {A} (l : list (option A)) (a : A) :
  In a (filterSome l) <-> In (Some a) l.
Proof.
  induction l as [|[x|] l IH]; cbn.
  - tauto.
  - rewrite IH. split; intros [H|H]; auto; left; congruence.
  - rewrite IH. split; [auto | intros [H|H]; [discriminate | exact H]].
Qed.

(** X2: in a consistent registry [getUserConnections] returns exactly
    the registered connections of that user: every connection it returns
    is held in the by-id map and belongs to the user, and every connection
    of the user held in the by-id map is returned. *)
Theorem getUserConnections_exact cm userId conn :
  consistent cm ->
  (In conn (getUserConnections userId cm)
   <-> Connection.userId conn = userId
       /\ exists id, JsMap.get id (connections cm) = Some conn).
Proof.
  intros [Hex _]. unfold getUserConnections.
  change (match JsMap.get userId (userConnections cm) with
          | Some ids => ids
          | None => JsSet.empty
          end) with (idsOf cm userId).
  rewrite In_filterSome, in_map_iff. split.
  - intros [id [Hget Hin]]. apply Hex in Hin.
    destruct Hin as [conn' [Hget' Hu]].
    assert (conn' = conn) by congruence. subst conn'. eauto.
  - intros [Hu [id Hget]]. exists id. split; [exact Hget|].
    apply Hex. eauto.
Qed.

Lemma getUserConnections_exact_witness :
  In Example.bobChat2
    (getUserConnections "bob" (connectionManager Example.chatTwoTabs)).
Proof.
  refine (proj2 (getUserConnections_exact
                   (cm := connectionManager Example.chatTwoTabs) "bob"
                   Example.bobChat2 _) _).
  - repeat apply consistent_add;
      first [apply consistent_empty | reflexivity].
  - split; [reflexivity|]. exists "chat_bob_2". vm_compute. reflexivity.
Defined.

Lemma In_failedIds env ex conns id :
  In id (failedIds env ex conns)
  <-> exists conn, In conn conns /\ Connection.id conn = id
                   /\ excluded ex conn = false
                   /\ sendThrows env (Connection.socket conn) = true.
Proof.
  unfold failedIds. rewrite in_map_iff. split.
  - intros [conn [Hid Hin]]. apply filter_In in Hin.
    destruct Hin as [Hin Hb]. apply andb_prop in Hb. destruct Hb as [Hx Ht].
    apply negb_true_iff in Hx. eauto 6.
  - intros [conn [Hin [Hid [Hx Ht]]]]. exists conn. split; [exact Hid|].
    apply filter_In. split; [exact Hin|]. rewrite Hx, Ht. reflexivity.
Qed.

(** X3: [broadcastToUser] never throws and touches neither the
    active-call map nor the store.  It writes the message once, in
    registration order, to every connection of the user but the excluded
    one, whether or not a write throws; afterwards the by-id map has lost
    the ids of those connections whose write threw, and holds every other
    entry as before. *)
Theorem broadcast_isolates_failures env userId message ex w :
  let conns := getUserConnections userId (connectionManager w) in
  let r := broadcastToUser env userId message ex w in
  let failed id :=
    exists conn, In conn conns /\ Connection.id conn = id
                 /\ excluded ex conn = false
                 /\ sendThrows env (Connection.socket conn) = true in
  outcome r = Returned tt
  /\ activeCalls (world r) = activeCalls w
  /\ supabase (world r) = supabase w
  /\ trace r
     = map (fun c => SocketSend (Connection.socket c) message)
         (filter (fun c => negb (excluded ex c)) conns)
  /\ forall id,
       (failed id ->
        JsMap.get id (connections (connectionManager (world r))) = None)
       /\ (~ failed id ->
           JsMap.get id (connections (connectionManager (world r)))
           = JsMap.get id (connections (connectionManager w))).
Proof.
  cbv zeta. rewrite broadcastToUser_eq. cbn [outcome world trace].
  do 4 (split; [reflexivity|]). intros id. cbn. rewrite get_removeAll. split.
  - intros H. apply In_failedIds, existsb_eqb_In in H. rewrite H. reflexivity.
  - intros H. destruct (existsb _ _) eqn:E; [|reflexivity].
    apply existsb_eqb_In, In_failedIds in E. contradiction.
Qed.

Lemma broadcastToNamespace_eq env namespace message ex w :
  broadcastToNamespace env namespace message ex w
  = mkResult (Returned tt)
      (with_connectionManager
         (removeAll
            (failedIds env ex
               (getConnectionsByNamespace namespace (connectionManager w)))
            (connectionManager w)) w)
      (sendsTo message ex
         (getConnectionsByNamespace namespace (connectionManager w))).
Proof.
  unfold broadcastToNamespace, bind, gets.
  rewrite broadcastLoop_eq. reflexivity.
Qed.

(** X4: [broadcastToNamespace] never throws, leaves the active-call map
    and the store alone, and every write it makes carries the given
    message to the socket of a connection held in the by-id map whose
    namespace is the one asked for and which is not the excluded one. *)
Theorem namespace_broadcast_stays_in_namespace env namespace message ex w :
  let r := broadcastToNamespace env namespace message ex w in
  outcome r = Returned tt
  /\ activeCalls (world r) = activeCalls w
  /\ supabase (world r) = supabase w
  /\ forall e, In e (trace r) ->
       exists conn,
         e = SocketSend (Connection.socket conn) message
         /\ In conn (JsMap.values (connections (connectionManager w)))
         /\ Connection.namespace conn = namespace
         /\ excluded ex conn = false.
Proof.
  cbv zeta. rewrite broadcastToNamespace_eq. cbn [outcome world trace].
  repeat split. intros e He. unfold sendsTo in He.
  apply in_map_iff in He. destruct He as [conn [<- Hin]].
  apply filter_In in Hin. destruct Hin as [Hin Hx].
  unfold getConnectionsByNamespace in Hin. apply filter_In in Hin.
  destruct Hin as [Hin Hns]. apply String.eqb_eq in Hns.
  apply negb_true_iff in Hx. eauto.
Qed.

(** *** getStats *)

Lemma countOf_countNamespace stats conn ns :
  countOf ns (countNamespace stats conn)
  = countOf ns stats
    + (if String.eqb (Connection.namespace conn) ns then 1 else 0).
Proof.
  unfold countNamespace, countOf. rewrite JsMapFacts.get_set.
  destruct (String.eqb_spec ns (Connection.namespace conn)) as [->|Hne].
  - rewrite String.eqb_refl. reflexivity.
  - destruct (String.eqb_spec (Connection.namespace conn) ns);
      [congruence|]. destruct (JsMap.get ns stats); lia.
Qed.

Lemma countOf_fold conns stats ns :
  countOf ns (fold_left countNamespace conns stats)
  = countOf ns stats
    + length (filter (fun conn => String.eqb (Connection.namespace conn) ns)
                conns).
Proof.
  revert stats. induction conns as [|conn conns IH]; intros stats; cbn.
  - lia.
  - rewrite IH, countOf_countNamespace.
    destruct (String.eqb (Connection.namespace conn) ns); cbn; lia.
Qed.

Lemma sum_countNamespace stats conn :
  sumOf (JsMap.values (countNamespace stats conn))
  = sumOf (JsMap.values stats) + 1.
Proof.
  unfold countNamespace, countOf, JsMap.values, sumOf.
  induction stats as [|[k n] stats IH]; cbn.
  - reflexivity.
  - destruct (String.eqb_spec (Connection.namespace conn) k) as [->|Hne]; cbn.
    + lia.
    + rewrite IH. lia.
Qed.

Lemma sum_fold conns stats :
  sumOf (JsMap.values (fold_left countNamespace conns stats))
  = sumOf (JsMap.values stats) + length conns.
Proof.
  revert stats. induction conns as [|conn conns IH]; intros stats;
    cbn [fold_left length].
  - rewrite Nat.add_0_r. reflexivity.
  - rewrite IH, sum_countNamespace, <- Nat.add_assoc. reflexivity.
Qed.

(** X5: in the object [getStats] returns, the count kept for a
    namespace is the number of connections [getConnectionsByNamespace]
    returns for it (a namespace without an entry having none), and the
    counts of all the namespaces add up to totalConnections. *)
Theorem stats_count_the_connections cm :
  (forall namespace,
      countOf namespace (namespaces (getStats cm))
      = length (getConnectionsByNamespace namespace cm))
  /\ sumOf (JsMap.values (namespaces (getStats cm)))
     = totalConnections (getStats cm).
Proof.
  unfold getStats. cbn [namespaces totalConnections]. split.
  - intros ns. rewrite countOf_fold. reflexivity.
  - rewrite sum_fold. cbn. unfold JsMap.values, JsMap.size.
    apply length_map.
Qed.

(** *** The sweep, once more *)

Lemma In_connections_removeAll ids cm kv :
  In kv (connections (removeAll ids cm))
  <-> In kv (connections cm) /\ ~ In (fst kv) ids.
Proof.
  revert cm. induction ids as [|i ids IH]; intros cm; cbn.
  - tauto.
  - change (fold_left (fun cm0 id0 => removeConnection id0 cm0) ids
              (removeConnection i cm))
      with (removeAll ids (removeConnection i cm)).
    rewrite IH, connections_remove. unfold JsMap.delete. rewrite filter_In.
    destruct (String.eqb_spec i (fst kv)); cbn; intuition congruence.
Qed.

(** X6: the sweep leaves no stale connection behind, so a second sweep
    at the same instant removes nothing: it returns the state the first
    one left. *)
Theorem sweep_is_idempotent env w :
  staleConnections (now env) (connectionManager (world (sweep env w))) = []
  /\ sweep env (world (sweep env w))
     = mkResult (Returned tt) (world (sweep env w)) [].
Proof.
  assert (H : staleConnections (now env)
                (connectionManager (world (sweep env w))) = []).
  { unfold sweep. run. unfold staleConnections at 1.
    destruct (filter _ _) as [|kv l] eqn:E; [reflexivity|].
    assert (Hin : In kv (kv :: l)) by (left; reflexivity).
    rewrite <- E in Hin. apply filter_In in Hin. destruct Hin as [Hin Hst].
    apply In_connections_removeAll in Hin. destruct Hin as [Hin Hnot].
    exfalso. apply Hnot. unfold staleConnections.
    apply in_map, filter_In. tauto. }
  split; [exact H|].
  unfold sweep at 1. run. rewrite H. unfold removeAll. cbn [fold_left].
  rewrite with_connectionManager_same. reflexivity.
Qed.

Lemma broadcast_isolates_failures_witness :
  JsMap.get "chat_bob_1"
    (connections
       (connectionManager
          (world (broadcastToUser
                    (mkEnv 1000 "msg-1" (fun s => Nat.eqb s 8) (fun _ => false))
                    "bob" saveFailedError None Example.chatTwoTabs))))
  = None.
Proof.
  refine (proj1 (proj2 (proj2 (proj2 (proj2
            (broadcast_isolates_failures
               (mkEnv 1000 "msg-1" (fun s => Nat.eqb s 8) (fun _ => false))
               "bob" saveFailedError None Example.chatTwoTabs))))
            "chat_bob_1") _).
  exists Example.bobChat. vm_compute. tauto.
Defined.

Lemma namespace_broadcast_stays_in_namespace_witness :
  exists conn,
    SocketSend 7 saveFailedError
    = SocketSend (Connection.socket conn) saveFailedError
    /\ In conn
         (JsMap.values (connections (connectionManager Example.chatTwoTabs)))
    /\ Connection.namespace conn = "chat"
    /\ excluded (Some "chat_bob_1") conn = false.
Proof.
  refine (proj2 (proj2 (proj2
            (namespace_broadcast_stays_in_namespace (Example.fair 1000) "chat"
               saveFailedError (Some "chat_bob_1") Example.chatTwoTabs)))
            _ _).
  vm_compute. left. reflexivity.
Defined.

(** X7: lookup after [addConnection].  The by-id map returns the
    connection just registered under its id and what it returned before
    under every other id; and in a consistent registry, the id not being
    held by a connection of another user, the connection is among those
    [getUserConnections] returns for its user. *)
Theorem lookup_after_add connection cm :
  getConnection (Connection.id connection) (addConnection connection cm)
  = Some connection
  /\ (forall id, id <> Connection.id connection ->
        getConnection id (addConnection connection cm) = getConnection id cm)
  /\ (consistent cm ->
      idRespected (OpAdd connection) cm = true ->
      In connection
        (getUserConnections (Connection.userId connection)
           (addConnection connection cm))).
Proof.
  assert (Hc : connections (addConnection connection cm)
               = JsMap.set (Connection.id connection) connection
                   (connections cm)).
  { unfold addConnection.
    destruct (JsMap.get (Connection.userId connection) _); reflexivity. }
  unfold getConnection. rewrite Hc. split; [apply JsMapFacts.get_set_same|].
  split.
  - intros id Hne. rewrite JsMapFacts.get_set.
    apply String.eqb_neq in Hne. rewrite Hne. reflexivity.
  - intros Hcons Hid.
    assert (Hcons' : consistent (addConnection connection cm))
      by (apply consistent_add; assumption).
    apply (proj2 (getUserConnections_exact
                    (Connection.userId connection) connection Hcons')).
    split; [reflexivity|]. exists (Connection.id connection).
    rewrite Hc. apply JsMapFacts.get_set_same.
Qed.

Lemma lookup_after_add_witness :
  In Example.bobChat2
    (getUserConnections "bob"
       (addConnection Example.bobChat2 (connectionManager Example.chatStart))).
Proof.
  refine (proj2 (proj2 (lookup_after_add Example.bobChat2
                          (connectionManager Example.chatStart))) _ _).
  - repeat apply consistent_add;
      first [apply consistent_empty | reflexivity].
  - reflexivity.
Defined.

(** X8: lookup after [removeConnection].  The by-id map no longer
    holds the removed id and returns what it returned before under every
    other id; and in a consistent registry [getUserConnections] returns,
    for every user, exactly the connections of that user still held
    under another id. *)
Theorem lookup_after_remove connectionId cm :
  getConnection connectionId (removeConnection connectionId cm) = None
  /\ (forall id, id <> connectionId ->
        getConnection id (removeConnection connectionId cm)
        = getConnection id cm)
  /\ (consistent cm ->
      forall userId conn,
        In conn (getUserConnections userId (removeConnection connectionId cm))
        <-> Connection.userId conn = userId
            /\ exists id, id <> connectionId
                          /\ JsMap.get id (connections cm) = Some conn).
Proof.
  unfold getConnection. rewrite connections_remove. split.
  { rewrite JsMapFacts.get_delete, String.eqb_refl. reflexivity. }
  split.
  { intros id Hne. rewrite JsMapFacts.get_delete.
    apply String.eqb_neq in Hne. rewrite Hne. reflexivity. }
  intros Hcons userId conn.
  assert (Hcons' : consistent (removeConnection connectionId cm))
    by (apply consistent_remove; assumption).
  rewrite (getUserConnections_exact userId conn Hcons').
  rewrite connections_remove.
  split; intros [Hu [id H]]; (split; [exact Hu|]); exists id.
  - rewrite JsMapFacts.get_delete in H.
    destruct (String.eqb_spec id connectionId); [discriminate|]. tauto.
  - destruct H as [Hne H]. rewrite JsMapFacts.get_delete.
    apply String.eqb_neq in Hne. rewrite Hne. exact H.
Qed.

Lemma lookup_after_remove_witness :
  In Example.bobChat2
    (getUserConnections "bob"
       (removeConnection "chat_bob_1" (connectionManager Example.chatTwoTabs))).
Proof.
  refine (proj2 (proj2 (proj2 (lookup_after_remove "chat_bob_1"
                                 (connectionManager Example.chatTwoTabs)))
                   _ "bob" Example.bobChat2) _).
  - repeat apply consistent_add;
      first [apply consistent_empty | reflexivity].
  - split; [reflexivity|]. exists "chat_bob_2".
    split; [discriminate | vm_compute; reflexivity].
Defined.

(** ** Call signaling, continued *)

Lemma step_calls_cases env a w :
  let calls := activeCalls w in
  let calls' := activeCalls (world (signalingStep env a w)) in
  calls' = calls
  \/ (exists connection m callee,
        calls' = JsMap.set (CallOffer.callId m)
                   (offeredCall env connection m callee) calls)
  \/ (exists k call,
        JsMap.get k calls = Some call
        /\ calls' = JsMap.set k
                      (Call.with_connectedAt (now env)
                         (Call.with_status connected call)) calls)
  \/ (exists ids, calls' = deleteAll ids calls).
Proof.
  cbv zeta. destruct a as [c m|c m|c m|c m|c|callId]; cbn [signalingStep].
  - destruct (handleCallOffer_calls env c m w)
      as [E | [pairing [_ [_ [_ E]]]]]; rewrite E; [tauto|].
    right. left. eauto.
  - destruct (handleCallAnswer_calls env c m w)
      as [E | [call [Hget [_ E]]]]; rewrite E; [tauto|].
    right. right. left. eauto.
  - left. apply handleCallCandidate_world.
  - rewrite handleCallHangup_run.
    destruct (endCall_shape env (CallHangup.callId m)
                (hangupReason (CallHangup.reason m)) w) as [cm [db [tr E]]].
    rewrite E. right. right. right. exists [CallHangup.callId m]. reflexivity.
  - destruct (signalingOnClose_calls env c w) as [ids E]. rewrite E.
    right. right. right. eauto.
  - rewrite ringingTimeout_run.
    destruct (JsMap.get callId (activeCalls w)) as [call|]; [|tauto].
    destruct (CallStatus_beq (Call.status call) ringing); [|tauto].
    destruct (endCall_shape env callId "timeout" w) as [cm [db [tr E]]].
    rewrite E. right. right. right. exists [callId]. reflexivity.
Qed.

Lemma wf_deleteAll ids (calls : JsMap.t Call.t) :
  JsMap.wf calls -> JsMap.wf (deleteAll ids calls).
Proof.
  revert calls. induction ids as [|k ids IH]; intros calls H; cbn.
  - exact H.
  - apply IH, JsMapFacts.wf_delete, H.
Qed.

Lemma Forall_deleteAll (P : string * Call.t -> Prop) ids calls :
  Forall P calls -> Forall P (deleteAll ids calls).
Proof.
  revert calls. induction ids as [|k ids IH]; intros calls H; cbn.
  - exact H.
  - apply IH, JsMapMore.Forall_delete, H.
Qed.

Lemma reachable_wf w : reachable w -> JsMap.wf (activeCalls w).
Proof.
  induction 1 as [cm db | env a w _ IH | cm db w _ IH].
  - constructor.
  - destruct (step_calls_cases env a w)
      as [E | [[c [m [callee E]]] | [[k [call [_ E]]] | [ids E]]]];
      rewrite E.
    + exact IH.
    + apply JsMapFacts.wf_set, IH.
    + apply JsMapFacts.wf_set, IH.
    + apply wf_deleteAll, IH.
  - exact IH.
Qed.

Lemma reachable_live w : reachable w -> Forall liveEntry (activeCalls w).
Proof.
  induction 1 as [cm db | env a w _ IH | cm db w _ IH].
  - constructor.
  - destruct (step_calls_cases env a w)
      as [E | [[c [m [callee E]]] | [[k [call [Hget E]]] | [ids E]]]];
      rewrite E.
    + exact IH.
    + apply JsMapMore.Forall_set; [exact IH|].
      unfold liveEntry. cbn. auto.
    + apply JsMapMore.Forall_set; [exact IH|].
      rewrite Forall_forall in IH.
      destruct (IH _ (JsMapFacts.get_In _ _ Hget)) as [Hid [Hend _]].
      unfold liveEntry. cbn in *. repeat split; eauto.
    + apply Forall_deleteAll, IH.
  - exact IH.
Qed.

(** X9: between two steps of the signaling engine the active-call map
    holds each call id once, each session under its own id, and only
    live sessions: never ended, and either ringing and not yet answered
    or connected with the time of the answer recorded. *)
Theorem active_calls_are_live w :
  reachable w ->
  JsMap.wf (activeCalls w)
  /\ forall k c,
       JsMap.get k (activeCalls w) = Some c ->
       Call.id c = k
       /\ Call.endedAt c = None
       /\ ((Call.status c = ringing /\ Call.connectedAt c = None)
           \/ (Call.status c = connected
               /\ exists t, Call.connectedAt c = Some t)).
Proof.
  intros Hr. split; [apply reachable_wf, Hr|].
  intros k c Hget. pose proof (reachable_live Hr) as Hall.
  rewrite Forall_forall in Hall.
  exact (Hall _ (JsMapFacts.get_In _ _ Hget)).
Qed.

Lemma active_calls_are_live_witness :
  JsMap.wf (activeCalls Example.answered1)
  /\ forall k c,
       JsMap.get k (activeCalls Example.answered1) = Some c ->
       Call.id c = k
       /\ Call.endedAt c = None
       /\ ((Call.status c = ringing /\ Call.connectedAt c = None)
           \/ (Call.status c = connected
               /\ exists t, Call.connectedAt c = Some t)).
Proof.
  apply active_calls_are_live.
  unfold Example.answered1, Example.ringing1.
  do 2 apply reachable_step. apply reachable_start.
Defined.

(** X10: a call_offer whose pairing is not found among the active
    pairings (or whose query fails), or whose sender is not a member of
    the pairing, is answered with one call_error envelope on the sender's
    socket, "Invalid pairing" in the first case and "Forbidden" in the
    second; no session is created, nothing is written to the store, the
    state is as before. *)
Theorem offer_outside_pairing_is_refused env connection m w :
  (offerPairing env m w = None ->
   handleCallOffer env connection m w
   = mkResult (Returned tt) w
       [SocketSend (Connection.socket connection)
          (invalidPairingError (CallOffer.callId m))])
  /\ (forall pairing,
        offerPairing env m w = Some pairing ->
        isMember (Connection.userId connection) pairing = false ->
        handleCallOffer env connection m w
        = mkResult (Returned tt) w
            [SocketSend (Connection.socket connection)
               (notMemberError (CallOffer.callId m))]).
Proof.
  unfold offerPairing, isMember. split.
  - intros Hp. unfold handleCallOffer. run. rewrite Hp. run.
    destruct (sendThrows env _); reflexivity.
  - intros pairing Hp Hm. unfold handleCallOffer. run. rewrite Hp.
    apply orb_false_iff in Hm. destruct Hm as [-> ->]. cbn [negb andb]. run.
    destruct (sendThrows env _); reflexivity.
Qed.

Lemma offer_outside_pairing_is_refused_witness :
  handleCallOffer (Example.fair 1000) Example.bobSignaling Example.offerAC
    Example.start
  = mkResult (Returned tt) Example.start
      [SocketSend 2 (notMemberError "call-2")].
Proof.
  refine (proj2 (offer_outside_pairing_is_refused (Example.fair 1000)
                   Example.bobSignaling Example.offerAC Example.start)
            Example.pairingAC _ _).
  - vm_compute. reflexivity.
  - vm_compute. reflexivity.
Defined.

(** X11: a call_answer for a call id that is not in the active-call map,
    or sent by anyone but the callee of the session, is answered with one
    call_error envelope on the sender's socket ("Call not found",
    "Forbidden") and changes nothing: the session keeps its status and no
    write is asked of the store. *)
Theorem answer_needs_the_callee env connection m w :
  (JsMap.get (CallAnswer.callId m) (activeCalls w) = None ->
   handleCallAnswer env connection m w
   = mkResult (Returned tt) w
       [SocketSend (Connection.socket connection)
          (callNotFoundError (CallAnswer.callId m))])
  /\ (forall call,
        JsMap.get (CallAnswer.callId m) (activeCalls w) = Some call ->
        Call.calleeId call <> Connection.userId connection ->
        handleCallAnswer env connection m w
        = mkResult (Returned tt) w
            [SocketSend (Connection.socket connection)
               (notCalleeError (Call.id call))]).
Proof.
  split.
  - intros Hget. unfold handleCallAnswer. run. rewrite Hget. run.
    destruct (sendThrows env _); reflexivity.
  - intros call Hget Hne. unfold handleCallAnswer. run. rewrite Hget.
    apply String.eqb_neq in Hne. rewrite Hne. cbn [negb]. run.
    destruct (sendThrows env _); reflexivity.
Qed.

Lemma answer_needs_the_callee_witness :
  handleCallAnswer (Example.fair 2000) Example.aliceSignaling
    (CallAnswer.mk "call-1" "pair-ab" "alice" "bob" "sdp") Example.ringing1
  = mkResult (Returned tt) Example.ringing1
      [SocketSend 1 (notCalleeError "call-1")].
Proof.
  refine (proj2 (answer_needs_the_callee (Example.fair 2000)
                   Example.aliceSignaling
                   (CallAnswer.mk "call-1" "pair-ab" "alice" "bob" "sdp")
                   Example.ringing1)
            (Call.mk "call-1" "pair-ab" "alice" "bob" video ringing 1000%Z
               None None) _ _).
  - vm_compute. reflexivity.
  - discriminate.
Defined.

(** X12: a call_answer sent by the callee of a session in the map marks
    the session connected and stamps connectedAt with the current time,
    whatever its status was; the handler's calls are, in this order, the
    update of the call row, the call_answer_received envelope to every
    connection of the caller, and the call_answered confirmation on the
    callee's socket; every other session is left as it was. *)
Theorem answer_connects_the_call env connection m w call :
  JsMap.get (CallAnswer.callId m) (activeCalls w) = Some call ->
  Call.calleeId call = Connection.userId connection ->
  let r := handleCallAnswer env connection m w in
  let conns := getUserConnections (Call.callerId call) (connectionManager w) in
  outcome r = Returned tt
  /\ trace r
     = DbWrite (UpdateCallConnected (Call.id call) (now env))
         (negb (dbError env Q_update_connected))
       :: map (fun c => SocketSend (Connection.socket c)
                          (answerReceived (Call.id call) (CallAnswer.answer m)))
            conns
       ++ [SocketSend (Connection.socket connection)
             (callAnswered (Call.id call))]
  /\ JsMap.get (CallAnswer.callId m) (activeCalls (world r))
     = Some (Call.mk (Call.id call) (Call.pairingId call) (Call.callerId call)
               (Call.calleeId call) (Call.callType call) connected
               (Call.startedAt call) (Some (now env)) (Call.endedAt call))
  /\ forall k, k <> CallAnswer.callId m ->
       JsMap.get k (activeCalls (world r)) = JsMap.get k (activeCalls w).
Proof.
  intros Hget Hc. cbv zeta. unfold handleCallAnswer. run. rewrite Hget.
  apply String.eqb_eq in Hc. rewrite Hc. cbn [negb]. run. rewrite Hget. run.
  assert (Hsends : forall msg l,
            sendsTo msg None l
            = map (fun c => SocketSend (Connection.socket c) msg) l).
  { intros msg l. unfold sendsTo. cbn [excluded negb].
    induction l as [|c l IH]; cbn; [reflexivity|]. rewrite IH. reflexivity. }
  destruct (sendThrows env (Connection.socket connection)); run;
    rewrite Hsends, ?app_nil_r;
    (split; [reflexivity|]); (split; [reflexivity|]);
    (split; [apply JsMapFacts.get_set_same|]);
    intros k Hk; rewrite JsMapFacts.get_set;
    apply String.eqb_neq in Hk; rewrite Hk; reflexivity.
Qed.

Lemma answer_connects_the_call_witness :
  JsMap.get "call-1" (activeCalls Example.answered1)
  = Some (Call.mk "call-1" "pair-ab" "alice" "bob" video connected 1000%Z
            (Some 5000%Z) None).
Proof.
  refine (proj1 (proj2 (proj2
            (answer_connects_the_call (Example.fair 5000) Example.bobSignaling
               (CallAnswer.mk "call-1" "pair-ab" "bob" "alice" "sdp")
               Example.ringing1
               (call := Call.mk "call-1" "pair-ab" "alice" "bob" video ringing
                          1000%Z None None) _ _)))).
  - vm_compute. reflexivity.
  - reflexivity.
Defined.

(** X13: a call_candidate never changes the active-call map or the
    store, never throws and never answers the sender with an error.  For
    a call id that is not in the map, or a sender who is neither caller
    nor callee of the session, it does nothing at all; otherwise its only
    calls are call_candidate_received envelopes to the connections of the
    other party. *)
Theorem candidate_is_only_relayed env connection m w :
  let r := handleCallCandidate env connection m w in
  let userId := Connection.userId connection in
  outcome r = Returned tt
  /\ activeCalls (world r) = activeCalls w
  /\ supabase (world r) = supabase w
  /\ match JsMap.get (CallCandidate.callId m) (activeCalls w) with
     | None => r = mkResult (Returned tt) w []
     | Some call =>
         if negb (String.eqb (Call.callerId call) userId)
            && negb (String.eqb (Call.calleeId call) userId)
         then r = mkResult (Returned tt) w []
         else
           trace r
           = map (fun c => SocketSend (Connection.socket c)
                             (candidateReceived (Call.id call)
                                (CallCandidate.candidate m)))
               (getUserConnections
                  (if String.eqb (Call.callerId call) userId
                   then Call.calleeId call else Call.callerId call)
                  (connectionManager w))
     end.
Proof.
  cbv zeta. unfold handleCallCandidate. run.
  destruct (JsMap.get (CallCandidate.callId m) (activeCalls w)) as [call|];
    [|repeat split].
  destruct (negb (Call.callerId call =? Connection.userId connection)
            && negb (Call.calleeId call =? Connection.userId connection));
    [repeat split|].
  run. repeat split. unfold sendsTo. cbn [excluded negb].
  induction (getUserConnections _ _) as [|c l IH]; cbn; [reflexivity|].
  rewrite <- IH. reflexivity.
Qed.

Lemma In_deleteAll ids (calls : JsMap.t Call.t) kv :
  In kv (deleteAll ids calls) <-> In kv calls /\ ~ In (fst kv) ids.
Proof.
  revert calls. induction ids as [|i ids IH]; intros calls; cbn.
  - tauto.
  - change (fold_left (fun m k => JsMap.delete k m) ids (JsMap.delete i calls))
      with (deleteAll ids (JsMap.delete i calls)).
    rewrite IH. unfold JsMap.delete. rewrite filter_In.
    destruct (String.eqb_spec i (fst kv)); cbn; intuition congruence.
Qed.

Lemma get_deleteAll ids (calls : JsMap.t Call.t) k :
  JsMap.get k (deleteAll ids calls)
  = if existsb (String.eqb k) ids then None else JsMap.get k calls.
Proof.
  revert calls. induction ids as [|i ids IH]; intros calls; cbn.
  - reflexivity.
  - change (fold_left (fun m k => JsMap.delete k m) ids (JsMap.delete i calls))
      with (deleteAll ids (JsMap.delete i calls)).
    rewrite IH, JsMapFacts.get_delete.
    destruct (k =? i); cbn; [|reflexivity].
    destruct (existsb (String.eqb k) ids); reflexivity.
Qed.

Lemma endCall_trace env callId reason w :
  Forall (endsWith (now env) reason) (trace (endCall env callId reason w)).
Proof.
  destruct (JsMap.get callId (activeCalls w)) as [call|] eqn:E.
  - rewrite (endCall_present _ _ _ _ E). cbv zeta. cbn [trace].
    constructor; [left; eauto|].
    apply Forall_forall. intros e He. apply in_app_or in He.
    destruct He as [He|He]; apply In_sendsTo in He; destruct He as [s ->];
      right; eauto.
  - rewrite (endCall_absent _ _ _ _ E). constructor.
Qed.

Lemma endCalls_trace env reason userCalls w :
  Forall (endsWith (now env) reason) (trace (endCalls env reason userCalls w)).
Proof.
  revert w. induction userCalls as [|call rest IH]; intros w.
  - constructor.
  - cbn [endCalls]. unfold bind.
    pose proof (endCall_trace env (Call.id call) reason w) as H1.
    destruct (endCall_shape env (Call.id call) reason w) as [cm [db [tr E]]].
    rewrite E in H1 |- *. cbn [trace] in H1.
    specialize (IH (mkWorld cm (JsMap.delete (Call.id call) (activeCalls w)) db)).
    destruct (endCalls env reason rest _) as [o w2 t2]. cbn [trace] in *.
    apply Forall_app. split; assumption.
Qed.

Lemma signalingOnClose_run env connection w :
  exists cm db tr,
    signalingOnClose env connection w
    = mkResult (Returned tt)
        (mkWorld cm
           (deleteAll
              (map Call.id
                 (filter (inCall (Connection.userId connection))
                    (JsMap.values (activeCalls w))))
              (activeCalls w)) db) tr
    /\ Forall (endsWith (now env) "connection_lost") tr.
Proof.
  unfold signalingOnClose, endUserCalls. run.
  match goal with
  | |- context [endCalls env ?r ?l ?w0] =>
      pose proof (endCalls_trace env r l w0) as Ht;
      destruct (endCalls_shape env r l w0) as [cm [db [tr E]]];
      rewrite E in Ht |- *
  end.
  run. cbn [trace] in Ht. do 3 eexists. split; [reflexivity | exact Ht].
Qed.

(** X14: when a signaling connection of user U closes, in a reachable
    state, every session in which U is caller or callee is ended: none is
    left in the active-call map, and the sessions of other users stay as
    they were.  The handler never throws; each of its calls either asks
    the store to record a call as ended at the current time with reason
    connection_lost, or sends a call_ended envelope with that reason. *)
Theorem close_ends_the_calls_of_the_user env connection w :
  reachable w ->
  let userId := Connection.userId connection in
  let r := signalingOnClose env connection w in
  outcome r = Returned tt
  /\ activeSessionsOf userId (world r) = []
  /\ (forall k c,
        JsMap.get k (activeCalls w) = Some c -> inCall userId c = false ->
        JsMap.get k (activeCalls (world r)) = Some c)
  /\ (forall k c,
        JsMap.get k (activeCalls (world r)) = Some c ->
        JsMap.get k (activeCalls w) = Some c)
  /\ Forall (endsWith (now env) "connection_lost") (trace r).
Proof.
  intros Hr. cbv zeta.
  destruct (signalingOnClose_run env connection w) as [cm [db [tr [E Ht]]]].
  rewrite E. cbn [outcome world trace activeCalls].
  set (u := Connection.userId connection).
  set (ids := map Call.id (filter (inCall u) (JsMap.values (activeCalls w)))).
  pose proof (reachable_live Hr) as Hlive. rewrite Forall_forall in Hlive.
  split; [reflexivity|]. split; [|split; [|split; [|exact Ht]]].
  - unfold activeSessionsOf. cbn [activeCalls].
    destruct (filter (inCall u) (JsMap.values (deleteAll ids (activeCalls w))))
      as [|c l] eqn:Ef; [reflexivity|]. exfalso.
    assert (Hin : In c (c :: l)) by (left; reflexivity).
    rewrite <- Ef in Hin. apply filter_In in Hin. destruct Hin as [Hin Hc].
    unfold JsMap.values in Hin. apply in_map_iff in Hin.
    destruct Hin as [[k c'] [Hsnd Hin]]. cbn in Hsnd. subst c'.
    apply In_deleteAll in Hin. destruct Hin as [Hin Hnot]. cbn in Hnot.
    destruct (Hlive _ Hin) as [Hid _]. cbn in Hid.
    apply Hnot. subst ids. rewrite <- Hid. apply in_map, filter_In.
    split; [|exact Hc]. unfold JsMap.values.
    change c with (snd (k, c)). apply in_map, Hin.
  - intros k c Hget Hout. rewrite get_deleteAll.
    destruct (existsb (String.eqb k) ids) eqn:Ex; [|exact Hget]. exfalso.
    apply existsb_eqb_In in Ex. subst ids. apply in_map_iff in Ex.
    destruct Ex as [c' [Hid' Hin']]. apply filter_In in Hin'.
    destruct Hin' as [Hin' Hc']. unfold JsMap.values in Hin'.
    apply in_map_iff in Hin'. destruct Hin' as [[k' c''] [Hs Hin']].
    cbn in Hs. subst c''. destruct (Hlive _ Hin') as [Hk' _]. cbn in Hk'.
    assert (k' = k) by congruence. subst k'.
    apply JsMapFacts.In_get in Hin'; [|apply reachable_wf, Hr].
    assert (c' = c) by congruence. subst c'. congruence.
  - intros k c Hget. rewrite get_deleteAll in Hget.
    destruct (existsb (String.eqb k) ids); [discriminate | exact Hget].
Qed.

Lemma close_ends_the_calls_of_the_user_witness :
  activeSessionsOf "alice"
    (world (signalingOnClose (Example.fair 9000) Example.aliceSignaling
              Example.ringing2))
  = [].
Proof.
  refine (proj1 (proj2 (close_ends_the_calls_of_the_user (Example.fair 9000)
                          Example.aliceSignaling (w := Example.ringing2) _))).
  unfold Example.ringing2, Example.ringing1.
  do 2 apply reachable_step. apply reachable_start.
Defined.

Lemma callDuration_floor t now_ :
  (t <= now_)%Z ->
  (0 <= callDuration (Some t) now_
   /\ 1000 * callDuration (Some t) now_ <= now_ - t
      < 1000 * callDuration (Some t) now_ + 1000)%Z.
Proof.
  intros H. unfold callDuration.
  pose proof (Z.div_mod (now_ - t) 1000 ltac:(lia)).
  pose proof (Z.mod_pos_bound (now_ - t) 1000 ltac:(lia)).
  pose proof (Z.div_pos (now_ - t) 1000 ltac:(lia) ltac:(lia)).
  lia.
Qed.

(** X15: a call_hangup for a call id in the active-call map ends the
    session whoever sends it (the handler does not look at the sender):
    the session leaves the map; the first call of the handler asks the
    store to record the end with the reason given in the envelope, or
    "hangup" when the envelope gives none or an empty one, and with the
    duration; every further call is a call_ended envelope carrying the
    same reason and duration, and each connection of the caller gets one.
    The duration is 0 for a session that was never answered, and
    otherwise the whole seconds elapsed since the answer. *)
Theorem hangup_ends_the_call env connection m w call :
  JsMap.get (CallHangup.callId m) (activeCalls w) = Some call ->
  let r := handleCallHangup env connection m w in
  let reason := hangupReason (CallHangup.reason m) in
  let duration := callDuration (Call.connectedAt call) (now env) in
  let ended_ := callEnded (Call.id call) reason duration in
  outcome r = Returned tt
  /\ JsMap.get (CallHangup.callId m) (activeCalls (world r)) = None
  /\ (exists sends,
        trace r
        = DbWrite (UpdateCallEnded (Call.id call) (now env) duration reason)
            (negb (dbError env (Q_update_ended (Call.id call))))
          :: sends
        /\ Forall (isSend ended_) sends
        /\ forall c,
             In c (getUserConnections (Call.callerId call)
                     (connectionManager w)) ->
             In (SocketSend (Connection.socket c) ended_) sends)
  /\ (CallHangup.reason m = None \/ CallHangup.reason m = Some EmptyString ->
      reason = "hangup")
  /\ (forall given, CallHangup.reason m = Some given ->
                    given <> EmptyString -> reason = given)
  /\ (Call.connectedAt call = None -> duration = 0%Z)
  /\ (forall t, Call.connectedAt call = Some t -> (t <= now env)%Z ->
        (0 <= duration
         /\ 1000 * duration <= now env - t < 1000 * duration + 1000)%Z).
Proof.
  intros Hget. cbv zeta. rewrite handleCallHangup_run.
  rewrite (endCall_present env _ _ _ Hget). cbv zeta.
  cbn [outcome world trace activeCalls].
  split; [reflexivity|]. split.
  { rewrite JsMapFacts.get_delete, String.eqb_refl. reflexivity. }
  split.
  { eexists. split; [reflexivity|]. split.
    - apply Forall_forall. intros e He. apply in_app_or in He.
      destruct He as [He|He]; exact (In_sendsTo _ _ _ _ He).
    - intros c Hc. apply in_or_app. left. unfold sendsTo.
      apply in_map_iff. exists c. split; [reflexivity|].
      apply filter_In. split; [exact Hc | reflexivity]. }
  split.
  { intros [-> | ->]; reflexivity. }
  split.
  { intros given -> Hne. cbn. apply String.eqb_neq in Hne. rewrite Hne.
    reflexivity. }
  split.
  { intros ->. reflexivity. }
  intros t -> Ht. apply callDuration_floor, Ht.
Qed.

Lemma hangup_ends_the_call_witness :
  JsMap.get "call-1"
    (activeCalls
       (world (handleCallHangup (Example.fair 9500) Example.carolSignaling
                 (CallHangup.mk "call-1" "pair-ab" "carol" "bob"
                    (Some EmptyString))
                 Example.answered1)))
  = None.
Proof.
  refine (proj1 (proj2
            (hangup_ends_the_call (Example.fair 9500) Example.carolSignaling
               (CallHangup.mk "call-1" "pair-ab" "carol" "bob"
                  (Some EmptyString))
               Example.answered1
               (call := Call.mk "call-1" "pair-ab" "alice" "bob" video connected
                          1000%Z (Some 5000%Z) None) _))).
  vm_compute. reflexivity.
Defined.

(** X16: an accepted offer followed by its hangup gives back the
    active-call map: when the offered call id was not in the map and the
    offer is accepted, the map after the hangup of that id is the map
    before the offer, entry for entry. *)
Theorem hangup_undoes_offer env env' connection connection' m h w pairing :
  offerPairing env m w = Some pairing ->
  isMember (Connection.userId connection) pairing = true ->
  activeSessionsOf (otherMember pairing (Connection.userId connection)) w = [] ->
  JsMap.get (CallOffer.callId m) (activeCalls w) = None ->
  CallHangup.callId h = CallOffer.callId m ->
  activeCalls
    (world (handleCallHangup env' connection' h
              (world (handleCallOffer env connection m w))))
  = activeCalls w.
Proof.
  intros Hp Hm Hfree Hfresh Hid.
  assert (Hfind : find (inCall (otherMember pairing
                                  (Connection.userId connection)))
                    (JsMap.values (activeCalls w)) = None).
  { unfold activeSessionsOf in Hfree.
    destruct (find _ _) as [x|] eqn:E; [|reflexivity].
    apply find_some in E. destruct E as [Hin Hx].
    assert (Hf : In x (filter (inCall (otherMember pairing
                                         (Connection.userId connection)))
                         (JsMap.values (activeCalls w))))
      by (apply filter_In; tauto).
    rewrite Hfree in Hf. destruct Hf. }
  rewrite (handleCallOffer_accept env connection m w Hp Hm Hfind). cbv zeta.
  cbn [world]. rewrite handleCallHangup_run.
  match goal with
  | |- context [endCall env' ?c ?r ?w0] =>
      destruct (endCall_shape env' c r w0) as [cm [db [tr E]]]; rewrite E
  end.
  cbn [world activeCalls]. rewrite Hid, JsMapMore.delete_set.
  apply JsMapFacts.delete_absent, Hfresh.
Qed.

Lemma hangup_undoes_offer_witness :
  activeCalls Example.hungUp1 = activeCalls Example.start.
Proof.
  refine (@hangup_undoes_offer (Example.fair 1000) (Example.fair 6000)
            Example.aliceSignaling Example.aliceSignaling Example.offerAB
            (CallHangup.mk "call-1" "pair-ab" "alice" "bob" None)
            Example.start Example.pairingAB _ _ _ _ _);
    vm_compute; reflexivity.
Defined.

(** ** Presence, continued *)

(** X17: a presence_update that names another user than the one of the
    connection is answered with one Forbidden error envelope on the
    sender's socket; nothing is written to the store, nobody is notified,
    the state is as before. *)
Theorem presence_of_others_is_protected env connection m w :
  PresenceUpdate.userId m <> Connection.userId connection ->
  handlePresenceUpdate env connection m w
  = mkResult (Returned tt) w
      [SocketSend (Connection.socket connection) presenceForbiddenError].
Proof.
  intros Hne. unfold handlePresenceUpdate.
  apply String.eqb_neq in Hne. rewrite Hne. cbn [negb]. run.
  destruct (sendThrows env _); reflexivity.
Qed.

Lemma presence_of_others_is_protected_witness :
  handlePresenceUpdate (Example.fair 3000) Example.bobPresence
    (PresenceUpdate.mk "alice" offline None) Example.online1
  = mkResult (Returned tt) Example.online1
      [SocketSend 6 presenceForbiddenError].
Proof.
  apply presence_of_others_is_protected. discriminate.
Defined.

Lemma Forall_sendsTo message ex conns :
  Forall (isSend message) (sendsTo message ex conns).
Proof.
  apply Forall_forall. intros e He. exact (In_sendsTo _ _ _ _ He).
Qed.

Lemma Forall_notifySends env message partnerIds cm :
  Forall (isSend message) (notifySends env message partnerIds cm).
Proof.
  revert cm. induction partnerIds as [|p rest IH]; intros cm; cbn.
  - constructor.
  - apply Forall_app. split; [apply Forall_sendsTo | apply IH].
Qed.

Lemma notifyPairedPartners_footprint env userId status metadata w :
  exists cm tr,
    notifyPairedPartners env userId status metadata w
    = mkResult (Returned tt) (with_connectionManager cm w) tr
    /\ Forall (isSend (partnerPresenceUpdate userId status metadata)) tr.
Proof.
  rewrite notifyPairedPartners_run.
  destruct (selectRows env Q_notify_pairings _) as [pairings|].
  2:{ exists (connectionManager w), [].
      rewrite with_connectionManager_same. split; [reflexivity | constructor]. }
  destruct (selectSingle env Q_notify_profile _) as [pr|].
  2:{ exists (connectionManager w), [].
      rewrite with_connectionManager_same. split; [reflexivity | constructor]. }
  destruct (shouldNotify pr).
  - do 2 eexists. split; [reflexivity | apply Forall_notifySends].
  - exists (connectionManager w), [].
    rewrite with_connectionManager_same. split; [reflexivity | constructor].
Qed.

(** X18: the close of a presence connection removes it from the
    registry and then looks at what is left.  While the user still has a
    registered connection, on whatever channel, nothing else happens:
    no write to the store, no envelope.  When none is left the handler's
    first call asks the store to record the user offline, and every
    further call is a partner_presence_update envelope saying so.  It
    never throws. *)
Theorem offline_only_after_the_last_connection env connection w :
  let userId := Connection.userId connection in
  let cm' :=
    removeConnection (Connection.id connection) (connectionManager w) in
  let r := presenceOnClose env connection w in
  outcome r = Returned tt
  /\ (getUserConnections userId cm' <> [] ->
      r = mkResult (Returned tt) (with_connectionManager cm' w) [])
  /\ (getUserConnections userId cm' = [] ->
      exists sends,
        trace r
        = DbWrite (UpsertPresence (Db.mkPresence userId offline (now env) "{}"))
            (negb (dbError env Q_upsert_presence))
          :: sends
        /\ Forall (isSend (partnerPresenceUpdate userId offline None)) sends).
Proof.
  cbv zeta. unfold presenceOnClose. run.
  destruct (getUserConnections (Connection.userId connection)
              (removeConnection (Connection.id connection)
                 (connectionManager w))) as [|c0 rest] eqn:E;
    cbn [length Nat.ltb Nat.leb negb].
  - run. rewrite updateUserPresence_eq. cbv zeta. run.
    match goal with
    | |- context [notifyPairedPartners env ?u ?s ?md ?w0] =>
        destruct (notifyPairedPartners_footprint env u s md w0)
          as [cm1 [tr [En Ht]]]; rewrite En
    end.
    run. split; [reflexivity|]. split; [intros H; contradiction|].
    intros _. exists tr. rewrite ?app_nil_r. split; [reflexivity | exact Ht].
  - run. split; [reflexivity|]. split; [reflexivity | discriminate].
Qed.

Lemma offline_only_after_the_last_connection_witness :
  trace (presenceOnClose (Example.fair 9000) Example.alicePresence2
           (world (presenceRoute (Example.fair 2000) Example.alicePresence2
                     Example.online1)))
  = [].
Proof.
  pose proof (offline_only_after_the_last_connection (Example.fair 9000)
                Example.alicePresence2
                (world (presenceRoute (Example.fair 2000)
                          Example.alicePresence2 Example.online1)))
    as [_ [H _]].
  rewrite H.
  - reflexivity.
  - vm_compute. discriminate.
Defined.

Lemma partnersPresence_sound env userId db pairings ps partnerId row :
  partnersPresence env userId db pairings = Some ps ->
  In (partnerId, row) ps ->
  (exists pairing, In pairing pairings
                   /\ partnerId = otherMember pairing userId)
  /\ (exists pr, In pr (Db.profiles db) /\ Db.profile_id pr = partnerId
                 /\ (Db.user_type pr = student ->
                     Db.visible_to_partner pr = true))
  /\ In row (Db.presence db) /\ Db.user_id row = partnerId.
Proof.
  revert ps. induction pairings as [|pairing rest IH]; intros ps; cbn.
  - intros [= <-] [].
  - destruct (single (profileOf (otherMember pairing userId) db))
      as [pr|] eqn:Epr; [|discriminate].
    destruct (partnersPresence env userId db rest) as [more|];
      [|discriminate].
    intros [= <-] Hin. apply in_app_or in Hin. destruct Hin as [Hin|Hin].
    + destruct (negb _) eqn:Eshow; [|destruct Hin].
      destruct (selectSingle env _ _) as [pp|] eqn:Epp; [|destruct Hin].
      destruct Hin as [[= <- <-]|[]].
      apply single_In in Epr. unfold profileOf in Epr.
      apply filter_In in Epr. destruct Epr as [Hpr Hid].
      apply String.eqb_eq in Hid.
      apply selectSingle_In in Epp. unfold presenceOf in Epp.
      apply filter_In in Epp. destruct Epp as [Hpp Hu].
      apply String.eqb_eq in Hu.
      split; [exists pairing; split; [left|]; reflexivity|].
      split; [|split; assumption].
      exists pr. split; [exact Hpr|]. split; [exact Hid|].
      intros Hst. rewrite Hst in Eshow. cbn in Eshow.
      destruct (Db.visible_to_partner pr); [reflexivity | discriminate].
    + destruct (IH more eq_refl Hin) as [[p [Hp Hpid]] Hrest].
      split; [exists p; split; [right; exact Hp | exact Hpid] | exact Hrest].
Qed.

(** X19: every partner row of the snapshot [getUserPresenceState]
    builds belongs to the other member of an active pairing of the user,
    is a row of the presence table for that member, and that member's
    profile is not one of a student with visible_to_partner false: the
    initial snapshot never shows a student who switched visibility off.
    (Do-not-disturb does not filter the snapshot.) *)
Theorem snapshot_shows_only_visible_partners env userId db partnerId row :
  In (partnerId, row) (partners (getUserPresenceState env userId db)) ->
  (exists pairing,
      In pairing (Db.pairings db)
      /\ Db.pairing_status pairing = active
      /\ involves userId pairing = true
      /\ partnerId = otherMember pairing userId)
  /\ (exists pr, In pr (Db.profiles db) /\ Db.profile_id pr = partnerId
                 /\ (Db.user_type pr = student ->
                     Db.visible_to_partner pr = true))
  /\ In row (Db.presence db) /\ Db.user_id row = partnerId.
Proof.
  unfold getUserPresenceState.
  destruct (selectRows env Q_state_pairings _) as [pairings|] eqn:Erows;
    [|intros []].
  destruct (partnersPresence env userId db pairings) as [ps|] eqn:Eps;
    [|intros []].
  cbn [partners]. intros Hin.
  destruct (partnersPresence_sound _ _ _ _ _ _ Eps Hin)
    as [[pairing [Hp Hpid]] Hrest].
  split; [|exact Hrest]. exists pairing.
  unfold selectRows in Erows. destruct (dbError env _); [discriminate|].
  injection Erows as <-. unfold activePairingsOf in Hp.
  apply filter_In in Hp. destruct Hp as [Hp Hb]. apply andb_prop in Hb.
  destruct Hb as [Hinv Hact].
  repeat split; try assumption.
  destruct (Db.pairing_status pairing); try discriminate. reflexivity.
Qed.

Lemma snapshot_shows_only_visible_partners_witness :
  In ("alice", Db.mkPresence "alice" online 1000%Z "{}")
    (partners (getUserPresenceState (Example.fair 3000) "bob"
                 (supabase Example.online1)))
  /\ exists pr,
       In pr (Db.profiles (supabase Example.online1))
       /\ Db.profile_id pr = "alice"
       /\ (Db.user_type pr = student -> Db.visible_to_partner pr = true).
Proof.
  assert (Hin : In ("alice", Db.mkPresence "alice" online 1000%Z "{}")
                  (partners (getUserPresenceState (Example.fair 3000) "bob"
                               (supabase Example.online1))))
    by (vm_compute; left; reflexivity).
  split; [exact Hin|].
  exact (proj1 (proj2 (snapshot_shows_only_visible_partners
                         (Example.fair 3000) "bob"
                         (supabase Example.online1) "alice"
                         (Db.mkPresence "alice" online 1000%Z "{}") Hin))).
Defined.

(** X20: every heartbeat is acknowledged: the last call of the handler
    is the heartbeat_ack envelope on the sender's socket, and the handler
    does not throw even if that write does.  A heartbeat without a status
    does nothing else and leaves the state as it was; one with a status
    first asks the store to record it and then sends the
    partner_presence_update envelopes, before the acknowledgement. *)
Theorem heartbeat_is_acknowledged env connection status w :
  let userId := Connection.userId connection in
  let ack := SocketSend (Connection.socket connection) (heartbeatAck env) in
  match status with
  | None => handleHeartbeat env connection None w
            = mkResult (Returned tt) w [ack]
  | Some s =>
      exists w' sends,
        handleHeartbeat env connection (Some s) w
        = mkResult (Returned tt) w'
            (DbWrite (UpsertPresence (Db.mkPresence userId s (now env) "{}"))
               (negb (dbError env Q_upsert_presence))
             :: sends ++ [ack])
        /\ Forall (isSend (partnerPresenceUpdate userId s None)) sends
        /\ activeCalls w' = activeCalls w
  end.
Proof.
  cbv zeta. destruct status as [s|]; unfold handleHeartbeat; run.
  - rewrite updateUserPresence_eq. cbv zeta. run.
    match goal with
    | |- context [notifyPairedPartners env ?u ?s0 ?md ?w0] =>
        destruct (notifyPairedPartners_footprint env u s0 md w0)
          as [cm1 [tr [En Ht]]]; rewrite En
    end.
    run. destruct (sendThrows env (Connection.socket connection)); run;
      do 2 eexists; rewrite ?app_nil_r;
      (split; [reflexivity|]); (split; [exact Ht | reflexivity]).
  - destruct (sendThrows env (Connection.socket connection)); reflexivity.
Qed.

(** X21: the presence route ends the socket exactly when the write of
    the initial presence_state snapshot throws.  In that case the last
    two calls are the snapshot write and the termination of the socket,
    the status having already been recorded as online; otherwise the
    snapshot write is the last call and the socket is never terminated.
    The route itself never throws. *)
Theorem route_terminates_on_failed_snapshot env connection w :
  let r := presenceRoute env connection w in
  let sock := Connection.socket connection in
  let online_ :=
    DbWrite
      (UpsertPresence
         (Db.mkPresence (Connection.userId connection) online (now env) "{}"))
      (negb (dbError env Q_upsert_presence)) in
  outcome r = Returned tt
  /\ exists sends snapshot,
       Forall (isSend (partnerPresenceUpdate (Connection.userId connection)
                         online None)) sends
       /\ trace r
          = online_ :: sends
            ++ SocketSend sock
                 (Envelope.mk "presence_state" "presence"
                    (PresenceStateData snapshot))
            :: (if sendThrows env sock then [Terminate sock] else []).
Proof.
  cbv zeta. unfold presenceRoute, presenceHandler. run.
  rewrite updateUserPresence_eq. cbv zeta. run.
  match goal with
  | |- context [notifyPairedPartners env ?u ?s0 ?md ?w0] =>
      destruct (notifyPairedPartners_footprint env u s0 md w0)
        as [cm1 [tr [En Ht]]]; rewrite En
  end.
  run. destruct (sendThrows env (Connection.socket connection)); run;
    (split; [reflexivity|]); do 2 eexists; (split; [exact Ht|]);
    rewrite ?app_nil_r, <- ?app_assoc; reflexivity.
Qed.

(** ** Chat and authorization, continued *)

(** X22: a chat message from a user whom [hasPermission] refuses for the
    pairing is answered with one Forbidden error envelope on the sender's
    socket: nothing is stored, nothing is delivered, the state is as
    before. *)
Theorem unauthorized_message_is_not_stored env connection m w :
  hasPermission_send_message env (Connection.userId connection)
    (ChatMessage.pairingId m) (supabase w) = false ->
  handleChatMessage env connection m w
  = mkResult (Returned tt) w
      [SocketSend (Connection.socket connection) forbiddenError].
Proof.
  intros H. rewrite handleChatMessage_run. cbv zeta. rewrite H. reflexivity.
Qed.

Lemma unauthorized_message_is_not_stored_witness :
  handleChatMessage (Example.fair 1000) Example.bobChat
    (ChatMessage.mk "tmp-9" "pair-ac" "hi" text "bob") Example.chatStart
  = mkResult (Returned tt) Example.chatStart [SocketSend 8 forbiddenError].
Proof.
  apply unauthorized_message_is_not_stored. vm_compute. reflexivity.
Defined.

Lemma selectSingleIf_In {A} error (l : list A) (x : A) :
  selectSingleIf error l = Some x -> In x l.
Proof.
  unfold selectSingleIf. destruct error; [discriminate | apply single_In].
Qed.

Lemma pairingById_In pairingId db pairing :
  In pairing (pairingById pairingId db) ->
  In pairing (Db.pairings db) /\ Db.pairing_id pairing = pairingId.
Proof.
  unfold pairingById. rewrite filter_In. intros [H E].
  apply String.eqb_eq in E. tauto.
Qed.

(** X23: [hasPermission] grants an action only to a user whose profile
    is found, and then only to an admin or, for read_pairing,
    update_pairing and send_message, to a member of the pairing named as
    the resource; for send_message the pairing must moreover be active.
    Any other action is refused to everyone but admins.  For
    send_message it is the check the chat handler goes through. *)
Theorem permission_needs_membership env more userId action resourceId db :
  (hasPermission env more userId action resourceId db = true ->
   exists profile,
     In profile (Db.profiles db) /\ Db.profile_id profile = userId
     /\ (Db.user_type profile = admin
         \/ exists r pairing,
              resourceId = Some r
              /\ In pairing (Db.pairings db)
              /\ Db.pairing_id pairing = r
              /\ involves userId pairing = true
              /\ (action = "read_pairing" \/ action = "update_pairing"
                  \/ (action = "send_message"
                      /\ Db.pairing_status pairing = active))))
  /\ (forall r,
        hasPermission env more userId "send_message" (Some r) db
        = hasPermission_send_message env userId r db).
Proof.
  split.
  - unfold hasPermission.
    destruct (selectSingle env Q_getUserProfile _) as [profile|] eqn:Ep;
      [|discriminate].
    apply selectSingle_In in Ep. unfold profileOf in Ep.
    apply filter_In in Ep. destruct Ep as [Hin Hid].
    apply String.eqb_eq in Hid.
    intros H. exists profile. split; [exact Hin|]. split; [exact Hid|].
    destruct (UserType_beq (Db.user_type profile) admin) eqn:Eadm.
    { left. destruct (Db.user_type profile); try discriminate. reflexivity. }
    right.
    destruct (String.eqb_spec action "read_pairing") as [Ea|Ea];
      [|destruct (String.eqb_spec action "update_pairing") as [Eb|Eb]];
      cbn [orb] in H.
    + destruct resourceId as [r|]; [|discriminate].
      destruct (r =? EmptyString); [discriminate|].
      destruct (selectSingleIf _ _) as [pairing|] eqn:Eq; [|discriminate].
      apply selectSingleIf_In, pairingById_In in Eq. destruct Eq as [Hp Hr].
      exists r, pairing. repeat split; auto.
    + destruct resourceId as [r|]; [|discriminate].
      destruct (r =? EmptyString); [discriminate|].
      destruct (selectSingleIf _ _) as [pairing|] eqn:Eq; [|discriminate].
      apply selectSingleIf_In, pairingById_In in Eq. destruct Eq as [Hp Hr].
      exists r, pairing. repeat split; auto.
    + destruct (String.eqb_spec action "send_message") as [Ec|Ec];
        [|discriminate].
      destruct resourceId as [r|]; [|discriminate].
      destruct (r =? EmptyString); [discriminate|].
      destruct (selectSingle env Q_hasPermission_pairing _) as [pairing|] eqn:Eq;
        [|discriminate].
      apply selectSingle_In, pairingById_In in Eq. destruct Eq as [Hp Hr].
      apply andb_prop in H. destruct H as [Hact Hinv].
      exists r, pairing. repeat split; auto. right. right. split; [exact Ec|].
      destruct (Db.pairing_status pairing); try discriminate. reflexivity.
  - intros r. reflexivity.
Qed.

Lemma permission_needs_membership_witness :
  exists profile,
    In profile (Db.profiles Example.db) /\ Db.profile_id profile = "alice"
    /\ (Db.user_type profile = admin
        \/ exists r pairing,
             Some "pair-ab" = Some r
             /\ In pairing (Db.pairings Example.db)
             /\ Db.pairing_id pairing = r
             /\ involves "alice" pairing = true
             /\ ("update_pairing" = "read_pairing"
                 \/ "update_pairing" = "update_pairing"
                 \/ ("update_pairing" = "send_message"
                     /\ Db.pairing_status pairing = active))).
Proof.
  refine (proj1 (permission_needs_membership (Example.fair 0) noErrors
                   "alice" "update_pairing" (Some "pair-ab") Example.db) _).
  vm_compute. reflexivity.
Defined.

Lemma sendsTo_all message conns :
  sendsTo message None conns
  = map (fun c => SocketSend (Connection.socket c) message) conns.
Proof.
  unfold sendsTo. cbn [excluded negb].
  induction conns as [|c l IH]; cbn; [reflexivity|]. rewrite IH. reflexivity.
Qed.

(** X24: a typing envelope is relayed and nothing more: the handler
    never throws, asks no write of the store and leaves the store and the
    active-call map as they were.  When the pairing is found, its calls
    are one typing_indicator envelope, carrying the user id, pairing id
    and flag of the incoming envelope, to each connection of the member
    of the pairing other than the connection's user; when it is not
    found, the handler does nothing. *)
Theorem typing_is_relayed_not_stored env more connection m w :
  let r := handleTypingIndicator env more connection m w in
  outcome r = Returned tt
  /\ activeCalls (world r) = activeCalls w
  /\ supabase (world r) = supabase w
  /\ match selectSingleIf (more Q_typing_pairing)
             (pairingById (TypingIndicator.pairingId m) (supabase w)) with
     | None => r = mkResult (Returned tt) w []
     | Some pairing =>
         trace r
         = map (fun c => SocketSend (Connection.socket c)
                           (typingIndicator (TypingIndicator.userId m)
                              (TypingIndicator.pairingId m)
                              (TypingIndicator.isTyping m)))
             (getUserConnections
                (otherMember pairing (Connection.userId connection))
                (connectionManager w))
     end.
Proof.
  cbv zeta. unfold handleTypingIndicator. run.
  destruct (selectSingleIf _ _) as [pairing|]; run.
  - rewrite sendsTo_all. repeat split.
  - repeat split.
Qed.

Lemma removeAll_app ids1 ids2 cm :
  removeAll ids2 (removeAll ids1 cm) = removeAll (ids1 ++ ids2) cm.
Proof. unfold removeAll. rewrite fold_left_app. reflexivity. Qed.

Lemma clearTypingIndicator_is_clearTypingIndicatorIf env userId pairingId w :
  clearTypingIndicator env userId pairingId w
  = clearTypingIndicatorIf (dbError env Q_clearTyping_pairing) env userId
      pairingId w.
Proof. reflexivity. Qed.

Lemma clearTypingIndicatorIf_footprint error env userId pairingId w :
  exists ids tr,
    clearTypingIndicatorIf error env userId pairingId w
    = mkResult (Returned tt)
        (with_connectionManager (removeAll ids (connectionManager w)) w) tr
    /\ Forall (isSend (typingIndicator userId pairingId false)) tr.
Proof.
  unfold clearTypingIndicatorIf. run.
  destruct (selectSingleIf error _) as [pairing|]; run.
  - do 2 eexists. split; [reflexivity | apply Forall_sendsTo].
  - exists [], []. cbn. rewrite with_connectionManager_same.
    split; [reflexivity | constructor].
Qed.

Lemma clearEach_footprint env more userId pairings w :
  exists ids tr,
    clearEach env more userId pairings w
    = mkResult (Returned tt)
        (with_connectionManager (removeAll ids (connectionManager w)) w) tr
    /\ Forall (fun e => exists pairing,
                 In pairing pairings
                 /\ isSend (typingIndicator userId (Db.pairing_id pairing) false)
                      e) tr.
Proof.
  revert w. induction pairings as [|pairing rest IH]; intros w.
  - exists [], []. cbn. rewrite with_connectionManager_same.
    split; [reflexivity | constructor].
  - cbn [clearEach]. unfold bind.
    destruct (clearTypingIndicatorIf_footprint
                (more (Q_clearAll_pairing (Db.pairing_id pairing))) env userId
                (Db.pairing_id pairing) w) as [ids1 [tr1 [E1 H1]]].
    rewrite E1.
    destruct (IH (with_connectionManager
                    (removeAll ids1 (connectionManager w)) w))
      as [ids2 [tr2 [E2 H2]]].
    rewrite E2. cbn [connectionManager with_connectionManager].
    rewrite removeAll_app. exists (ids1 ++ ids2), (tr1 ++ tr2).
    split; [reflexivity|]. apply Forall_app. split.
    + eapply Forall_impl; [|exact H1]. intros e He. exists pairing.
      split; [left; reflexivity | exact He].
    + eapply Forall_impl; [|exact H2]. intros e [p [Hp He]]. exists p.
      split; [right; exact Hp | exact He].
Qed.

(** X25: the close of a chat connection takes the connection out of the
    registry for good and clears the user's typing indicators: the
    handler never throws, asks no write of the store, leaves the store
    and the active-call map as they were, and each of its calls is a
    typing_indicator envelope with isTyping false for the user and one
    of the user's active pairings. *)
Theorem chat_close_clears_typing env more connection w :
  let userId := Connection.userId connection in
  let r := chatOnClose env more connection w in
  outcome r = Returned tt
  /\ activeCalls (world r) = activeCalls w
  /\ supabase (world r) = supabase w
  /\ JsMap.get (Connection.id connection)
       (connections (connectionManager (world r))) = None
  /\ Forall (fun e => exists pairing,
               In pairing (Db.pairings (supabase w))
               /\ Db.pairing_status pairing = active
               /\ involves userId pairing = true
               /\ isSend (typingIndicator userId (Db.pairing_id pairing) false)
                    e)
       (trace r).
Proof.
  cbv zeta. unfold chatOnClose, clearTypingIndicators. run.
  assert (Hgone : forall ids,
            JsMap.get (Connection.id connection)
              (connections
                 (removeAll ids
                    (removeConnection (Connection.id connection)
                       (connectionManager w)))) = None).
  { intros ids. rewrite get_removeAll, connections_remove,
      JsMapFacts.get_delete, String.eqb_refl.
    destruct (existsb _ ids); reflexivity. }
  destruct (more Q_clearAll_pairings).
  - run. repeat split; [|constructor]. apply (Hgone []).
  - match goal with
    | |- context [clearEach env more ?u ?l ?w0] =>
        destruct (clearEach_footprint env more u l w0)
          as [ids [tr [E Ht]]]; rewrite E
    end.
    run. repeat split; [apply Hgone|].
    eapply Forall_impl; [|exact Ht]. intros e [p [Hp He]].
    unfold activePairingsOf in Hp. cbn [supabase with_connectionManager] in Hp.
    apply filter_In in Hp. destruct Hp as [Hp Hb]. apply andb_prop in Hb.
    destruct Hb as [Hinv Hact]. exists p. repeat split; try assumption.
    destruct (Db.pairing_status p); try discriminate. reflexivity.
Qed.

(** X26: the recipient the relays compute.  For a member of a pairing
    [otherMember] is again a member, and when the two members differ it
    is the other one: never the user itself, and applying it twice gives
    the user back.  For a user who is not a member (an admin writing
    into a pairing) it is the student of the pairing. *)
Theorem otherMember_is_the_counterpart pairing userId :
  (involves userId pairing = true ->
   involves (otherMember pairing userId) pairing = true
   /\ (Db.student_id pairing <> Db.parent_id pairing ->
       otherMember pairing userId <> userId
       /\ otherMember pairing (otherMember pairing userId) = userId))
  /\ (involves userId pairing = false ->
      otherMember pairing userId = Db.student_id pairing).
Proof.
  unfold involves, otherMember. split.
  - intros H.
    destruct (String.eqb_spec (Db.student_id pairing) userId) as [Hs|Hs].
    + split.
      * rewrite String.eqb_refl. apply orb_true_r.
      * intros Hd. split; [congruence|].
        destruct (String.eqb_spec (Db.student_id pairing) (Db.parent_id pairing));
          congruence.
    + cbn in H. apply String.eqb_eq in H. split.
      * rewrite String.eqb_refl. reflexivity.
      * intros Hd. split; [congruence|]. rewrite String.eqb_refl. exact H.
  - intros H. apply orb_false_iff in H. destruct H as [-> _]. reflexivity.
Qed.

Lemma otherMember_is_the_counterpart_witness :
  otherMember Example.pairingAB "alice" <> "alice"
  /\ otherMember Example.pairingAB (otherMember Example.pairingAB "alice")
     = "alice".
Proof.
  refine (proj2 (proj1 (otherMember_is_the_counterpart Example.pairingAB
                          "alice") _) _).
  - reflexivity.
  - discriminate.
Defined.

(** *** Bearer tokens *)

Lemma substring_all s : String.substring 0 (String.length s) s = s.
Proof. induction s as [|a s IH]; cbn; [reflexivity|]. rewrite IH. reflexivity. Qed.

Lemma prefix_split p s :
  String.prefix p s = true -> exists rest, s = String.append p rest.
Proof.
  revert s. induction p as [|a p IH]; intros s.
  - intros _. exists s. reflexivity.
  - destruct s as [|b s]; cbn; [discriminate|].
    destruct (Ascii.ascii_dec a b) as [->|]; [|discriminate].
    intros H. destruct (IH s H) as [rest ->]. exists rest. reflexivity.
Qed.

Lemma extract_of_bearer t :
  extractBearerToken (Some (String.append "Bearer " t)) = Some t.
Proof.
  unfold extractBearerToken. cbn.
  rewrite Nat.sub_0_r, substring_all. destruct t; reflexivity.
Qed.

(** X27: [extractBearerToken] undoes the "Bearer " prefix: from the
    header made of "Bearer " followed by a token it returns that token,
    empty or not, and whenever it returns a token the header was
    "Bearer " followed by exactly that token; a missing header, an empty
    one and one with another scheme give nothing. *)
Theorem bearer_token_round_trip :
  (forall t, extractBearerToken (Some (String.append "Bearer " t)) = Some t)
  /\ (forall authHeader t,
        extractBearerToken authHeader = Some t ->
        authHeader = Some (String.append "Bearer " t))
  /\ extractBearerToken None = None
  /\ extractBearerToken (Some EmptyString) = None
  /\ extractBearerToken (Some "Basic dXNlcjpwYXNz") = None
  /\ extractBearerToken (Some "bearer abc") = None.
Proof.
  split; [exact extract_of_bearer|]. split; [|repeat split].
  intros [h|] t; [|discriminate]. intros H.
  assert (Hp : String.prefix "Bearer " h = true).
  { unfold extractBearerToken in H.
    destruct (String.prefix "Bearer " h); [reflexivity|].
    rewrite orb_true_r in H. discriminate. }
  destruct (prefix_split _ _ Hp) as [rest ->].
  rewrite extract_of_bearer in H. congruence.
Qed.

Lemma bearer_token_round_trip_witness :
  Some "Bearer abc.def" = Some (String.append "Bearer " "abc.def").
Proof.
  refine (proj1 (proj2 bearer_token_round_trip) (Some "Bearer abc.def")
            "abc.def" _).
  reflexivity.
Defined.
